(** * Donut exchange: a shallow embedding of the exchange core

    The development follows the TypeScript sources of the backend:
    [OrderRepository] (order-book snapshot), [OutletRepository]
    (outlet entities) and [ExchangeService] (inventory cache, customer
    sales, leaderboard, order creation).

    Conventions.
    - A JavaScript [number] is an exact rational ([Q]); rounding of
      IEEE doubles, [NaN] and the infinities are outside the model.
    - A [Date] is the integer number of milliseconds it denotes ([Z]).
    - A JavaScript [Map] is a [gmap]; a table of the TypeDB store is the
      list of the entities it holds, in the order the store answers.
    - Values read from the clock or from [Math.random] (identifiers,
      timestamps) are passed to the operations as arguments.
    - [async] code is read sequentially, one call at a time. *)

From Stdlib Require Import QArith Qminmax Lqa ZArith.
From stdpp Require Import gmap strings list fin_maps sorting pretty.

Open Scope Q_scope.

(** ** JavaScript primitives *)

Module Js.

(** [v || d] on an optional number: [undefined] and [0] are falsy. *)
Definition orElse (v : option Q) (d : Q) : Q :=
  match v with
  | Some x => if Qeq_bool x 0 then d else x
  | None => d
  end.

(** [v !== undefined ? v : d]. *)
Definition definedOr {A : Type} (v : option A) (d : A) : A :=
  match v with
  | Some x => x
  | None => d
  end.

(** [a < b] on numbers. *)
Definition lt (a b : Q) : bool := negb (Qle_bool b a).

Section Sort.
Context {A : Type}.
(** The comparator of [Array.prototype.sort]: a negative or zero
    result keeps the first argument in front. *)
Variable cmp : A -> A -> Q.

Fixpoint sortInsert (x : A) (l : list A) : list A :=
  match l with
  | [] => [x]
  | y :: l' =>
      if Qle_bool (cmp x y) 0 then x :: y :: l' else y :: sortInsert x l'
  end.

(** [Array.prototype.sort] is stable; on a consistent comparator it
    is determined by that, and the insertion sort below computes it. *)
Definition sort (l : list A) : list A := foldr sortInsert [] l.
End Sort.

(** [new Date(text)] on the text [date.toISOString().replace('Z', '')]:
    the wall clock of [date] in UTC, written without a zone, is read
    back as a wall clock of the host. [offset] is what the clock of the
    host is ahead of UTC, in milliseconds. *)
Definition readAsLocal (offset : Z) (date : Z) : Z := (date - offset)%Z.

End Js.

(** ** models/types *)

(** Modelled from the spec: the enums and records of [models/types],
    which is not under src/; the fields are those the repositories and
    the service read and write. *)
Inductive OrderSide := BUY | SELL.

Inductive OrderStatus := ACTIVE | PARTIALLY_FILLED | FILLED | CANCELLED.

#[global] Instance OrderSide_eq_dec : EqDecision OrderSide.
Proof. solve_decision. Defined.

#[global] Instance OrderStatus_eq_dec : EqDecision OrderStatus.
Proof. solve_decision. Defined.

Record Order := mkOrder {
  order_orderId : string;
  order_side : OrderSide;
  order_donutTypeId : string;
  order_quantity : Q;
  order_pricePerUnit : Q;
  order_status : OrderStatus;
  order_outletId : string;
  order_createdAt : Z;
  order_updatedAt : Z
}.

Record CreateOrderRequest := mkCreateOrderRequest {
  req_outletId : string;
  req_donutTypeId : string;
  req_side : OrderSide;
  req_quantity : Q;
  req_pricePerUnit : Q
}.

Record OrderBookEntry := mkOrderBookEntry {
  entry_orderId : string;
  entry_outletId : string;
  entry_quantity : Q;
  entry_pricePerUnit : Q;
  entry_status : OrderStatus;
  entry_createdAt : Z
}.

Record OrderBook := mkOrderBook {
  book_donutTypeId : string;
  buyOrders : list OrderBookEntry;
  sellOrders : list OrderBookEntry
}.

Record Outlet := mkOutlet {
  outlet_outletId : string;
  outlet_outletName : string;
  outlet_location : string;
  outlet_balance : Q;
  outlet_marginPercent : Q;
  outlet_isOpen : bool;
  outlet_createdAt : Z
}.

Record CustomerSale := mkCustomerSale {
  sale_saleId : string;
  sale_outletId : string;
  sale_donutTypeId : string;
  sale_quantity : Q;
  sale_costBasis : Q;
  sale_revenue : Q;
  sale_profit : Q;
  sale_executedAt : Z
}.

Record OutletStats := mkOutletStats {
  stats_outletId : string;
  stats_outletName : string;
  stats_balance : Q;
  stats_customerSalesRevenue : Q;
  stats_customerSalesCount : Q;
  stats_exchangeSalesRevenue : Q;
  stats_exchangeSalesCount : Q;
  stats_netProfit : Q;
  stats_averageMargin : Q
}.

(** ** The store helper *)

(** What [TransactionHelper.executeReadQuery] hands back: a response
    with its answer type, or a rejected promise. *)
Inductive AnswerType := conceptDocuments | conceptRows | okAnswer.

Record QueryResponse (D : Type) := mkQueryResponse {
  answerType : AnswerType;
  answers : list D
}.
Arguments mkQueryResponse {D} _ _.
Arguments answerType {D} _.
Arguments answers {D} _.

Inductive ReadOutcome (D : Type) :=
| ReadOk (response : QueryResponse D)
| ReadRejected (reason : string).
Arguments ReadOk {D} _.
Arguments ReadRejected {D} _.

(** ** OrderRepository *)

Module OrderRepository.

(** An order of the store with its [order-placement]: the type of the
    order entity gives the side, the placement the outlet and the
    donut type. [row_createdAt] and [row_updatedAt] are the dates
    [new Date] reads from the text of [created-at] and [updated-at]. *)
Record OrderRow := mkOrderRow {
  row_orderId : string;
  row_side : OrderSide;
  row_quantity : Q;
  row_pricePerUnit : Q;
  row_status : OrderStatus;
  row_createdAt : Z;
  row_updatedAt : Z;
  row_outletId : string;
  row_donutTypeId : string
}.

(** The document of one answer of [sellQuery] and [buyQuery]. *)
Record OrderDoc := mkOrderDoc {
  doc_orderId : string;
  doc_outletId : string;
  doc_quantity : Q;
  doc_pricePerUnit : Q;
  doc_status : OrderStatus;
  doc_createdAt : Z
}.

Definition docOfRow (r : OrderRow) : OrderDoc :=
  {| doc_orderId := row_orderId r;
     doc_outletId := row_outletId r;
     doc_quantity := row_quantity r;
     doc_pricePerUnit := row_pricePerUnit r;
     doc_status := row_status r;
     doc_createdAt := row_createdAt r |}.

(** [match $order isa sell-order, has status $status; $placement ...
    has donut-type-id "<donutTypeId>"; fetch {...}]. *)
Definition sideQuery (side : OrderSide) (rows : list OrderRow)
    (donutTypeId : string) : list OrderDoc :=
  docOfRow <$>
    filter (λ r, row_side r = side ∧ row_donutTypeId r = donutTypeId) rows.

Definition sellQuery := sideQuery SELL.
Definition buyQuery := sideQuery BUY.

Definition parseStatus (status : OrderStatus) : OrderStatus := status.

Definition entryOfDoc (doc : OrderDoc) : OrderBookEntry :=
  {| entry_orderId := doc_orderId doc;
     entry_outletId := doc_outletId doc;
     entry_quantity := doc_quantity doc;
     entry_pricePerUnit := doc_pricePerUnit doc;
     entry_status := parseStatus (doc_status doc);
     entry_createdAt := doc_createdAt doc |}.

(** The loop pushing the answers of one response. *)
Definition pushAll (response : QueryResponse OrderDoc) : list OrderBookEntry :=
  match answerType response with
  | conceptDocuments => entryOfDoc <$> answers response
  | _ => []
  end.

Definition isMatchable (status : OrderStatus) : bool :=
  bool_decide (status = ACTIVE) || bool_decide (status = PARTIALLY_FILLED).

(** [(a, b) => b.createdAt.getTime() - a.createdAt.getTime()]. *)
Definition newestFirst (a b : OrderBookEntry) : Q :=
  inject_Z (entry_createdAt b) - inject_Z (entry_createdAt a).

(** The body of the [try] block: [Promise.all] rejects as soon as one
    of the two reads does. *)
Definition getOrderBookTry (sellOutcome buyOutcome : ReadOutcome OrderDoc)
    (donutTypeId : string) (includeAll : bool) : string + OrderBook :=
  match sellOutcome, buyOutcome with
  | ReadRejected reason, _ => inl reason
  | _, ReadRejected reason => inl reason
  | ReadOk sellResponse, ReadOk buyResponse =>
      let sellOrders := pushAll sellResponse in
      let buyOrders := pushAll buyResponse in
      let filteredSellOrders :=
        if includeAll then sellOrders
        else List.filter (λ o, isMatchable (entry_status o)) sellOrders in
      let filteredBuyOrders :=
        if includeAll then buyOrders
        else List.filter (λ o, isMatchable (entry_status o)) buyOrders in
      inr {| book_donutTypeId := donutTypeId;
             buyOrders := Js.sort newestFirst filteredBuyOrders;
             sellOrders := Js.sort newestFirst filteredSellOrders |}
  end.

(** [getOrderBook]: the [catch] clause turns a failure of the block
    into an empty book. The result is either the returned book or the
    error that reaches the caller. *)
Definition getOrderBook (sellOutcome buyOutcome : ReadOutcome OrderDoc)
    (donutTypeId : string) (includeAll : bool) : string + OrderBook :=
  match getOrderBookTry sellOutcome buyOutcome donutTypeId includeAll with
  | inr book => inr book
  | inl _ =>
      inr {| book_donutTypeId := donutTypeId; buyOrders := []; sellOrders := [] |}
  end.

(** The snapshot of a reachable store holding [rows]. *)
Definition snapshot (rows : list OrderRow) (donutTypeId : string)
    (includeAll : bool) : string + OrderBook :=
  getOrderBook
    (ReadOk (mkQueryResponse conceptDocuments (sellQuery rows donutTypeId)))
    (ReadOk (mkQueryResponse conceptDocuments (buyQuery rows donutTypeId)))
    donutTypeId includeAll.


(** [create]: the first query inserts the order entity, the second
    one inserts an [order-placement] for every outlet entity carrying
    the outlet id. The table of placed orders gains one row per
    match; an order without placement is matched by no query of the
    repository. [now] is the date [new Date(now)] reads from the text
    [formatDateTime(new Date())], which the insert carries and the
    result is built from. *)
Definition create (outletIds : list string) (rows : list OrderRow)
    (orderId : string) (now : Z) (order : CreateOrderRequest)
    : list OrderRow * Order :=
  let row :=
    {| row_orderId := orderId;
       row_side := req_side order;
       row_quantity := req_quantity order;
       row_pricePerUnit := req_pricePerUnit order;
       row_status := ACTIVE;
       row_createdAt := now;
       row_updatedAt := now;
       row_outletId := req_outletId order;
       row_donutTypeId := req_donutTypeId order |} in
  (rows ++ ((λ _, row) <$>
             List.filter (λ i, bool_decide (i = req_outletId order)) outletIds),
   {| order_orderId := orderId;
      order_side := req_side order;
      order_donutTypeId := req_donutTypeId order;
      order_quantity := req_quantity order;
      order_pricePerUnit := req_pricePerUnit order;
      order_status := ACTIVE;
      order_outletId := req_outletId order;
      order_createdAt := now;
      order_updatedAt := now |}).

(** [findById]: the first answer of the query, with the side read
    from the type of the order entity. *)
Definition findById (rows : list OrderRow) (orderId : string) : option Order :=
  match List.filter (λ r, bool_decide (row_orderId r = orderId)) rows with
  | [] => None
  | doc :: _ =>
      let side :=
        if existsb (λ r, bool_decide (row_orderId r = orderId)
                         && bool_decide (row_side r = SELL)) rows
        then SELL else BUY in
      Some {| order_orderId := row_orderId doc;
              order_side := side;
              order_donutTypeId := row_donutTypeId doc;
              order_quantity := row_quantity doc;
              order_pricePerUnit := row_pricePerUnit doc;
              order_status := row_status doc;
              order_outletId := row_outletId doc;
              order_createdAt := row_createdAt doc;
              order_updatedAt := row_updatedAt doc |}
  end.

(** [updateStatus]: every order entity carrying the id gets the status
    and a new [updated-at]. *)
Definition updateStatus (rows : list OrderRow) (orderId : string)
    (status : OrderStatus) (now : Z) : list OrderRow :=
  (λ r,
     if bool_decide (row_orderId r = orderId)
     then {| row_orderId := row_orderId r;
             row_side := row_side r;
             row_quantity := row_quantity r;
             row_pricePerUnit := row_pricePerUnit r;
             row_status := status;
             row_createdAt := row_createdAt r;
             row_updatedAt := now;
             row_outletId := row_outletId r;
             row_donutTypeId := row_donutTypeId r |}
     else r) <$> rows.

(** [updateQuantity]: likewise for the quantity. *)
Definition updateQuantity (rows : list OrderRow) (orderId : string)
    (newQuantity : Q) (now : Z) : list OrderRow :=
  (λ r,
     if bool_decide (row_orderId r = orderId)
     then {| row_orderId := row_orderId r;
             row_side := row_side r;
             row_quantity := newQuantity;
             row_pricePerUnit := row_pricePerUnit r;
             row_status := row_status r;
             row_createdAt := row_createdAt r;
             row_updatedAt := now;
             row_outletId := row_outletId r;
             row_donutTypeId := row_donutTypeId r |}
     else r) <$> rows.

End OrderRepository.

(** ** OutletRepository *)

Module OutletRepository.

(** An outlet entity of the store, as [fetch { $outlet.* }] answers
    it; an attribute the entity does not own is absent.
    [doc_created_at] is the date [new Date] reads from the text of
    [created-at]. *)
Record OutletDoc := mkOutletDoc {
  doc_outlet_id : string;
  doc_outlet_name : string;
  doc_location : string;
  doc_balance : Q;
  doc_margin_percent : option Q;
  doc_outlet_open : option bool;
  doc_created_at : Z
}.

(** The argument of [create]: an [Outlet] without [createdAt]. *)
Record NewOutlet := mkNewOutlet {
  new_outletId : string;
  new_outletName : string;
  new_location : string;
  new_balance : Q;
  new_marginPercent : Q;
  new_isOpen : bool
}.

(** [create] inserts the entity and returns
    [{ ...outlet, createdAt: new Date() }]. [now] is the clock read
    for the query, [createdAt] the one for the result. The query
    carries [now] as the text of its wall clock in UTC without a zone;
    [created-at] of the entity is what [new Date] reads from that text
    on a host whose clock is [offset] ahead of UTC. *)
Definition create (offset : Z) (docs : list OutletDoc) (now createdAt : Z)
    (outlet : NewOutlet) : list OutletDoc * Outlet :=
  let marginPercent := Js.orElse (Some (new_marginPercent outlet)) 25 in
  let isOpen := Js.definedOr (Some (new_isOpen outlet)) true in
  (docs ++ [ {| doc_outlet_id := new_outletId outlet;
                doc_outlet_name := new_outletName outlet;
                doc_location := new_location outlet;
                doc_balance := new_balance outlet;
                doc_margin_percent := Some marginPercent;
                doc_outlet_open := Some isOpen;
                doc_created_at := Js.readAsLocal offset now |} ],
   {| outlet_outletId := new_outletId outlet;
      outlet_outletName := new_outletName outlet;
      outlet_location := new_location outlet;
      outlet_balance := new_balance outlet;
      outlet_marginPercent := new_marginPercent outlet;
      outlet_isOpen := new_isOpen outlet;
      outlet_createdAt := createdAt |}).

Definition findById (docs : list OutletDoc) (outletId : string) : option Outlet :=
  match List.filter (λ d, bool_decide (doc_outlet_id d = outletId)) docs with
  | doc :: _ =>
      Some {| outlet_outletId := outletId;
              outlet_outletName := doc_outlet_name doc;
              outlet_location := doc_location doc;
              outlet_balance := doc_balance doc;
              outlet_marginPercent := Js.orElse (doc_margin_percent doc) 25;
              outlet_isOpen := Js.definedOr (doc_outlet_open doc) true;
              outlet_createdAt := doc_created_at doc |}
  | [] => None
  end.

Definition findAll (docs : list OutletDoc) : list Outlet :=
  (λ doc,
     {| outlet_outletId := doc_outlet_id doc;
        outlet_outletName := doc_outlet_name doc;
        outlet_location := doc_location doc;
        outlet_balance := doc_balance doc;
        outlet_marginPercent := Js.orElse (doc_margin_percent doc) 25;
        outlet_isOpen := Js.definedOr (doc_outlet_open doc) true;
        outlet_createdAt := doc_created_at doc |}) <$> docs.

(** [match $outlet ... has outlet-id "<outletId>"; update $outlet has
    balance <newBalance>]: every matching entity is updated. *)
Definition updateBalance (docs : list OutletDoc) (outletId : string)
    (newBalance : Q) : list OutletDoc :=
  (λ d,
     if bool_decide (doc_outlet_id d = outletId)
     then {| doc_outlet_id := doc_outlet_id d;
             doc_outlet_name := doc_outlet_name d;
             doc_location := doc_location d;
             doc_balance := newBalance;
             doc_margin_percent := doc_margin_percent d;
             doc_outlet_open := doc_outlet_open d;
             doc_created_at := doc_created_at d |}
     else d) <$> docs.

Definition updateMargin (docs : list OutletDoc) (outletId : string)
    (newMarginPercent : Q) : list OutletDoc :=
  (λ d,
     if bool_decide (doc_outlet_id d = outletId)
     then {| doc_outlet_id := doc_outlet_id d;
             doc_outlet_name := doc_outlet_name d;
             doc_location := doc_location d;
             doc_balance := doc_balance d;
             doc_margin_percent := Some newMarginPercent;
             doc_outlet_open := doc_outlet_open d;
             doc_created_at := doc_created_at d |}
     else d) <$> docs.

Definition toggleOpen (docs : list OutletDoc) (outletId : string)
    (isOpen : bool) : list OutletDoc :=
  (λ d,
     if bool_decide (doc_outlet_id d = outletId)
     then {| doc_outlet_id := doc_outlet_id d;
             doc_outlet_name := doc_outlet_name d;
             doc_location := doc_location d;
             doc_balance := doc_balance d;
             doc_margin_percent := doc_margin_percent d;
             doc_outlet_open := Some isOpen;
             doc_created_at := doc_created_at d |}
     else d) <$> docs.

(** [match $outlet isa outlet; update $outlet has outlet-open <isOpen>]:
    every outlet entity, the factory among them. *)
Definition toggleAllOpen (docs : list OutletDoc) (isOpen : bool)
    : list OutletDoc :=
  (λ d,
     {| doc_outlet_id := doc_outlet_id d;
        doc_outlet_name := doc_outlet_name d;
        doc_location := doc_location d;
        doc_balance := doc_balance d;
        doc_margin_percent := doc_margin_percent d;
        doc_outlet_open := Some isOpen;
        doc_created_at := doc_created_at d |}) <$> docs.

End OutletRepository.

(** ** ExchangeService *)

Module ExchangeService.

Record OutletSalesStats := mkOutletSalesStats {
  customerSalesRevenue : Q;
  customerSalesCount : Q;
  exchangeSalesRevenue : Q;
  exchangeSalesCount : Q
}.

(** The event the matching engine hands to [onTradeExecuted]. *)
Record TradeEvent := mkTradeEvent {
  event_sellerOutletId : string;
  event_buyerOutletId : string;
  event_donutTypeId : string;
  event_quantity : Q;
  event_totalAmount : Q
}.

(** The store behind the repositories and the two caches of the
    service. The store is reachable: its queries answer. *)
Record State := mkState {
  outletDb : list OutletRepository.OutletDoc;
  donutTypeDb : list string;
  orderDb : list OrderRepository.OrderRow;
  inventoryDb : gmap (string * string) Q;
  customerSaleDb : list CustomerSale;
  salesStatsCache : gmap string OutletSalesStats;
  inventoryCache : gmap string (gmap string Q)
}.

Definition withOutletDb (st : State) (v : list OutletRepository.OutletDoc) :=
  mkState v (donutTypeDb st) (orderDb st) (inventoryDb st)
          (customerSaleDb st) (salesStatsCache st) (inventoryCache st).
Definition withOrderDb (st : State) (v : list OrderRepository.OrderRow) :=
  mkState (outletDb st) (donutTypeDb st) v (inventoryDb st)
          (customerSaleDb st) (salesStatsCache st) (inventoryCache st).
Definition withInventoryDb (st : State) (v : gmap (string * string) Q) :=
  mkState (outletDb st) (donutTypeDb st) (orderDb st) v
          (customerSaleDb st) (salesStatsCache st) (inventoryCache st).
Definition withCustomerSaleDb (st : State) (v : list CustomerSale) :=
  mkState (outletDb st) (donutTypeDb st) (orderDb st) (inventoryDb st)
          v (salesStatsCache st) (inventoryCache st).
Definition withSalesStatsCache (st : State) (v : gmap string OutletSalesStats) :=
  mkState (outletDb st) (donutTypeDb st) (orderDb st) (inventoryDb st)
          (customerSaleDb st) v (inventoryCache st).
Definition withInventoryCache (st : State) (v : gmap string (gmap string Q)) :=
  mkState (outletDb st) (donutTypeDb st) (orderDb st) (inventoryDb st)
          (customerSaleDb st) (salesStatsCache st) v.

(** The errors the service throws. *)
Inductive Error :=
| OutletNotFound (outletId : option string)
| DonutTypeNotFound (donutTypeId : string)
| InsufficientInventory (available : Q) (donutTypeId : string) (requested : Q)
| EngineFailure (message : string)
| StoreFailure (reason : string).

(** A call either returns or throws; the state it leaves behind is
    kept in both cases. *)
Inductive Outcome (A : Type) :=
| Returns (a : A)
| Throws (e : Error).
Arguments Returns {A} _.
Arguments Throws {A} _.

Definition Exchange (A : Type) : Type := State -> Outcome A * State.

Definition ret {A} (a : A) : Exchange A := λ st, (Returns a, st).
Definition throw {A} (e : Error) : Exchange A := λ st, (Throws e, st).
Definition bind {A B} (m : Exchange A) (k : A -> Exchange B) : Exchange B :=
  λ st,
    match m st with
    | (Returns a, st') => k a st'
    | (Throws e, st') => (Throws e, st')
    end.
Definition gets {A} (f : State -> A) : Exchange A := λ st, (Returns (f st), st).
Definition modify (f : State -> State) : Exchange unit := λ st, (Returns tt, f st).

Notation "'await' x <- m 'in' k" := (bind m (λ x, k))
  (at level 10, x name, m at level 100, k at level 200, only parsing).

Definition zeroStats : OutletSalesStats :=
  {| customerSalesRevenue := 0; customerSalesCount := 0;
     exchangeSalesRevenue := 0; exchangeSalesCount := 0 |}.

Definition getOrCreateStats (outletId : string) : Exchange OutletSalesStats :=
  λ st,
    match salesStatsCache st !! outletId with
    | Some stats => (Returns stats, st)
    | None =>
        (Returns zeroStats,
         withSalesStatsCache st (<[outletId := zeroStats]> (salesStatsCache st)))
    end.

(** A write through the object [getOrCreateStats] returned: the cache
    holds that same object. *)
Definition setStats (outletId : string) (stats : OutletSalesStats) : Exchange unit :=
  modify (λ st,
    withSalesStatsCache st (<[outletId := stats]> (salesStatsCache st))).

Definition getInventoryFromCache (st : State) (outletId donutTypeId : string) : Q :=
  match inventoryCache st !! outletId with
  | None => 0
  | Some outletInventory => Js.orElse (outletInventory !! donutTypeId) 0
  end.

Definition updateCache (outletId donutTypeId : string) (quantity : Q)
    : Exchange unit :=
  modify (λ st,
    let cache :=
      match inventoryCache st !! outletId with
      | Some _ => inventoryCache st
      | None => <[outletId := ∅]> (inventoryCache st)
      end in
    withInventoryCache st
      (alter (λ inv, <[donutTypeId := quantity]> inv) outletId cache)).

(** [inventoryRepo.setInventory]; a failure of the write is caught
    and logged by the callers, so it never reaches them. *)
Definition setInventory (outletId donutTypeId : string) (quantity : Q)
    : Exchange unit :=
  modify (λ st,
    withInventoryDb st (<[(outletId, donutTypeId) := quantity]> (inventoryDb st))).

Definition addInventory (outletId donutTypeId : string) (quantity : Q)
    : Exchange unit :=
  await current <- gets (λ st, getInventoryFromCache st outletId donutTypeId) in
  let newQty := current + quantity in
  await _ <- updateCache outletId donutTypeId newQty in
  setInventory outletId donutTypeId newQty.

Definition removeInventory (outletId donutTypeId : string) (quantity : Q)
    : Exchange bool :=
  await current <- gets (λ st, getInventoryFromCache st outletId donutTypeId) in
  if Js.lt current quantity then ret false
  else
    let newQty := current - quantity in
    await _ <- updateCache outletId donutTypeId newQty in
    await _ <- setInventory outletId donutTypeId newQty in
    ret true.

(** The handler [start] registers with [onTradeExecuted]. *)
Definition onTradeExecuted (event : TradeEvent) : Exchange unit :=
  await sellerStats <- getOrCreateStats (event_sellerOutletId event) in
  await _ <- setStats (event_sellerOutletId event)
    {| customerSalesRevenue := customerSalesRevenue sellerStats;
       customerSalesCount := customerSalesCount sellerStats;
       exchangeSalesRevenue :=
         exchangeSalesRevenue sellerStats + event_totalAmount event;
       exchangeSalesCount := exchangeSalesCount sellerStats + 1 |} in
  addInventory (event_buyerOutletId event) (event_donutTypeId event)
               (event_quantity event).

Definition outletRepo_findById (outletId : string) : Exchange (option Outlet) :=
  gets (λ st, OutletRepository.findById (outletDb st) outletId).

Definition outletRepo_findAll : Exchange (list Outlet) :=
  gets (λ st, OutletRepository.findAll (outletDb st)).

Definition outletRepo_updateBalance (outletId : string) (newBalance : Q)
    : Exchange unit :=
  modify (λ st,
    withOutletDb st (OutletRepository.updateBalance (outletDb st) outletId newBalance)).

(** Modelled from the spec: [DonutTypeRepository.findById], which is
    not under src/; the catalogue is the list of the donut type ids. *)
Definition donutTypeRepo_findById (donutTypeId : string) : Exchange (option string) :=
  gets (λ st,
    if bool_decide (donutTypeId ∈ donutTypeDb st) then Some donutTypeId else None).

(** Modelled from the spec: [CustomerSaleRepository.create], which is
    not under src/; sale records are appended to the store. *)
Definition customerSaleRepo_create (sale : CustomerSale) : Exchange unit :=
  modify (λ st, withCustomerSaleDb st (customerSaleDb st ++ [sale])).

Definition orderRepo_create (orderId : string) (now : Z)
    (request : CreateOrderRequest) : Exchange Order :=
  λ st,
    let '(rows, order) :=
      OrderRepository.create (OutletRepository.doc_outlet_id <$> outletDb st)
                             (orderDb st) orderId now request in
    (Returns order, withOrderDb st rows).

Definition orderRepo_findById (orderId : string) : Exchange (option Order) :=
  gets (λ st, OrderRepository.findById (orderDb st) orderId).

Definition getOrderBook (st : State) (donutTypeId : string) (includeAll : bool)
    : string + OrderBook :=
  OrderRepository.snapshot (orderDb st) donutTypeId includeAll.

Definition getAllOutlets : Exchange (list Outlet) :=
  await outlets <- outletRepo_findAll in
  ret (List.filter
         (λ o, negb (bool_decide (outlet_outletId o = "supplier-factory")))
         outlets).

Definition sellToCustomer (saleId : string) (now : Z)
    (outletId donutTypeId : string) (quantity : Q) : Exchange CustomerSale :=
  await found <- outletRepo_findById outletId in
  match found with
  | None => throw (OutletNotFound None)
  | Some outlet =>
      await available <-
        gets (λ st, getInventoryFromCache st outletId donutTypeId) in
      if Js.lt available quantity
      then throw (InsufficientInventory available donutTypeId quantity)
      else
        await _ <- removeInventory outletId donutTypeId quantity in
        let costBasis := 2 * quantity in
        let revenue := costBasis * (1 + outlet_marginPercent outlet / 100) in
        let profit := revenue - costBasis in
        await _ <- outletRepo_updateBalance outletId (outlet_balance outlet + revenue) in
        await stats <- getOrCreateStats outletId in
        await _ <- setStats outletId
          {| customerSalesRevenue := customerSalesRevenue stats + revenue;
             customerSalesCount := customerSalesCount stats + 1;
             exchangeSalesRevenue := exchangeSalesRevenue stats;
             exchangeSalesCount := exchangeSalesCount stats |} in
        let sale :=
          {| sale_saleId := saleId;
             sale_outletId := outletId;
             sale_donutTypeId := donutTypeId;
             sale_quantity := quantity;
             sale_costBasis := costBasis;
             sale_revenue := revenue;
             sale_profit := profit;
             sale_executedAt := now |} in
        await _ <- customerSaleRepo_create sale in
        ret sale
  end.

Definition leaderboardEntry (outlet : Outlet) : Exchange OutletStats :=
  await stats <- getOrCreateStats (outlet_outletId outlet) in
  let netProfit := outlet_balance outlet - 10000 in
  ret {| stats_outletId := outlet_outletId outlet;
         stats_outletName := outlet_outletName outlet;
         stats_balance := outlet_balance outlet;
         stats_customerSalesRevenue := customerSalesRevenue stats;
         stats_customerSalesCount := customerSalesCount stats;
         stats_exchangeSalesRevenue := exchangeSalesRevenue stats;
         stats_exchangeSalesCount := exchangeSalesCount stats;
         stats_netProfit := netProfit;
         stats_averageMargin := outlet_marginPercent outlet |}.

(** [Array.prototype.map] with a callback that touches the state. *)
Fixpoint mapM {A B} (f : A -> Exchange B) (l : list A) : Exchange (list B) :=
  match l with
  | [] => ret []
  | x :: l' =>
      await y <- f x in
      await ys <- mapM f l' in
      ret (y :: ys)
  end.

(** [(a, b) => b.netProfit - a.netProfit]. *)
Definition byProfit (a b : OutletStats) : Q := stats_netProfit b - stats_netProfit a.

Definition getLeaderboard : Exchange (list OutletStats) :=
  await outlets <- outletRepo_findAll in
  let retailOutlets :=
    List.filter
      (λ o, negb (bool_decide (outlet_outletId o = "supplier-factory")))
      outlets in
  await leaderboard <- mapM leaderboardEntry retailOutlets in
  ret (Js.sort byProfit leaderboard).

Section Engine.
(** [MatchingEngine.processOrder] is not under src/: the engine is a
    parameter of [createOrder]. *)
Variable processOrder : Order -> Exchange unit.

(** [emitOrderBookUpdated] is not awaited and only hands a snapshot
    to the registered callbacks; it leaves the state alone. *)
Definition createOrder (orderId : string) (now : Z)
    (request : CreateOrderRequest) : Exchange Order :=
  await outlet <- outletRepo_findById (req_outletId request) in
  match outlet with
  | None => throw (OutletNotFound (Some (req_outletId request)))
  | Some _ =>
      await donutType <- donutTypeRepo_findById (req_donutTypeId request) in
      match donutType with
      | None => throw (DonutTypeNotFound (req_donutTypeId request))
      | Some _ =>
          await order <- orderRepo_create orderId now request in
          await _ <- processOrder order in
          await found <- orderRepo_findById (order_orderId order) in
          ret (Js.definedOr found order)
      end
  end.
End Engine.

(** The operations that write inventory and balances, for runs of the
    service. *)
Inductive Op :=
| OpTrade (event : TradeEvent)
| OpRemoveInventory (outletId donutTypeId : string) (quantity : Q)
| OpSellToCustomer (saleId : string) (now : Z)
                   (outletId donutTypeId : string) (quantity : Q).

Definition opQuantity (op : Op) : Q :=
  match op with
  | OpTrade event => event_quantity event
  | OpRemoveInventory _ _ quantity => quantity
  | OpSellToCustomer _ _ _ _ quantity => quantity
  end.

(** One call; the caller sees the state it leaves, thrown or not. *)
Definition step (st : State) (op : Op) : State :=
  match op with
  | OpTrade event => (onTradeExecuted event st).2
  | OpRemoveInventory o d q => (removeInventory o d q st).2
  | OpSellToCustomer saleId now o d q => (sellToCustomer saleId now o d q st).2
  end.

Definition run (ops : list Op) (st : State) : State := foldl step st ops.

(** [Array.prototype.forEach], or a [for ... of] loop, with a body that
    touches the state. *)
Fixpoint forEach {A} (f : A -> Exchange unit) (l : list A) : Exchange unit :=
  match l with
  | [] => ret tt
  | x :: l' => await _ <- f x in forEach f l'
  end.

(** A record of [inventoryRepo.getAllInventory]. *)
Record InventoryRecord := mkInventoryRecord {
  record_outletId : string;
  record_donutTypeId : string;
  record_quantity : Q
}.

(** How a promise of the store settles. *)
Inductive Settled (A : Type) :=
| Fulfilled (value : A)
| Rejected (reason : string).
Arguments Fulfilled {A} _.
Arguments Rejected {A} _.

(** [loadInventoryFromDB]; [allInventory] is how
    [await this.inventoryRepo.getAllInventory()] settles. The [await]
    is not guarded: a rejection is thrown to the caller. *)
Definition loadInventoryFromDB (allInventory : Settled (list InventoryRecord))
    : Exchange unit :=
  match allInventory with
  | Rejected reason => throw (StoreFailure reason)
  | Fulfilled records =>
      forEach (λ record,
                 updateCache (record_outletId record) (record_donutTypeId record)
                             (record_quantity record))
              records
  end.

Definition getFactory : Exchange (option Outlet) :=
  outletRepo_findById "supplier-factory".

Definition toggleAllOutletsOpen (isOpen : bool) : Exchange unit :=
  modify (λ st,
    withOutletDb st (OutletRepository.toggleAllOpen (outletDb st) isOpen)).

Definition getOutletInventory (st : State) (outletId donutTypeId : string) : Q :=
  getInventoryFromCache st outletId donutTypeId.

Definition getOutletStats (outletId : string) : Exchange OutletStats :=
  await found <- outletRepo_findById outletId in
  match found with
  | None => throw (OutletNotFound None)
  | Some outlet =>
      await stats <- getOrCreateStats outletId in
      let netProfit := outlet_balance outlet - 10000 in
      ret {| stats_outletId := outlet_outletId outlet;
             stats_outletName := outlet_outletName outlet;
             stats_balance := outlet_balance outlet;
             stats_customerSalesRevenue := customerSalesRevenue stats;
             stats_customerSalesCount := customerSalesCount stats;
             stats_exchangeSalesRevenue := exchangeSalesRevenue stats;
             stats_exchangeSalesCount := exchangeSalesCount stats;
             stats_netProfit := netProfit;
             stats_averageMargin := outlet_marginPercent outlet |}
  end.

End ExchangeService.

(** ** What the specification asks of a book *)

Module BookOrder.

(** Bids ascending by (-price, createdAt): the better price first,
    the earlier order first among equal prices. *)
Definition bidBefore (a b : OrderBookEntry) : Prop :=
  entry_pricePerUnit b < entry_pricePerUnit a
  ∨ (entry_pricePerUnit a == entry_pricePerUnit b
     ∧ (entry_createdAt a ≤ entry_createdAt b)%Z).

(** Asks ascending by (price, createdAt). *)
Definition askBefore (a b : OrderBookEntry) : Prop :=
  entry_pricePerUnit a < entry_pricePerUnit b
  ∨ (entry_pricePerUnit a == entry_pricePerUnit b
     ∧ (entry_createdAt a ≤ entry_createdAt b)%Z).

(** What [getOrderBook] sorts by: the newer order first. *)
Definition newerBefore (a b : OrderBookEntry) : Prop :=
  (entry_createdAt b ≤ entry_createdAt a)%Z.

(** The entries of the orders of one side resident for a product. *)
Definition resident (side : OrderSide) (rows : list OrderRepository.OrderRow)
    (donutTypeId : string) : list OrderBookEntry :=
  OrderRepository.entryOfDoc <$> OrderRepository.sideQuery side rows donutTypeId.

Definition live (e : OrderBookEntry) : Prop :=
  entry_status e = ACTIVE ∨ entry_status e = PARTIALLY_FILLED.

(** The side [findById] reads for an order id: SELL as soon as a sell
    order carries the id. *)
Definition sideOf (rows : list OrderRepository.OrderRow) (orderId : string)
    : OrderSide :=
  if existsb (λ r, bool_decide (OrderRepository.row_orderId r = orderId)
                   && bool_decide (OrderRepository.row_side r = SELL)) rows
  then SELL else BUY.

(** The order [findById] builds from the row it found. *)
Definition orderOf (side : OrderSide) (row : OrderRepository.OrderRow) : Order :=
  {| order_orderId := OrderRepository.row_orderId row;
     order_side := side;
     order_donutTypeId := OrderRepository.row_donutTypeId row;
     order_quantity := OrderRepository.row_quantity row;
     order_pricePerUnit := OrderRepository.row_pricePerUnit row;
     order_status := OrderRepository.row_status row;
     order_outletId := OrderRepository.row_outletId row;
     order_createdAt := OrderRepository.row_createdAt row;
     order_updatedAt := OrderRepository.row_updatedAt row |}.

(** The first row of the store carrying an order id. *)
Definition firstRow (rows : list OrderRepository.OrderRow) (orderId : string)
    : option OrderRepository.OrderRow :=
  head (List.filter
          (λ r, bool_decide (OrderRepository.row_orderId r = orderId)) rows).

(** The entry of the book for a new order. *)
Definition entryOfRequest (orderId : string) (now : Z)
    (order : CreateOrderRequest) : OrderBookEntry :=
  {| entry_orderId := orderId;
     entry_outletId := req_outletId order;
     entry_quantity := req_quantity order;
     entry_pricePerUnit := req_pricePerUnit order;
     entry_status := ACTIVE;
     entry_createdAt := now |}.

(** The row of the store for a new order. *)
Definition rowOfRequest (orderId : string) (now : Z)
    (order : CreateOrderRequest) : OrderRepository.OrderRow :=
  {| OrderRepository.row_orderId := orderId;
     OrderRepository.row_side := req_side order;
     OrderRepository.row_quantity := req_quantity order;
     OrderRepository.row_pricePerUnit := req_pricePerUnit order;
     OrderRepository.row_status := ACTIVE;
     OrderRepository.row_createdAt := now;
     OrderRepository.row_updatedAt := now;
     OrderRepository.row_outletId := req_outletId order;
     OrderRepository.row_donutTypeId := req_donutTypeId order |}.

(** The side of a book. *)
Definition sideOrders (side : OrderSide) (book : OrderBook)
    : list OrderBookEntry :=
  match side with
  | BUY => buyOrders book
  | SELL => sellOrders book
  end.

(** An entry with another status, if it carries the order id. *)
Definition withStatus (orderId : string) (status : OrderStatus)
    (e : OrderBookEntry) : OrderBookEntry :=
  if bool_decide (entry_orderId e = orderId)
  then {| entry_orderId := entry_orderId e;
          entry_outletId := entry_outletId e;
          entry_quantity := entry_quantity e;
          entry_pricePerUnit := entry_pricePerUnit e;
          entry_status := status;
          entry_createdAt := entry_createdAt e |}
  else e.

(** The entry the book shows for an order of the store, field by field
    from the order, its status as the store holds it. *)
Definition entryOfRow (r : OrderRepository.OrderRow) : OrderBookEntry :=
  {| entry_orderId := OrderRepository.row_orderId r;
     entry_outletId := OrderRepository.row_outletId r;
     entry_quantity := OrderRepository.row_quantity r;
     entry_pricePerUnit := OrderRepository.row_pricePerUnit r;
     entry_status := OrderRepository.row_status r;
     entry_createdAt := OrderRepository.row_createdAt r |}.

(** The statuses of the orders resident in a book. *)
Definition residentStatus (status : OrderStatus) : bool :=
  match status with
  | ACTIVE | PARTIALLY_FILLED => true
  | FILLED | CANCELLED => false
  end.

(** What the specification puts on a side of the snapshot of a product:
    the orders of the store of that side and that product, all of them
    when terminal orders are included, otherwise those whose status is
    ACTIVE or PARTIALLY_FILLED. *)
Definition expectedSide (side : OrderSide) (rows : list OrderRepository.OrderRow)
    (donutTypeId : string) (includeTerminal : bool) : list OrderBookEntry :=
  entryOfRow
    <$> List.filter
          (λ r, bool_decide (OrderRepository.row_side r = side)
                && bool_decide (OrderRepository.row_donutTypeId r = donutTypeId)
                && (includeTerminal
                    || residentStatus (OrderRepository.row_status r)))
          rows.

End BookOrder.

(** ** What an observer reads from the ledger *)

Module Ledger.
Import ExchangeService.

(** The inventory cell of an outlet and a product, if it exists. *)
Definition inventoryCell (st : State) (outletId donutTypeId : string) : option Q :=
  inventoryCache st !! outletId ≫= λ inv, inv !! donutTypeId.

(** An outlet with another balance. *)
Definition setBalance (b : Q) (o : Outlet) : Outlet :=
  {| outlet_outletId := outlet_outletId o;
     outlet_outletName := outlet_outletName o;
     outlet_location := outlet_location o;
     outlet_balance := b;
     outlet_marginPercent := outlet_marginPercent o;
     outlet_isOpen := outlet_isOpen o;
     outlet_createdAt := outlet_createdAt o |}.

(** The balance [findById] reports for an outlet. *)
Definition balanceOf (st : State) (outletId : string) : option Q :=
  outlet_balance <$> OutletRepository.findById (outletDb st) outletId.

(** The sales stats of an outlet; an outlet without an entry has the
    stats [getOrCreateStats] would create. *)
Definition statsOf (st : State) (outletId : string) : OutletSalesStats :=
  default zeroStats (salesStatsCache st !! outletId).

(** The margin the store holds for an entity is at least -100: a
    sale does not pay the customer. The data model asks for more,
    a non-negative margin. *)
Definition marginOk (doc : OutletRepository.OutletDoc) : Prop :=
  match OutletRepository.doc_margin_percent doc with
  | Some m => -100 <= m
  | None => True
  end.

(** No inventory cell and no balance is negative. *)
Definition nonNegative (st : State) : Prop :=
  (∀ outletId donutTypeId q,
      inventoryCell st outletId donutTypeId = Some q → 0 <= q)
  ∧ Forall (λ doc, 0 <= OutletRepository.doc_balance doc) (outletDb st).

Definition wellFormed (st : State) : Prop :=
  nonNegative st ∧ Forall marginOk (outletDb st).

(** The outlets of the store other than the factory. *)
Definition retailOutlets (st : State) : list Outlet :=
  List.filter
    (λ o, negb (bool_decide (outlet_outletId o = "supplier-factory")))
    (OutletRepository.findAll (outletDb st)).

(** The leaderboard row of an outlet in a given state. *)
Definition leaderboardRow (st : State) (outlet : Outlet) : OutletStats :=
  {| stats_outletId := outlet_outletId outlet;
     stats_outletName := outlet_outletName outlet;
     stats_balance := outlet_balance outlet;
     stats_customerSalesRevenue :=
       customerSalesRevenue (statsOf st (outlet_outletId outlet));
     stats_customerSalesCount :=
       customerSalesCount (statsOf st (outlet_outletId outlet));
     stats_exchangeSalesRevenue :=
       exchangeSalesRevenue (statsOf st (outlet_outletId outlet));
     stats_exchangeSalesCount :=
       exchangeSalesCount (statsOf st (outlet_outletId outlet));
     stats_netProfit := outlet_balance outlet - 10000;
     stats_averageMargin := outlet_marginPercent outlet |}.

(** Descending net profit. *)
Definition higherProfit (a b : OutletStats) : Prop :=
  stats_netProfit b <= stats_netProfit a.

(** The outlet [findById] builds from the entity it found. *)
Definition readOutlet (outletId : string) (doc : OutletRepository.OutletDoc)
    : Outlet :=
  {| outlet_outletId := outletId;
     outlet_outletName := OutletRepository.doc_outlet_name doc;
     outlet_location := OutletRepository.doc_location doc;
     outlet_balance := OutletRepository.doc_balance doc;
     outlet_marginPercent := Js.orElse (OutletRepository.doc_margin_percent doc) 25;
     outlet_isOpen := Js.definedOr (OutletRepository.doc_outlet_open doc) true;
     outlet_createdAt := OutletRepository.doc_created_at doc |}.

(** The first entity of the store carrying an outlet id. *)
Definition firstDoc (docs : list OutletRepository.OutletDoc) (outletId : string)
    : option OutletRepository.OutletDoc :=
  head (List.filter
          (λ d, bool_decide (OutletRepository.doc_outlet_id d = outletId)) docs).

(** The cache and the store agree on every inventory cell. *)
Definition persisted (st : State) : Prop :=
  ∀ outletId donutTypeId,
    inventoryCell st outletId donutTypeId
    = inventoryDb st !! (outletId, donutTypeId).

(** The records of a load as a map: a later record of a cell replaces
    an earlier one. *)
Definition loaded (records : list InventoryRecord) : gmap (string * string) Q :=
  list_to_map
    ((λ r, ((record_outletId r, record_donutTypeId r), record_quantity r))
       <$> reverse records).

End Ledger.

(** ** Sample data *)

Module Sample.
Import OrderRepository.

(** Two bids and two asks on one product; the older bid has the
    better price, and so has the older ask. *)
Definition rows : list OrderRow :=
  [ mkOrderRow "b1" BUY 5 3 ACTIVE 1000 1000 "north" "glazed";
    mkOrderRow "b2" BUY 5 2 ACTIVE 2000 2000 "south" "glazed";
    mkOrderRow "a1" SELL 5 4 ACTIVE 1500 1500 "supplier-factory" "glazed";
    mkOrderRow "a2" SELL 5 6 PARTIALLY_FILLED 2500 2500 "supplier-factory" "glazed";
    mkOrderRow "a3" SELL 5 4 FILLED 500 900 "supplier-factory" "glazed";
    mkOrderRow "b3" BUY 1 9 CANCELLED 700 800 "north" "glazed";
    mkOrderRow "b4" BUY 2 3 ACTIVE 1200 1200 "north" "jelly" ].

Definition book : OrderBook :=
  {| book_donutTypeId := "glazed";
     buyOrders := [ mkOrderBookEntry "b2" "south" 5 2 ACTIVE 2000;
                    mkOrderBookEntry "b1" "north" 5 3 ACTIVE 1000 ];
     sellOrders := [ mkOrderBookEntry "a2" "supplier-factory" 5 6 PARTIALLY_FILLED 2500;
                     mkOrderBookEntry "a1" "supplier-factory" 5 4 ACTIVE 1500 ] |}.

(** Scenario 6 of the specification: an open outlet with margin 25
    holding 10 units, next to a closed outlet, and the factory. *)
Definition docs : list OutletRepository.OutletDoc :=
  [ OutletRepository.mkOutletDoc "north" "North" "Uptown" 10000 (Some 25)
                                 (Some true) 0;
    OutletRepository.mkOutletDoc "south" "South" "Downtown" 12000 (Some 10)
                                 (Some false) 0;
    OutletRepository.mkOutletDoc "supplier-factory" "Factory" "Plant" 50000
                                 (Some 0) (Some true) 0 ].

Definition state : ExchangeService.State :=
  {| ExchangeService.outletDb := docs;
     ExchangeService.donutTypeDb := ["glazed"; "jelly"];
     ExchangeService.orderDb := [];
     ExchangeService.inventoryDb := {[ ("north", "glazed") := 10 ]};
     ExchangeService.customerSaleDb := [];
     ExchangeService.salesStatsCache := ∅;
     ExchangeService.inventoryCache := {[ "north" := {[ "glazed" := 10 ]} ]} |}.

(** The outlet [findById] reads for "north". *)
Definition north : Outlet :=
  mkOutlet "north" "North" "Uptown" 10000 25 true 0.

(** The outlet [findById] reads for "south": it is closed. *)
Definition south : Outlet :=
  mkOutlet "south" "South" "Downtown" 12000 10 false 0.

Definition request : CreateOrderRequest :=
  {| req_outletId := "south"; req_donutTypeId := "glazed"; req_side := BUY;
     req_quantity := 3; req_pricePerUnit := 2 |}.

(** An engine that finds nothing to match: the order rests. *)
Definition restingEngine (order : Order) : ExchangeService.Exchange unit :=
  ExchangeService.ret tt.

(** A trade, a customer sale and a removal, all of positive quantity. *)
Definition ops : list ExchangeService.Op :=
  [ ExchangeService.OpTrade
      (ExchangeService.mkTradeEvent "supplier-factory" "south" "jelly" 3 6);
    ExchangeService.OpSellToCustomer "sale-1" 7 "north" "glazed" 4;
    ExchangeService.OpRemoveInventory "south" "jelly" 2 ].

(** An outlet handed to [create] with a margin of 0. *)
Definition flat : OutletRepository.NewOutlet :=
  OutletRepository.mkNewOutlet "east" "East" "Harbour" 10000 0 true.

End Sample.

(** ** CustomerSimulator *)

Module CustomerSimulator.
Import ExchangeService.

Inductive CustomerType := FIRST_FIND | PRICE_HUNTER.

Record SimulatedCustomer := mkSimulatedCustomer {
  customerId : string;
  customerType : CustomerType;
  shoppingList : list string;
  visitedOutlets : list string;
  purchases : list CustomerSale
}.

(** What one purchase attempt reads from [Math.random], [Date.now] and
    [new Date]: [draw_rand] is [Math.floor(Math.random() * 3) + 1]. *)
Record Draw := mkDraw {
  draw_rand : Q;
  draw_saleId : string;
  draw_now : Z
}.

(** What one customer reads from [Math.random]: the type, the number
    of items, the two shuffles ([[...l].sort(() => Math.random() - 0.5)])
    and the draws of the attempts, by item and by outlet visited. *)
Record Dice := mkDice {
  dice_type : CustomerType;
  dice_numItems : nat;
  dice_shuffleTypes : list string -> list string;
  dice_shuffleOutlets : list Outlet -> list Outlet;
  dice_draw : nat -> nat -> Draw
}.

(** The simulator and the interval timers of the host: [timers] are
    the intervals that are set, [nextTimer] the next handle
    [setInterval] returns. *)
Record Simulator := mkSimulator {
  intervalId : option nat;
  isRunning : bool;
  customerCounter : nat;
  timers : gset nat;
  nextTimer : nat
}.

Definition newSimulator : Simulator :=
  {| intervalId := None; isRunning := false; customerCounter := 0;
     timers := ∅; nextTimer := 0 |}.

Definition start (sim : Simulator) : Simulator :=
  if isRunning sim then sim
  else
    {| intervalId := Some (nextTimer sim);
       isRunning := true;
       customerCounter := customerCounter sim;
       timers := {[nextTimer sim]} ∪ timers sim;
       nextTimer := S (nextTimer sim) |}.

Definition stop (sim : Simulator) : Simulator :=
  match intervalId sim with
  | Some t =>
      {| intervalId := None;
         isRunning := false;
         customerCounter := customerCounter sim;
         timers := timers sim ∖ {[t]};
         nextTimer := nextTimer sim |}
  | None =>
      {| intervalId := None;
         isRunning := false;
         customerCounter := customerCounter sim;
         timers := timers sim;
         nextTimer := nextTimer sim |}
  end.

(** [createCustomer]; a donut type is its id. *)
Definition createCustomer (dice : Dice) (sim : Simulator)
    (donutTypes : list string) : Simulator * SimulatedCustomer :=
  let counter := S (customerCounter sim) in
  let shuffledTypes := dice_shuffleTypes dice donutTypes in
  ({| intervalId := intervalId sim;
      isRunning := isRunning sim;
      customerCounter := counter;
      timers := timers sim;
      nextTimer := nextTimer sim |},
   {| customerId := "customer-" +:+ pretty counter;
      customerType := dice_type dice;
      shoppingList :=
        take (Nat.min (dice_numItems dice) (length shuffledTypes)) shuffledTypes;
      visitedOutlets := [];
      purchases := [] |}).

(** [BASE_DONUT_PRICE * (1 + outlet.marginPercent / 100)]. *)
Definition calculatePrice (outlet : Outlet) : Q :=
  2 * (1 + outlet_marginPercent outlet / 100).

Definition visit (customer : SimulatedCustomer) (outletId : string)
    : SimulatedCustomer :=
  {| customerId := customerId customer;
     customerType := customerType customer;
     shoppingList := shoppingList customer;
     visitedOutlets := visitedOutlets customer ++ [outletId];
     purchases := purchases customer |}.

Definition purchase (customer : SimulatedCustomer) (sale : CustomerSale)
    : SimulatedCustomer :=
  {| customerId := customerId customer;
     customerType := customerType customer;
     shoppingList := shoppingList customer;
     visitedOutlets := visitedOutlets customer;
     purchases := purchases customer ++ [sale] |}.

(** [try { ... } catch (error) { ... }]. *)
Definition tryCatch {A} (body : Exchange A) (handler : Error -> Exchange A)
    : Exchange A :=
  λ st,
    match body st with
    | (Returns a, st') => (Returns a, st')
    | (Throws e, st') => handler e st'
    end.

(** [1-3 donuts, limited by stock]. *)
Definition quantityFor (draw : Draw) (stock : Q) : Q := Qmin (draw_rand draw) stock.

(** The inner loop of [processFirstFindCustomer] for one item; [i] is
    the index of the outlet reached. The events handed to the
    callbacks are not part of the model. *)
Fixpoint firstFindItem (draws : nat -> Draw) (i : nat) (donutTypeId : string)
    (shuffledOutlets : list Outlet) (customer : SimulatedCustomer)
    : Exchange SimulatedCustomer :=
  match shuffledOutlets with
  | [] => ret customer
  | outlet :: rest =>
      if negb (outlet_isOpen outlet)
      then firstFindItem draws (S i) donutTypeId rest customer
      else
        await stock <-
          gets (λ st, getOutletInventory st (outlet_outletId outlet) donutTypeId) in
        if Qeq_bool stock 0
        then firstFindItem draws (S i) donutTypeId rest customer
        else
          let customer := visit customer (outlet_outletId outlet) in
          let quantity := quantityFor (draws i) stock in
          tryCatch
            (await sale <-
               sellToCustomer (draw_saleId (draws i)) (draw_now (draws i))
                 (outlet_outletId outlet) donutTypeId quantity in
             ret (purchase customer sale))
            (λ _, firstFindItem draws (S i) donutTypeId rest customer)
  end.

(** The loop over the shopping list; [k] is the index of the item. *)
Fixpoint firstFindItems (draws : nat -> nat -> Draw) (k : nat)
    (items : list string) (shuffledOutlets : list Outlet)
    (customer : SimulatedCustomer) : Exchange SimulatedCustomer :=
  match items with
  | [] => ret customer
  | donutTypeId :: items' =>
      await customer <-
        firstFindItem (draws k) 0 donutTypeId shuffledOutlets customer in
      firstFindItems draws (S k) items' shuffledOutlets customer
  end.

Definition processFirstFindCustomer (dice : Dice)
    (customer : SimulatedCustomer) (outlets : list Outlet)
    : Exchange SimulatedCustomer :=
  let shuffledOutlets := dice_shuffleOutlets dice outlets in
  firstFindItems (dice_draw dice) 0 (shoppingList customer) shuffledOutlets
                 customer.

(** The scan of the price hunter over the open outlets; a
    [cheapestPrice] of [None] is [Infinity]. *)
Record Scan := mkScan {
  cheapestOutlet : option Outlet;
  cheapestPrice : option Q;
  availableStock : Q;
  scanned : list string
}.

Definition scanStart : Scan :=
  {| cheapestOutlet := None; cheapestPrice := None; availableStock := 0;
     scanned := [] |}.

Definition belowCheapest (price : Q) (cheapest : option Q) : bool :=
  match cheapest with
  | None => true
  | Some c => Js.lt price c
  end.

Definition scanStep (st : State) (donutTypeId : string) (scan : Scan)
    (outlet : Outlet) : Scan :=
  let stock := getOutletInventory st (outlet_outletId outlet) donutTypeId in
  if Qeq_bool stock 0 then scan
  else
    let price := calculatePrice outlet in
    if belowCheapest price (cheapestPrice scan)
    then {| cheapestOutlet := Some outlet;
            cheapestPrice := Some price;
            availableStock := stock;
            scanned := scanned scan ++ [outlet_outletId outlet] |}
    else {| cheapestOutlet := cheapestOutlet scan;
            cheapestPrice := cheapestPrice scan;
            availableStock := availableStock scan;
            scanned := scanned scan ++ [outlet_outletId outlet] |}.

Definition scanOutlets (st : State) (donutTypeId : string)
    (openOutlets : list Outlet) : Scan :=
  foldl (scanStep st donutTypeId) scanStart openOutlets.

Definition visitAll (customer : SimulatedCustomer) (outletIds : list string)
    : SimulatedCustomer :=
  foldl visit customer outletIds.

(** The body of the loop of [processPriceHunterCustomer] for one item. *)
Definition priceHunterItem (draw : Draw) (donutTypeId : string)
    (openOutlets : list Outlet) (customer : SimulatedCustomer)
    : Exchange SimulatedCustomer :=
  await scan <- gets (λ st, scanOutlets st donutTypeId openOutlets) in
  let customer := visitAll customer (scanned scan) in
  match cheapestOutlet scan with
  | Some cheapest =>
      let quantity := quantityFor draw (availableStock scan) in
      tryCatch
        (await sale <-
           sellToCustomer (draw_saleId draw) (draw_now draw)
             (outlet_outletId cheapest) donutTypeId quantity in
         ret (purchase customer sale))
        (λ _, ret customer)
  | None => ret customer
  end.

Fixpoint priceHunterItems (draws : nat -> nat -> Draw) (k : nat)
    (items : list string) (openOutlets : list Outlet)
    (customer : SimulatedCustomer) : Exchange SimulatedCustomer :=
  match items with
  | [] => ret customer
  | donutTypeId :: items' =>
      await customer <-
        priceHunterItem (draws k 0%nat) donutTypeId openOutlets customer in
      priceHunterItems draws (S k) items' openOutlets customer
  end.

Definition processPriceHunterCustomer (dice : Dice)
    (customer : SimulatedCustomer) (outlets : list Outlet)
    : Exchange SimulatedCustomer :=
  let openOutlets := List.filter outlet_isOpen outlets in
  priceHunterItems (dice_draw dice) 0 (shoppingList customer) openOutlets
                   customer.

(** Modelled from the spec: [getAllDonutTypes], whose repository is not
    under src/; the catalogue is the list of the donut type ids. *)
Definition getAllDonutTypes : Exchange (list string) := gets donutTypeDb.

(** [spawnCustomer]: the customer that left, if one came; an error of
    the block is caught and logged. *)
Definition spawnCustomer (dice : Dice) (sim : Simulator)
    : State -> (Simulator * option SimulatedCustomer) * State :=
  λ st,
    match getAllOutlets st with
    | (Returns outlets, st1) =>
        match getAllDonutTypes st1 with
        | (Returns donutTypes, st2) =>
            let openOutlets := List.filter outlet_isOpen outlets in
            if bool_decide (length openOutlets = 0%nat)
               || bool_decide (length donutTypes = 0%nat)
            then ((sim, None), st2)
            else
              let '(sim', customer) := createCustomer dice sim donutTypes in
              let processed :=
                match customerType customer with
                | FIRST_FIND => processFirstFindCustomer dice customer openOutlets
                | PRICE_HUNTER => processPriceHunterCustomer dice customer openOutlets
                end in
              match processed st2 with
              | (Returns customer', st3) => ((sim', Some customer'), st3)
              | (Throws _, st3) => ((sim', None), st3)
              end
        | (Throws _, st2) => ((sim, None), st2)
        end
    | (Throws _, st1) => ((sim, None), st1)
    end.

(** The callback of the interval. *)
Definition tick (dice : Dice) (sim : Simulator)
    : State -> (Simulator * option SimulatedCustomer) * State :=
  λ st, if isRunning sim then spawnCustomer dice sim st else ((sim, None), st).

Inductive Command := Start | Stop.

Definition command (sim : Simulator) (c : Command) : Simulator :=
  match c with
  | Start => start sim
  | Stop => stop sim
  end.

End CustomerSimulator.

(** ** The stores of the front end *)

Module Stores.

(** [bestBid]: the first bid of the book the store holds. *)
Definition bestBid (orderBook : option OrderBook) : option OrderBookEntry :=
  match orderBook with
  | None => None
  | Some book => head (buyOrders book)
  end.

Definition bestAsk (orderBook : option OrderBook) : option OrderBookEntry :=
  match orderBook with
  | None => None
  | Some book => head (sellOrders book)
  end.

Definition spread (orderBook : option OrderBook) : option Q :=
  match bestBid orderBook, bestAsk orderBook with
  | Some bid, Some ask => Some (entry_pricePerUnit ask - entry_pricePerUnit bid)
  | _, _ => None
  end.

End Stores.

(** ** What a customer sees of an outlet *)

Module Shopping.
Import ExchangeService CustomerSimulator.

(** The stock an outlet shows for a product. *)
Definition stockOf (st : State) (donutTypeId : string) (outlet : Outlet) : Q :=
  getOutletInventory st (outlet_outletId outlet) donutTypeId.

(** The outlet shows no stock: [stock === 0]. *)
Definition soldOut (st : State) (donutTypeId : string) (outlet : Outlet) : bool :=
  Qeq_bool (stockOf st donutTypeId outlet) 0.

(** The store holds every outlet of the list. *)
Definition known (st : State) (outlets : list Outlet) : Prop :=
  ∀ o, o ∈ outlets →
       is_Some (OutletRepository.findById (outletDb st) (outlet_outletId o)).

(** The draws of a customer never ask for a negative quantity. *)
Definition fair (dice : Dice) : Prop :=
  ∀ k i, 0 <= draw_rand (dice_draw dice k i).

(** The invariant of the simulator and its timers: the interval of the
    simulator is the only one set, and it is set exactly when the
    simulator runs. *)
Definition oneTimer (sim : Simulator) : Prop :=
  match intervalId sim with
  | Some t => isRunning sim = true ∧ timers sim = {[t]} ∧ (t < nextTimer sim)%nat
  | None => isRunning sim = false ∧ timers sim = ∅
  end.

End Shopping.

(** ** A sample customer *)

Module SampleShop.
Import CustomerSimulator.

(** A price hunter after two items, who draws 2 at every attempt; the
    shuffles leave the lists as they are. *)
Definition dice : Dice :=
  {| dice_type := PRICE_HUNTER;
     dice_numItems := 2;
     dice_shuffleTypes := λ l, l;
     dice_shuffleOutlets := λ l, l;
     dice_draw := λ k i, mkDraw 2 ("sale-" +:+ pretty k) 7 |}.

Definition draws (i : nat) : Draw := mkDraw 2 ("sale-" +:+ pretty i) 7.

Definition customer : SimulatedCustomer :=
  mkSimulatedCustomer "customer-1" FIRST_FIND ["glazed"] [] [].

End SampleShop.

(** * Properties *)

(** ** Array.prototype.sort *)

Section SortFacts.
Context {A : Type} (cmp : A -> A -> Q).

Lemma sortInsert_perm (x : A) (l : list A) : Js.sortInsert cmp x l ≡ₚ x :: l.
Proof.
  induction l as [|y l IH]; simpl; [done|].
  destruct (Qle_bool (cmp x y) 0); [done|].
  rewrite IH. apply Permutation_swap.
Qed.

Lemma sort_perm (l : list A) : Js.sort cmp l ≡ₚ l.
Proof.
  induction l as [|x l IH]; simpl; [done|].
  rewrite sortInsert_perm. by rewrite IH.
Qed.

Lemma sort_elem_of (x : A) (l : list A) : x ∈ Js.sort cmp l ↔ x ∈ l.
Proof. by rewrite sort_perm. Qed.

(** A comparator that is the sign of a total preorder [R]. *)
Variable R : A -> A -> Prop.
Hypothesis R_trans : ∀ x y z, R x y → R y z → R x z.
Hypothesis R_total : ∀ x y, R x y ∨ R y x.
Hypothesis cmp_R : ∀ x y, Qle_bool (cmp x y) 0 = true ↔ R x y.

Lemma sortInsert_sorted (x : A) (l : list A) :
  StronglySorted R l → StronglySorted R (Js.sortInsert cmp x l).
Proof using R_trans R_total cmp_R.
  induction 1 as [|y l Hl IH Hy]; simpl.
  - repeat constructor.
  - destruct (Qle_bool (cmp x y) 0) eqn:E.
    + apply cmp_R in E. constructor; [by constructor|].
      constructor; [done|].
      eapply Forall_impl; [exact Hy|]. intros z Hz. by eapply R_trans.
    + constructor; [done|].
      rewrite sortInsert_perm. constructor; [|done].
      destruct (R_total x y) as [Hxy|Hyx]; [|done].
      apply cmp_R in Hxy. congruence.
Qed.

Lemma sort_sorted (l : list A) : StronglySorted R (Js.sort cmp l).
Proof using R_trans R_total cmp_R.
  induction l as [|x l IH]; simpl; [constructor|].
  by apply sortInsert_sorted.
Qed.
End SortFacts.

(** ** The order-book snapshot *)

Section OrderBookFacts.
Import OrderRepository BookOrder.

Lemma newestFirst_before (a b : OrderBookEntry) :
  Qle_bool (newestFirst a b) 0 = true ↔ newerBefore a b.
Proof.
  unfold newestFirst, newerBefore. rewrite Qle_bool_iff.
  unfold Qle, Qminus, Qplus, Qopp, inject_Z. simpl. lia.
Qed.

Lemma sort_newestFirst_sorted (l : list OrderBookEntry) :
  StronglySorted newerBefore (Js.sort newestFirst l).
Proof.
  apply sort_sorted.
  - unfold newerBefore. intros x y z. lia.
  - unfold newerBefore. intros x y. lia.
  - apply newestFirst_before.
Qed.

Lemma getOrderBook_returns sellOutcome buyOutcome donutTypeId includeAll :
  ∃ book, getOrderBook sellOutcome buyOutcome donutTypeId includeAll = inr book
          ∧ book_donutTypeId book = donutTypeId.
Proof.
  unfold getOrderBook.
  destruct (getOrderBookTry _ _ _ _) as [reason|book] eqn:E; [by eexists|].
  exists book. split; [done|].
  unfold getOrderBookTry in E.
  destruct sellOutcome, buyOutcome; by simplify_eq.
Qed.

Lemma filter_live_elem_of (e : OrderBookEntry) (l : list OrderBookEntry) :
  e ∈ List.filter (λ o, isMatchable (entry_status o)) l ↔ e ∈ l ∧ live e.
Proof.
  rewrite !list_elem_of_In, filter_In. unfold isMatchable, live.
  rewrite orb_true_iff, !bool_decide_eq_true. done.
Qed.
End OrderBookFacts.

(** C5, as the specification words it, fails on the sample store: the
    snapshot puts the newer bid at 2 in front of the older bid at 3, and
    the newer ask at 6 in front of the older ask at 4, so neither side
    is ordered by price. *)
Lemma C5_snapshot_not_price_ordered :
  OrderRepository.snapshot Sample.rows "glazed" false = inr Sample.book
  ∧ ¬ StronglySorted BookOrder.bidBefore (buyOrders Sample.book)
  ∧ ¬ StronglySorted BookOrder.askBefore (sellOrders Sample.book).
Proof.
  split; [by vm_compute|].
  split; intros Hs; apply StronglySorted_inv in Hs as [_ Hall];
    apply Forall_inv in Hall; destruct Hall as [Hlt|[Heq _]];
    vm_compute in Hlt || vm_compute in Heq; discriminate.
Qed.

(** C5 (amended): whatever the two reads answer, [getOrderBook] returns
    a book whose bids and whose asks are each ordered by [createdAt]
    descending, the newest order first. *)
Theorem C5_snapshot_newest_first
    (sellOutcome buyOutcome : ReadOutcome OrderRepository.OrderDoc)
    (donutTypeId : string) (includeAll : bool) :
  ∃ book,
    OrderRepository.getOrderBook sellOutcome buyOutcome donutTypeId includeAll
      = inr book
    ∧ StronglySorted BookOrder.newerBefore (buyOrders book)
    ∧ StronglySorted BookOrder.newerBefore (sellOrders book).
Proof.
  unfold OrderRepository.getOrderBook, OrderRepository.getOrderBookTry.
  destruct sellOutcome, buyOutcome; eexists; (split; [reflexivity|]); simpl;
    split; try constructor; apply sort_newestFirst_sorted.
Qed.

Section ExpectedSideFacts.
Import OrderRepository BookOrder.

Lemma sideFilter_cons side donutTypeId (r : OrderRow) rows :
  filter (λ r, row_side r = side ∧ row_donutTypeId r = donutTypeId) (r :: rows)
  = if bool_decide (row_side r = side)
       && bool_decide (row_donutTypeId r = donutTypeId)
    then r :: filter (λ r, row_side r = side ∧ row_donutTypeId r = donutTypeId)
                rows
    else filter (λ r, row_side r = side ∧ row_donutTypeId r = donutTypeId) rows.
Proof.
  rewrite filter_cons.
  destruct (decide (row_side r = side ∧ row_donutTypeId r = donutTypeId))
    as [[Hs Hd]|Hn].
  - by rewrite !bool_decide_eq_true_2.
  - destruct (bool_decide (row_side r = side)) eqn:E1;
      destruct (bool_decide (row_donutTypeId r = donutTypeId)) eqn:E2;
      try done.
    apply bool_decide_eq_true in E1, E2. tauto.
Qed.

Lemma isMatchable_residentStatus status :
  isMatchable status = residentStatus status.
Proof. by destruct status. Qed.

Lemma full_side_expected side rows donutTypeId :
  pushAll (mkQueryResponse conceptDocuments (sideQuery side rows donutTypeId))
  = expectedSide side rows donutTypeId true.
Proof.
  unfold pushAll, sideQuery, expectedSide. cbn [answerType answers].
  induction rows as [|r rows IH]; [done|].
  rewrite sideFilter_cons. cbn [List.filter].
  rewrite orb_true_l, andb_true_r.
  destruct (_ && _); [|exact IH].
  rewrite !fmap_cons, IH. reflexivity.
Qed.

Lemma live_side_expected side rows donutTypeId :
  List.filter (λ o, isMatchable (entry_status o))
    (pushAll (mkQueryResponse conceptDocuments (sideQuery side rows donutTypeId)))
  = expectedSide side rows donutTypeId false.
Proof.
  unfold pushAll, sideQuery, expectedSide. cbn [answerType answers].
  induction rows as [|r rows IH]; [done|].
  rewrite sideFilter_cons. cbn [List.filter]. rewrite orb_false_l.
  destruct (_ && _); cbn [andb]; [|exact IH].
  rewrite !fmap_cons. cbn [List.filter].
  change (entry_status (entryOfDoc (docOfRow r))) with (parseStatus (row_status r)).
  unfold parseStatus. rewrite isMatchable_residentStatus.
  destruct (residentStatus (row_status r)); [|exact IH].
  rewrite fmap_cons, IH. reflexivity.
Qed.

Lemma expectedSide_elem_of side rows donutTypeId includeTerminal e :
  e ∈ expectedSide side rows donutTypeId includeTerminal
  ↔ ∃ r, r ∈ rows ∧ row_side r = side ∧ row_donutTypeId r = donutTypeId
         ∧ (includeTerminal = true
            ∨ row_status r = ACTIVE ∨ row_status r = PARTIALLY_FILLED)
         ∧ e = entryOfRow r.
Proof.
  unfold expectedSide. rewrite list_elem_of_fmap.
  assert (∀ status, residentStatus status = true
                    ↔ status = ACTIVE ∨ status = PARTIALLY_FILLED) as Hres.
  { intros []; simpl; split; intros; try done; try tauto;
      by destruct H as [?|?]. }
  split.
  - intros (r & -> & Hr). apply list_elem_of_In, filter_In in Hr as [Hin Hr].
    apply andb_true_iff in Hr as [Hr Hst].
    apply andb_true_iff in Hr as [Hs%bool_decide_eq_true Hd%bool_decide_eq_true].
    exists r. apply list_elem_of_In in Hin.
    split; [done|]. split; [done|]. split; [done|]. split; [|done].
    apply orb_true_iff in Hst as [?|?]; [by left|right; by apply Hres].
  - intros (r & Hin & Hs & Hd & Hst & ->). exists r. split; [done|].
    apply list_elem_of_In, filter_In. split; [by apply list_elem_of_In|].
    rewrite !andb_true_iff, !bool_decide_eq_true, orb_true_iff, Hres. tauto.
Qed.
End ExpectedSideFacts.

(** C6: for every product and every content of the store, the snapshot
    taken with [includeAll = false] holds, on each side, exactly the
    orders of the store of that side and that product whose stored
    status is ACTIVE or PARTIALLY_FILLED, each once and with the fields
    and the status the store holds (so no FILLED or CANCELLED order is
    on either side), and the snapshot taken with [includeAll = true]
    holds all the orders of that side and that product, whatever their
    status. *)
Theorem C6_snapshot_terminal_filter
    (rows : list OrderRepository.OrderRow) (donutTypeId : string) :
  (∃ book,
      OrderRepository.snapshot rows donutTypeId false = inr book
      ∧ book_donutTypeId book = donutTypeId
      ∧ buyOrders book ≡ₚ BookOrder.expectedSide BUY rows donutTypeId false
      ∧ sellOrders book ≡ₚ BookOrder.expectedSide SELL rows donutTypeId false
      ∧ (∀ e, e ∈ buyOrders book
              ↔ ∃ r, r ∈ rows
                     ∧ OrderRepository.row_side r = BUY
                     ∧ OrderRepository.row_donutTypeId r = donutTypeId
                     ∧ (OrderRepository.row_status r = ACTIVE
                        ∨ OrderRepository.row_status r = PARTIALLY_FILLED)
                     ∧ e = BookOrder.entryOfRow r)
      ∧ (∀ e, e ∈ sellOrders book
              ↔ ∃ r, r ∈ rows
                     ∧ OrderRepository.row_side r = SELL
                     ∧ OrderRepository.row_donutTypeId r = donutTypeId
                     ∧ (OrderRepository.row_status r = ACTIVE
                        ∨ OrderRepository.row_status r = PARTIALLY_FILLED)
                     ∧ e = BookOrder.entryOfRow r)
      ∧ Forall (λ e, entry_status e ≠ FILLED ∧ entry_status e ≠ CANCELLED)
               (buyOrders book ++ sellOrders book))
  ∧ (∃ book,
      OrderRepository.snapshot rows donutTypeId true = inr book
      ∧ book_donutTypeId book = donutTypeId
      ∧ buyOrders book ≡ₚ BookOrder.expectedSide BUY rows donutTypeId true
      ∧ sellOrders book ≡ₚ BookOrder.expectedSide SELL rows donutTypeId true
      ∧ (∀ e, e ∈ buyOrders book
              ↔ ∃ r, r ∈ rows
                     ∧ OrderRepository.row_side r = BUY
                     ∧ OrderRepository.row_donutTypeId r = donutTypeId
                     ∧ e = BookOrder.entryOfRow r)
      ∧ (∀ e, e ∈ sellOrders book
              ↔ ∃ r, r ∈ rows
                     ∧ OrderRepository.row_side r = SELL
                     ∧ OrderRepository.row_donutTypeId r = donutTypeId
                     ∧ e = BookOrder.entryOfRow r)).
Proof.
  assert (∀ side e,
    e ∈ BookOrder.expectedSide side rows donutTypeId false
    ↔ ∃ r, r ∈ rows ∧ OrderRepository.row_side r = side
           ∧ OrderRepository.row_donutTypeId r = donutTypeId
           ∧ (OrderRepository.row_status r = ACTIVE
              ∨ OrderRepository.row_status r = PARTIALLY_FILLED)
           ∧ e = BookOrder.entryOfRow r) as Hlive.
  { intros side e. rewrite expectedSide_elem_of. split.
    - intros (r & ? & ? & ? & [?|?] & ?); [done|]. by exists r.
    - intros (r & ? & ? & ? & ? & ?). exists r. tauto. }
  assert (∀ side e,
    e ∈ BookOrder.expectedSide side rows donutTypeId true
    ↔ ∃ r, r ∈ rows ∧ OrderRepository.row_side r = side
           ∧ OrderRepository.row_donutTypeId r = donutTypeId
           ∧ e = BookOrder.entryOfRow r) as Hfull.
  { intros side e. rewrite expectedSide_elem_of. split.
    - intros (r & ? & ? & ? & _ & ?). by exists r.
    - intros (r & ? & ? & ? & ?). exists r. tauto. }
  split; eexists; (split; [reflexivity|]); (split; [reflexivity|]);
    cbn [buyOrders sellOrders];
    unfold OrderRepository.sellQuery, OrderRepository.buyQuery;
    rewrite ?live_side_expected, ?full_side_expected.
  - split; [apply sort_perm|]. split; [apply sort_perm|].
    split; [|split].
    + intros e. rewrite sort_elem_of. apply Hlive.
    + intros e. rewrite sort_elem_of. apply Hlive.
    + apply Forall_forall. intros e.
      rewrite elem_of_app, !sort_elem_of, !Hlive.
      intros [(r & _ & _ & _ & Hst & ->)|(r & _ & _ & _ & Hst & ->)];
        simpl; destruct Hst as [-> | ->]; done.
  - split; [apply sort_perm|]. split; [apply sort_perm|].
    split; intros e; rewrite sort_elem_of; apply Hfull.
Qed.

(** C9: [getOrderBook] always returns a book for the product it was
    asked, never an error; when either read of the store is rejected the
    book has both sides empty, and it is the very book returned when
    both reads answer no order. *)
Theorem C9_getOrderBook_never_throws :
  (∀ sellOutcome buyOutcome donutTypeId includeAll,
      ∃ book,
        OrderRepository.getOrderBook sellOutcome buyOutcome donutTypeId includeAll
          = inr book
        ∧ book_donutTypeId book = donutTypeId)
  ∧ (∀ reason buyOutcome donutTypeId includeAll,
      OrderRepository.getOrderBook (ReadRejected reason) buyOutcome
                                   donutTypeId includeAll
        = inr (mkOrderBook donutTypeId [] []))
  ∧ (∀ sellOutcome reason donutTypeId includeAll,
      OrderRepository.getOrderBook sellOutcome (ReadRejected reason)
                                   donutTypeId includeAll
        = inr (mkOrderBook donutTypeId [] []))
  ∧ (∀ donutTypeId includeAll,
      OrderRepository.getOrderBook
        (ReadOk (mkQueryResponse conceptDocuments []))
        (ReadOk (mkQueryResponse conceptDocuments []))
        donutTypeId includeAll
        = inr (mkOrderBook donutTypeId [] [])).
Proof.
  split; [|split; [|split]].
  - apply getOrderBook_returns.
  - intros reason buyOutcome donutTypeId includeAll.
    destruct buyOutcome; reflexivity.
  - intros sellOutcome reason donutTypeId includeAll.
    destruct sellOutcome; reflexivity.
  - intros donutTypeId includeAll. destruct includeAll; reflexivity.
Qed.

(** ** The inventory cache *)

Section InventoryFacts.
Import ExchangeService Ledger.

Lemma lt_true (a b : Q) : Js.lt a b = true ↔ a < b.
Proof.
  unfold Js.lt. rewrite negb_true_iff, <- not_true_iff_false, Qle_bool_iff.
  split; [apply Qnot_le_lt | apply Qlt_not_le].
Qed.

Lemma lt_false (a b : Q) : Js.lt a b = false ↔ b <= a.
Proof. unfold Js.lt. rewrite negb_false_iff. apply Qle_bool_iff. Qed.

Lemma orElse_some (q : Q) : Js.orElse (Some q) 0 == q.
Proof.
  unfold Js.orElse. destruct (Qeq_bool q 0) eqn:E; [|reflexivity].
  apply Qeq_bool_iff in E. by rewrite E.
Qed.

Lemma orElse_nonneg (v : option Q) :
  (∀ q, v = Some q → 0 <= q) → 0 <= Js.orElse v 0.
Proof.
  intros H. destruct v as [q|]; simpl; [|lra].
  destruct (Qeq_bool q 0); [lra|]. by apply H.
Qed.

Lemma getInventoryFromCache_cell st outletId donutTypeId :
  getInventoryFromCache st outletId donutTypeId
  = Js.orElse (inventoryCell st outletId donutTypeId) 0.
Proof.
  unfold getInventoryFromCache, inventoryCell.
  by destruct (inventoryCache st !! outletId).
Qed.

Lemma updateCache_cell st o d q o' d' :
  inventoryCell (updateCache o d q st).2 o' d'
  = if decide (o' = o ∧ d' = d) then Some q else inventoryCell st o' d'.
Proof.
  unfold updateCache, modify, inventoryCell. simpl.
  destruct (decide (o' = o)) as [->|Ho].
  - destruct (inventoryCache st !! o) as [inv|] eqn:E.
    + rewrite lookup_alter_eq, E. simpl.
      destruct (decide (d' = d)) as [->|Hd].
      * rewrite lookup_insert_eq. by rewrite decide_True.
      * rewrite lookup_insert_ne by done. rewrite decide_False by tauto. done.
    + rewrite lookup_alter_eq, lookup_insert_eq. simpl.
      destruct (decide (d' = d)) as [->|Hd].
      * rewrite lookup_insert_eq. by rewrite decide_True.
      * rewrite lookup_insert_ne by done. rewrite decide_False by tauto. done.
  - rewrite decide_False by tauto.
    destruct (inventoryCache st !! o) as [inv|] eqn:E.
    + by rewrite lookup_alter_ne.
    + rewrite lookup_alter_ne by done. by rewrite lookup_insert_ne.
Qed.

Lemma updateCache_frame st o d q :
  outletDb (updateCache o d q st).2 = outletDb st
  ∧ salesStatsCache (updateCache o d q st).2 = salesStatsCache st.
Proof. done. Qed.
End InventoryFacts.

(** ** The outlet table *)

Section OutletFacts.
Import OutletRepository Ledger.

Lemma findById_updateBalance docs outletId b outletId' :
  findById (updateBalance docs outletId b) outletId'
  = if decide (outletId' = outletId)
    then setBalance b <$> findById docs outletId'
    else findById docs outletId'.
Proof.
  unfold findById, updateBalance.
  destruct (decide (outletId' = outletId)) as [->|Hne].
  - induction docs as [|doc docs IH]; simpl; [done|].
    destruct (bool_decide (doc_outlet_id doc = outletId)) eqn:E; simpl.
    + by rewrite E.
    + rewrite E. exact IH.
  - induction docs as [|doc docs IH]; simpl; [done|].
    destruct (bool_decide (doc_outlet_id doc = outletId)) eqn:E1; simpl;
      destruct (bool_decide (doc_outlet_id doc = outletId')) eqn:E2;
      simpl; try done.
    apply bool_decide_eq_true in E1, E2. congruence.
Qed.

Lemma findById_elem docs outletId outlet :
  findById docs outletId = Some outlet →
  ∃ doc, doc ∈ docs
         ∧ doc_outlet_id doc = outletId
         ∧ outlet_balance outlet = doc_balance doc
         ∧ outlet_marginPercent outlet = Js.orElse (doc_margin_percent doc) 25.
Proof.
  unfold findById.
  destruct (List.filter _ docs) as [|doc rest] eqn:E; [done|].
  intros [= <-]. exists doc.
  assert (In doc (List.filter
                    (λ d, bool_decide (doc_outlet_id d = outletId)) docs))
    as [Hin Hid%bool_decide_eq_true]%filter_In by (rewrite E; by left).
  by rewrite list_elem_of_In.
Qed.

Lemma updateBalance_Forall (P : OutletDoc → Prop) docs outletId b :
  (∀ doc, P doc →
     P (mkOutletDoc (doc_outlet_id doc) (doc_outlet_name doc) (doc_location doc)
          b (doc_margin_percent doc) (doc_outlet_open doc) (doc_created_at doc))) →
  Forall P docs → Forall P (updateBalance docs outletId b).
Proof.
  intros HP Hall. unfold updateBalance. apply Forall_fmap.
  eapply Forall_impl; [exact Hall|]. intros doc Hdoc. simpl.
  case_bool_decide; [by apply HP|done].
Qed.

Lemma orElse_margin (v : option Q) :
  match v with Some m => -100 <= m | None => True end →
  -100 <= Js.orElse v 25.
Proof.
  destruct v as [m|]; simpl; [|lra].
  destruct (Qeq_bool m 0); [lra|done].
Qed.

Lemma orElse_nonzero (v : option Q) : ¬ Js.orElse v 25 == 0.
Proof.
  destruct v as [m|]; simpl; [|lra].
  destruct (Qeq_bool m 0) eqn:E; [lra|].
  intros H. apply Qeq_bool_iff in H. congruence.
Qed.
End OutletFacts.

(** ** Customer sales *)

Section SaleFacts.
Import ExchangeService Ledger.

Lemma sellToCustomer_unknown_outlet saleId now st o d q :
  OutletRepository.findById (outletDb st) o = None →
  sellToCustomer saleId now o d q st = (Throws (OutletNotFound None), st).
Proof.
  intros H. unfold sellToCustomer, bind, outletRepo_findById, gets.
  by rewrite H.
Qed.

Lemma sellToCustomer_insufficient saleId now st o d q outlet :
  OutletRepository.findById (outletDb st) o = Some outlet →
  getInventoryFromCache st o d < q →
  sellToCustomer saleId now o d q st
  = (Throws (InsufficientInventory (getInventoryFromCache st o d) d q), st).
Proof.
  intros H Hlt%lt_true. unfold sellToCustomer, bind, outletRepo_findById, gets.
  rewrite H. by rewrite Hlt.
Qed.

Lemma updateCache_run o d q st :
  updateCache o d q st = (Returns tt, (updateCache o d q st).2).
Proof. done. Qed.

Lemma getOrCreateStats_run o st :
  ∃ st',
    getOrCreateStats o st = (Returns (statsOf st o), st')
    ∧ (∀ o', statsOf st' o' = statsOf st o')
    ∧ outletDb st' = outletDb st
    ∧ inventoryCache st' = inventoryCache st.
Proof.
  unfold getOrCreateStats, statsOf.
  destruct (salesStatsCache st !! o) as [stats|] eqn:E; simpl.
  - by exists st.
  - eexists. split; [done|]. split; [|done]. intros o'. simpl.
    destruct (decide (o' = o)) as [->|Hne].
    + by rewrite lookup_insert_eq, E.
    + by rewrite lookup_insert_ne.
Qed.

Lemma statsOf_setStats o stats st o' :
  statsOf (setStats o stats st).2 o'
  = if decide (o' = o) then stats else statsOf st o'.
Proof.
  unfold statsOf, setStats, modify. simpl.
  destruct (decide (o' = o)) as [->|Hne].
  - by rewrite lookup_insert_eq.
  - by rewrite lookup_insert_ne.
Qed.

Lemma sellToCustomer_sale saleId now st o d q outlet :
  OutletRepository.findById (outletDb st) o = Some outlet →
  q <= getInventoryFromCache st o d →
  ∃ st',
    sellToCustomer saleId now o d q st
    = (Returns
         {| sale_saleId := saleId;
            sale_outletId := o;
            sale_donutTypeId := d;
            sale_quantity := q;
            sale_costBasis := 2 * q;
            sale_revenue := 2 * q * (1 + outlet_marginPercent outlet / 100);
            sale_profit :=
              2 * q * (1 + outlet_marginPercent outlet / 100) - 2 * q;
            sale_executedAt := now |}, st')
    ∧ (∀ o' d',
         inventoryCell st' o' d'
         = if decide (o' = o ∧ d' = d)
           then Some (getInventoryFromCache st o d - q)
           else inventoryCell st o' d')
    ∧ outletDb st'
      = OutletRepository.updateBalance (outletDb st) o
          (outlet_balance outlet
           + 2 * q * (1 + outlet_marginPercent outlet / 100))
    ∧ statsOf st' o
      = {| customerSalesRevenue :=
             customerSalesRevenue (statsOf st o)
             + 2 * q * (1 + outlet_marginPercent outlet / 100);
           customerSalesCount := customerSalesCount (statsOf st o) + 1;
           exchangeSalesRevenue := exchangeSalesRevenue (statsOf st o);
           exchangeSalesCount := exchangeSalesCount (statsOf st o) |}
    ∧ (∀ o', o' ≠ o → statsOf st' o' = statsOf st o').
Proof.
  intros H Hle%lt_false.
  unfold sellToCustomer, bind, outletRepo_findById, gets.
  rewrite H, Hle.
  unfold removeInventory, bind, gets. rewrite Hle.
  rewrite updateCache_run.
  set (st1 := (updateCache o d (getInventoryFromCache st o d - q) st).2).
  unfold setInventory, outletRepo_updateBalance, modify, ret.
  match goal with
  | |- context [getOrCreateStats o ?s] =>
      destruct (getOrCreateStats_run o s) as (st2 & -> & Hstats & Hdb & Hinv)
  end.
  simpl in Hdb, Hinv.
  eexists. split; [reflexivity|]. simpl.
  split; [|split; [|split]].
  - intros o' d'. unfold inventoryCell. simpl. rewrite Hinv.
    apply (updateCache_cell st o d _ o' d').
  - by rewrite Hdb.
  - unfold statsOf at 1. simpl. rewrite lookup_insert_eq. reflexivity.
  - intros o' Hne. unfold statsOf at 1. simpl.
    rewrite lookup_insert_ne by done. apply (Hstats o').
Qed.
End SaleFacts.

(** Scenario 6 of the specification, run on the sample state: the
    outlet has margin 25 and holds 10 units, the customer buys 4. *)
Example scenario_customer_sale :
  ∃ sale st',
    ExchangeService.sellToCustomer "sale-1" 7 "north" "glazed" 4 Sample.state
      = (ExchangeService.Returns sale, st')
    ∧ sale_costBasis sale == 8
    ∧ sale_revenue sale == 10
    ∧ sale_profit sale == 2
    ∧ ExchangeService.getInventoryFromCache st' "north" "glazed" == 6
    ∧ (∃ b, Ledger.balanceOf st' "north" = Some b ∧ b == 10000 + 10).
Proof.
  eexists _, _. split; [vm_compute; reflexivity|].
  repeat split; try (eexists; split; [vm_compute; reflexivity|]);
    vm_compute; reflexivity.
Qed.

(** C1: on an existing outlet with margin m holding at least qty units,
    [sellToCustomer] returns a sale with costBasis = 2 * qty,
    revenue = costBasis * (1 + m / 100) and profit = revenue - costBasis;
    afterwards the inventory cell is the former quantity less qty, and
    the balance of the outlet is the former balance plus revenue. *)
Theorem C1_sellToCustomer_math
    (saleId : string) (now : Z) (st : ExchangeService.State)
    (outletId donutTypeId : string) (quantity : Q) (outlet : Outlet) :
  OutletRepository.findById (ExchangeService.outletDb st) outletId = Some outlet →
  quantity <= ExchangeService.getInventoryFromCache st outletId donutTypeId →
  ∃ sale st',
    ExchangeService.sellToCustomer saleId now outletId donutTypeId quantity st
      = (ExchangeService.Returns sale, st')
    ∧ sale_costBasis sale = 2 * quantity
    ∧ sale_revenue sale
      = sale_costBasis sale * (1 + outlet_marginPercent outlet / 100)
    ∧ sale_profit sale = sale_revenue sale - sale_costBasis sale
    ∧ Ledger.inventoryCell st' outletId donutTypeId
      = Some (ExchangeService.getInventoryFromCache st outletId donutTypeId
              - quantity)
    ∧ ExchangeService.getInventoryFromCache st' outletId donutTypeId
      == ExchangeService.getInventoryFromCache st outletId donutTypeId - quantity
    ∧ Ledger.balanceOf st' outletId
      = Some (outlet_balance outlet + sale_revenue sale).
Proof.
  intros Hfind Hle.
  destruct (sellToCustomer_sale saleId now st outletId donutTypeId quantity
              outlet Hfind Hle) as (st' & Hrun & Hcell & Hdb & _).
  eexists _, st'. split; [exact Hrun|]. simpl.
  specialize (Hcell outletId donutTypeId). rewrite decide_True in Hcell by done.
  repeat split.
  - exact Hcell.
  - rewrite getInventoryFromCache_cell, Hcell. apply orElse_some.
  - unfold Ledger.balanceOf. rewrite Hdb, findById_updateBalance.
    rewrite decide_True by done. by rewrite Hfind.
Qed.

Lemma C1_sellToCustomer_math_witness :
  OutletRepository.findById (ExchangeService.outletDb Sample.state) "north"
    = Some Sample.north
  ∧ 4 <= ExchangeService.getInventoryFromCache Sample.state "north" "glazed"
  ∧ ∃ sale st',
      ExchangeService.sellToCustomer "sale-1" 7 "north" "glazed" 4 Sample.state
        = (ExchangeService.Returns sale, st')
      ∧ sale_costBasis sale = 2 * 4
      ∧ sale_revenue sale
        = sale_costBasis sale * (1 + outlet_marginPercent Sample.north / 100)
      ∧ sale_profit sale = sale_revenue sale - sale_costBasis sale
      ∧ Ledger.inventoryCell st' "north" "glazed"
        = Some (ExchangeService.getInventoryFromCache Sample.state "north" "glazed"
                - 4)
      ∧ ExchangeService.getInventoryFromCache st' "north" "glazed"
        == ExchangeService.getInventoryFromCache Sample.state "north" "glazed" - 4
      ∧ Ledger.balanceOf st' "north"
        = Some (outlet_balance Sample.north + sale_revenue sale).
Proof.
  split; [reflexivity|]. split; [vm_compute; discriminate|].
  apply (C1_sellToCustomer_math "sale-1" 7 Sample.state "north" "glazed" 4
           Sample.north).
  - reflexivity.
  - vm_compute; discriminate.
Defined.

(** C2: when the inventory available to the outlet for the product is
    below the requested quantity, [sellToCustomer] throws and leaves the
    whole state (inventory, balances, sales stats) as it was. *)
Theorem C2_sellToCustomer_insufficient
    (saleId : string) (now : Z) (st : ExchangeService.State)
    (outletId donutTypeId : string) (quantity : Q) :
  ExchangeService.getInventoryFromCache st outletId donutTypeId < quantity →
  ∃ e,
    ExchangeService.sellToCustomer saleId now outletId donutTypeId quantity st
      = (ExchangeService.Throws e, st).
Proof.
  intros Hlt.
  destruct (OutletRepository.findById (ExchangeService.outletDb st) outletId)
    as [outlet|] eqn:Hfind.
  - eexists. by eapply sellToCustomer_insufficient.
  - eexists. by apply sellToCustomer_unknown_outlet.
Qed.

Lemma C2_sellToCustomer_insufficient_witness :
  ExchangeService.getInventoryFromCache Sample.state "north" "glazed" < 11
  ∧ ∃ e,
      ExchangeService.sellToCustomer "sale-1" 7 "north" "glazed" 11 Sample.state
        = (ExchangeService.Throws e, Sample.state).
Proof.
  split; [reflexivity|].
  apply (C2_sellToCustomer_insufficient "sale-1" 7 Sample.state "north" "glazed" 11).
  reflexivity.
Defined.

(** C3, as the specification words it, fails: on the sample state a
    sale of 0 units and a sale of -1 unit both return a sale, no error
    is thrown, and the state changes. The sale of 0 units is counted in
    the sales stats; the sale of -1 unit moves the inventory cell from
    10 to 11 and takes money from the balance. *)
Lemma C3_nonpositive_quantity_is_sold :
  (∃ sale st',
      ExchangeService.sellToCustomer "sale-1" 7 "north" "glazed" 0 Sample.state
        = (ExchangeService.Returns sale, st')
      ∧ ExchangeService.customerSalesCount (Ledger.statsOf Sample.state "north") == 0
      ∧ ExchangeService.customerSalesCount (Ledger.statsOf st' "north") == 1)
  ∧ (∃ sale st' b,
      ExchangeService.sellToCustomer "sale-1" 7 "north" "glazed" (-1) Sample.state
        = (ExchangeService.Returns sale, st')
      ∧ ExchangeService.getInventoryFromCache Sample.state "north" "glazed" == 10
      ∧ ExchangeService.getInventoryFromCache st' "north" "glazed" == 11
      ∧ Ledger.balanceOf Sample.state "north" = Some 10000
      ∧ Ledger.balanceOf st' "north" = Some b
      ∧ b < 10000).
Proof.
  split.
  - eexists _, _. split; [vm_compute; reflexivity|].
    split; vm_compute; reflexivity.
  - eexists _, _, _. split; [vm_compute; reflexivity|].
    split; [vm_compute; reflexivity|].
    split; [vm_compute; reflexivity|].
    split; [vm_compute; reflexivity|].
    split; vm_compute; reflexivity.
Qed.

(** C3 (amended): [sellToCustomer] does not look at the sign of the
    quantity. With qty <= 0 it throws, leaving the state as it was, when
    the outlet is unknown; on an existing outlet whose inventory cell is
    not negative it throws nothing and handles the call as a sale: the
    sale has costBasis = 2 * qty, the cell becomes the former quantity
    less qty, revenue is added to the balance and the count of customer
    sales grows by one. *)
Theorem C3_nonpositive_quantity
    (saleId : string) (now : Z) (st : ExchangeService.State)
    (outletId donutTypeId : string) (quantity : Q) :
  quantity <= 0 →
  (OutletRepository.findById (ExchangeService.outletDb st) outletId = None →
     ExchangeService.sellToCustomer saleId now outletId donutTypeId quantity st
       = (ExchangeService.Throws (ExchangeService.OutletNotFound None), st))
  ∧ (∀ outlet,
       OutletRepository.findById (ExchangeService.outletDb st) outletId
         = Some outlet →
       (∀ c, Ledger.inventoryCell st outletId donutTypeId = Some c → 0 <= c) →
       ∃ sale st',
         ExchangeService.sellToCustomer saleId now outletId donutTypeId quantity st
           = (ExchangeService.Returns sale, st')
         ∧ sale_quantity sale = quantity
         ∧ sale_costBasis sale = 2 * quantity
         ∧ Ledger.inventoryCell st' outletId donutTypeId
           = Some (ExchangeService.getInventoryFromCache st outletId donutTypeId
                   - quantity)
         ∧ Ledger.balanceOf st' outletId
           = Some (outlet_balance outlet + sale_revenue sale)
         ∧ ExchangeService.customerSalesCount (Ledger.statsOf st' outletId)
           = ExchangeService.customerSalesCount (Ledger.statsOf st outletId) + 1).
Proof.
  intros Hq. split; [apply sellToCustomer_unknown_outlet|].
  intros outlet Hfind Hcell0.
  assert (quantity <= ExchangeService.getInventoryFromCache st outletId donutTypeId)
    as Hle.
  { rewrite getInventoryFromCache_cell.
    pose proof (orElse_nonneg _ Hcell0). lra. }
  destruct (sellToCustomer_sale saleId now st outletId donutTypeId quantity
              outlet Hfind Hle) as (st' & Hrun & Hcell & Hdb & Hstats & _).
  eexists _, st'. split; [exact Hrun|]. simpl.
  specialize (Hcell outletId donutTypeId). rewrite decide_True in Hcell by done.
  repeat split.
  - exact Hcell.
  - unfold Ledger.balanceOf. rewrite Hdb, findById_updateBalance.
    rewrite decide_True by done. by rewrite Hfind.
  - by rewrite Hstats.
Qed.

Lemma C3_nonpositive_quantity_witness :
  0 <= 0
  ∧ ∃ sale st',
      ExchangeService.sellToCustomer "sale-1" 7 "north" "glazed" 0 Sample.state
        = (ExchangeService.Returns sale, st')
      ∧ sale_quantity sale = 0
      ∧ sale_costBasis sale = 2 * 0
      ∧ Ledger.inventoryCell st' "north" "glazed"
        = Some (ExchangeService.getInventoryFromCache Sample.state "north" "glazed"
                - 0)
      ∧ Ledger.balanceOf st' "north"
        = Some (outlet_balance Sample.north + sale_revenue sale)
      ∧ ExchangeService.customerSalesCount (Ledger.statsOf st' "north")
        = ExchangeService.customerSalesCount (Ledger.statsOf Sample.state "north")
          + 1.
Proof.
  split; [vm_compute; discriminate|].
  apply (proj2 (C3_nonpositive_quantity "sale-1" 7 Sample.state "north" "glazed" 0
                  ltac:(vm_compute; discriminate)) Sample.north).
  - reflexivity.
  - intros c [= <-]. vm_compute; discriminate.
Defined.

(** ** No negative cell, no negative balance *)

Section NonNegativeFacts.
Import ExchangeService Ledger.

Lemma wellFormed_updateCache st o d q :
  wellFormed st → 0 <= q →
  wellFormed (setInventory o d q (updateCache o d q st).2).2.
Proof.
  intros [[Hcells Hbal] Hmargin] Hq. split; [split|]; [|done|done].
  intros o' d' c.
  change (inventoryCell (updateCache o d q st).2 o' d' = Some c → 0 <= c).
  rewrite updateCache_cell. case_decide; [by intros [= <-]|apply Hcells].
Qed.

Lemma wellFormed_stats st (cache : gmap string OutletSalesStats) :
  wellFormed st → wellFormed (withSalesStatsCache st cache).
Proof. done. Qed.

Lemma available_nonneg st o d :
  wellFormed st → 0 <= getInventoryFromCache st o d.
Proof.
  intros [[Hcells _] _]. rewrite getInventoryFromCache_cell.
  apply orElse_nonneg, Hcells.
Qed.

Lemma addInventory_wellFormed st o d q :
  wellFormed st → 0 <= q → wellFormed (addInventory o d q st).2.
Proof.
  intros Hwf Hq. unfold addInventory, bind, gets.
  rewrite updateCache_run. apply wellFormed_updateCache; [done|].
  pose proof (available_nonneg st o d Hwf). lra.
Qed.

Lemma onTradeExecuted_wellFormed st event :
  wellFormed st → 0 <= event_quantity event →
  wellFormed (onTradeExecuted event st).2.
Proof.
  intros Hwf Hq. unfold onTradeExecuted, bind, getOrCreateStats.
  destruct (salesStatsCache st !! event_sellerOutletId event);
    by apply addInventory_wellFormed.
Qed.

Lemma removeInventory_wellFormed st o d q :
  wellFormed st → wellFormed (removeInventory o d q st).2.
Proof.
  intros Hwf. unfold removeInventory, bind, gets.
  destruct (Js.lt _ q) eqn:E; [done|].
  apply lt_false in E. rewrite updateCache_run.
  apply (wellFormed_updateCache st o d); [done|lra].
Qed.

Lemma revenue_nonneg (q m : Q) : 0 <= q → -100 <= m → 0 <= 2 * q * (1 + m / 100).
Proof.
  intros Hq Hm. apply Qmult_le_0_compat; [lra|].
  assert (m / 100 == m * (1 # 100)) as -> by reflexivity. lra.
Qed.

Lemma sellToCustomer_wellFormed saleId now st o d q :
  wellFormed st → 0 <= q → wellFormed (sellToCustomer saleId now o d q st).2.
Proof.
  intros Hwf Hq.
  destruct (OutletRepository.findById (outletDb st) o) as [outlet|] eqn:Hfind;
    [|by rewrite sellToCustomer_unknown_outlet].
  destruct (Qlt_le_dec (getInventoryFromCache st o d) q) as [Hlt|Hle];
    [by erewrite sellToCustomer_insufficient|].
  destruct (sellToCustomer_sale saleId now st o d q outlet Hfind Hle)
    as (st' & -> & Hcell & Hdb & _).
  destruct Hwf as [[Hcells Hbal] Hmargin]. simpl.
  destruct (findById_elem _ _ _ Hfind) as (doc & Hdoc & _ & Hb & Hm).
  split; [split|].
  - intros o' d' c. rewrite Hcell. case_decide; [|apply Hcells].
    intros [= <-]. lra.
  - rewrite Hdb. apply updateBalance_Forall; [|done]. intros ? _. simpl.
    rewrite Forall_forall in Hbal, Hmargin.
    pose proof (Hbal _ Hdoc). rewrite Hb, Hm.
    pose proof (revenue_nonneg q _ Hq (orElse_margin _ (Hmargin _ Hdoc))).
    lra.
  - rewrite Hdb. by apply updateBalance_Forall.
Qed.

Lemma step_wellFormed st op :
  wellFormed st → 0 < opQuantity op → wellFormed (step st op).
Proof.
  intros Hwf Hq. destruct op; simpl in *.
  - apply onTradeExecuted_wellFormed; [done|lra].
  - by apply removeInventory_wellFormed.
  - apply sellToCustomer_wellFormed; [done|lra].
Qed.

Lemma run_wellFormed ops st :
  wellFormed st → Forall (λ op, 0 < opQuantity op) ops →
  wellFormed (run ops st).
Proof.
  intros Hwf Hops. revert st Hwf.
  induction Hops as [|op ops Hop _ IH]; intros st Hwf; [done|].
  apply IH. by apply step_wellFormed.
Qed.
End NonNegativeFacts.

Lemma sample_wellFormed : Ledger.wellFormed Sample.state.
Proof.
  split; [split|].
  - intros o d q. unfold Ledger.inventoryCell. simpl.
    destruct (decide (o = "north")) as [->|Ho];
      [rewrite lookup_singleton_eq|by rewrite lookup_singleton_ne].
    simpl.
    destruct (decide (d = "glazed")) as [->|Hd];
      [rewrite lookup_singleton_eq|by rewrite lookup_singleton_ne].
    intros [= <-]. by vm_compute.
  - repeat constructor; by vm_compute.
  - repeat constructor; by vm_compute.
Qed.

(** C8: from a state without negative cell or balance (and with the
    margins of the data model), after every prefix of a run of trade
    events, inventory removals and customer sales of positive quantity,
    every inventory cell and every outlet balance is still
    non-negative. *)
Theorem C8_never_negative
    (ops : list ExchangeService.Op) (st : ExchangeService.State) (n : nat) :
  Ledger.wellFormed st →
  Forall (λ op, 0 < ExchangeService.opQuantity op) ops →
  Ledger.nonNegative (ExchangeService.run (take n ops) st).
Proof.
  intros Hwf Hops.
  apply run_wellFormed; [done|]. by apply Forall_take.
Qed.

Lemma C8_never_negative_witness :
  Ledger.wellFormed Sample.state
  ∧ Forall (λ op, 0 < ExchangeService.opQuantity op) Sample.ops
  ∧ Ledger.nonNegative (ExchangeService.run (take 3 Sample.ops) Sample.state).
Proof.
  split; [exact sample_wellFormed|].
  split; [repeat constructor|].
  apply (C8_never_negative Sample.ops Sample.state 3).
  - exact sample_wellFormed.
  - repeat constructor.
Defined.

Example sample_run :
  ExchangeService.getInventoryFromCache
    (ExchangeService.run Sample.ops Sample.state) "south" "jelly" == 1
  ∧ ExchangeService.getInventoryFromCache
      (ExchangeService.run Sample.ops Sample.state) "north" "glazed" == 6.
Proof. split; vm_compute; reflexivity. Qed.

(** ** The leaderboard *)

Section LeaderboardFacts.
Import ExchangeService Ledger.

Lemma leaderboardEntry_run outlet st :
  ∃ st',
    leaderboardEntry outlet st = (Returns (leaderboardRow st outlet), st')
    ∧ (∀ o, statsOf st' o = statsOf st o)
    ∧ outletDb st' = outletDb st.
Proof.
  unfold leaderboardEntry, bind.
  destruct (getOrCreateStats_run (outlet_outletId outlet) st)
    as (st' & -> & Hstats & Hdb & _).
  by exists st'.
Qed.

Lemma leaderboardRow_ext st st' outlet :
  (∀ o, statsOf st' o = statsOf st o) →
  leaderboardRow st' outlet = leaderboardRow st outlet.
Proof. intros H. unfold leaderboardRow. by rewrite H. Qed.

Lemma mapM_leaderboardEntry outlets st :
  ∃ st',
    mapM leaderboardEntry outlets st
      = (Returns (leaderboardRow st <$> outlets), st')
    ∧ (∀ o, statsOf st' o = statsOf st o)
    ∧ outletDb st' = outletDb st.
Proof.
  revert st. induction outlets as [|outlet outlets IH]; intros st; simpl.
  - by exists st.
  - unfold bind.
    destruct (leaderboardEntry_run outlet st) as (st1 & -> & Hstats1 & Hdb1).
    destruct (IH st1) as (st2 & -> & Hstats2 & Hdb2).
    exists st2. split; [|split].
    + unfold ret. do 3 f_equal.
      apply list_fmap_ext. intros _ o _. by apply leaderboardRow_ext.
    + intros o. by rewrite Hstats2.
    + by rewrite Hdb2.
Qed.

Lemma byProfit_before (a b : OutletStats) :
  Qle_bool (byProfit a b) 0 = true ↔ higherProfit a b.
Proof.
  unfold byProfit, higherProfit. rewrite Qle_bool_iff. split; intros; lra.
Qed.

Lemma sort_byProfit_sorted (l : list OutletStats) :
  StronglySorted higherProfit (Js.sort byProfit l).
Proof.
  apply sort_sorted.
  - unfold higherProfit. intros x y z ??. lra.
  - unfold higherProfit. intros x y.
    destruct (Qlt_le_dec (stats_netProfit x) (stats_netProfit y));
      [right; lra|left; lra].
  - apply byProfit_before.
Qed.

Lemma retail_elem_of (o : Outlet) (outlets : list Outlet) :
  o ∈ List.filter
        (λ o, negb (bool_decide (outlet_outletId o = "supplier-factory")))
        outlets
  ↔ o ∈ outlets ∧ outlet_outletId o ≠ "supplier-factory".
Proof.
  rewrite !list_elem_of_In, filter_In, negb_true_iff, bool_decide_eq_false.
  done.
Qed.
End LeaderboardFacts.

Example sample_leaderboard :
  ∃ leaderboard st',
    ExchangeService.getLeaderboard Sample.state
      = (ExchangeService.Returns leaderboard, st')
    ∧ stats_outletId <$> leaderboard = ["south"; "north"]
    ∧ Forall2 Qeq (stats_netProfit <$> leaderboard) [2000; 0].
Proof.
  eexists _, _. split; [vm_compute; reflexivity|].
  split; [reflexivity|]. by repeat constructor.
Qed.

(** Orders of equal age keep the order the store answered them in. *)
Example sample_sort_ties :
  entry_orderId
    <$> Js.sort OrderRepository.newestFirst
          [ mkOrderBookEntry "x" "north" 1 2 ACTIVE 10;
            mkOrderBookEntry "y" "north" 1 5 ACTIVE 30;
            mkOrderBookEntry "z" "south" 1 4 ACTIVE 10 ]
  = ["y"; "x"; "z"].
Proof. reflexivity. Qed.

(** C7: [getLeaderboard] returns one row for each outlet of the store
    whose id is not "supplier-factory" and for no other, each row with
    netProfit = balance - 10000, ordered by netProfit descending;
    [getAllOutlets] returns the outlets of the store other than
    "supplier-factory". *)
Theorem C7_leaderboard (st : ExchangeService.State) :
  (∃ leaderboard st',
      ExchangeService.getLeaderboard st
        = (ExchangeService.Returns leaderboard, st')
      ∧ leaderboard ≡ₚ Ledger.leaderboardRow st <$> Ledger.retailOutlets st
      ∧ StronglySorted Ledger.higherProfit leaderboard
      ∧ Forall (λ row, stats_netProfit row = stats_balance row - 10000
                       ∧ stats_outletId row ≠ "supplier-factory") leaderboard)
  ∧ ExchangeService.getAllOutlets st
    = (ExchangeService.Returns (Ledger.retailOutlets st), st)
  ∧ (∀ o, o ∈ Ledger.retailOutlets st
          ↔ o ∈ OutletRepository.findAll (ExchangeService.outletDb st)
            ∧ outlet_outletId o ≠ "supplier-factory").
Proof.
  split; [|split; [reflexivity|intros o; apply retail_elem_of]].
  unfold ExchangeService.getLeaderboard, ExchangeService.bind,
    ExchangeService.outletRepo_findAll, ExchangeService.gets.
  fold (Ledger.retailOutlets st).
  destruct (mapM_leaderboardEntry (Ledger.retailOutlets st) st)
    as (st' & -> & _ & _).
  eexists _, st'. split; [reflexivity|].
  split; [apply sort_perm|]. split; [apply sort_byProfit_sorted|].
  apply Forall_forall. intros row. rewrite sort_elem_of, list_elem_of_fmap.
  intros (o & -> & Ho). split; [reflexivity|].
  by apply retail_elem_of in Ho as [_ Ho].
Qed.

(** ** Order creation *)

Section CreateOrderFacts.
Import ExchangeService.
Variable processOrder : Order -> Exchange unit.

Lemma createOrder_unknown_outlet orderId now request st :
  OutletRepository.findById (outletDb st) (req_outletId request) = None →
  createOrder processOrder orderId now request st
  = (Throws (OutletNotFound (Some (req_outletId request))), st).
Proof.
  intros H. unfold createOrder, bind, outletRepo_findById, gets.
  by rewrite H.
Qed.

Lemma createOrder_unknown_donutType orderId now request st outlet :
  OutletRepository.findById (outletDb st) (req_outletId request) = Some outlet →
  req_donutTypeId request ∉ donutTypeDb st →
  createOrder processOrder orderId now request st
  = (Throws (DonutTypeNotFound (req_donutTypeId request)), st).
Proof.
  intros H Hd.
  unfold createOrder, bind, outletRepo_findById, donutTypeRepo_findById, gets.
  rewrite H. by rewrite bool_decide_eq_false_2.
Qed.

Lemma createOrder_creates orderId now request st outlet :
  OutletRepository.findById (outletDb st) (req_outletId request) = Some outlet →
  req_donutTypeId request ∈ donutTypeDb st →
  ∃ order st1,
    orderRepo_create orderId now request st = (Returns order, st1)
    ∧ order_orderId order = orderId
    ∧ order_outletId order = req_outletId request
    ∧ order_status order = ACTIVE
    ∧ (∃ row, row ∈ orderDb st1
              ∧ OrderRepository.row_orderId row = orderId
              ∧ OrderRepository.row_outletId row = req_outletId request
              ∧ OrderRepository.row_status row = ACTIVE)
    ∧ createOrder processOrder orderId now request st
      = bind (processOrder order)
          (λ _, bind (orderRepo_findById orderId)
                  (λ found, ret (Js.definedOr found order))) st1.
Proof.
  intros H Hd.
  destruct (findById_elem _ _ _ H) as (doc & Hdoc & Hid & _).
  eexists _, _. split; [reflexivity|]. simpl.
  split; [done|]. split; [done|]. split; [done|]. split.
  - eexists. split.
    + apply elem_of_app. right. apply list_elem_of_fmap.
      exists (OutletRepository.doc_outlet_id doc). split; [reflexivity|].
      apply list_elem_of_In, filter_In. split.
      * apply list_elem_of_In, list_elem_of_fmap. by exists doc.
      * by apply bool_decide_eq_true.
    + done.
  - unfold createOrder, bind at 1 2, outletRepo_findById,
      donutTypeRepo_findById, gets.
    rewrite H. rewrite bool_decide_eq_true_2 by done. reflexivity.
Qed.
End CreateOrderFacts.

(** C4, as the specification words it, fails: on the sample state the
    outlet "south" is closed, yet its order is accepted. With an engine
    that finds nothing to match, [createOrder] returns the order,
    ACTIVE, the store holds it and the book of the product shows it. *)
Lemma C4_closed_outlet_order_is_created :
  OutletRepository.findById (ExchangeService.outletDb Sample.state) "south"
    = Some Sample.south
  ∧ outlet_isOpen Sample.south = false
  ∧ ∃ order st',
      ExchangeService.createOrder Sample.restingEngine "order-1" 7
        Sample.request Sample.state
        = (ExchangeService.Returns order, st')
      ∧ order_status order = ACTIVE
      ∧ ExchangeService.orderDb Sample.state = []
      ∧ ExchangeService.orderDb st'
        = [OrderRepository.mkOrderRow "order-1" BUY 3 2 ACTIVE 7 7 "south" "glazed"]
      ∧ ExchangeService.getOrderBook Sample.state "glazed" false
        = inr (mkOrderBook "glazed" [] [])
      ∧ ExchangeService.getOrderBook st' "glazed" false
        = inr (mkOrderBook "glazed"
                 [mkOrderBookEntry "order-1" "south" 3 2 ACTIVE 7] []).
Proof.
  split; [reflexivity|]. split; [reflexivity|].
  eexists _, _. split; [vm_compute; reflexivity|].
  repeat split; vm_compute; reflexivity.
Qed.

(** C4 (amended): for a closed outlet that exists and a known donut
    type, whatever the matching engine does, [createOrder] throws no
    validation error: the order is inserted in the store with status
    ACTIVE and handed to the engine, and the call ends as the engine
    run on that order ends, followed by the read of the order by its
    id. *)
Theorem C4_closed_outlet_order
    (processOrder : Order -> ExchangeService.Exchange unit)
    (orderId : string) (now : Z) (request : CreateOrderRequest)
    (st : ExchangeService.State) (outlet : Outlet) :
  OutletRepository.findById (ExchangeService.outletDb st) (req_outletId request)
    = Some outlet →
  outlet_isOpen outlet = false →
  req_donutTypeId request ∈ ExchangeService.donutTypeDb st →
  ∃ order st1,
    ExchangeService.orderRepo_create orderId now request st
      = (ExchangeService.Returns order, st1)
    ∧ order_orderId order = orderId
    ∧ order_outletId order = req_outletId request
    ∧ order_status order = ACTIVE
    ∧ (∃ row, row ∈ ExchangeService.orderDb st1
              ∧ OrderRepository.row_orderId row = orderId
              ∧ OrderRepository.row_outletId row = req_outletId request
              ∧ OrderRepository.row_status row = ACTIVE)
    ∧ ExchangeService.createOrder processOrder orderId now request st
      = ExchangeService.bind (processOrder order)
          (λ _, ExchangeService.bind (ExchangeService.orderRepo_findById orderId)
                  (λ found, ExchangeService.ret (Js.definedOr found order)))
          st1.
Proof.
  intros Hfind _ Hdonut. by apply createOrder_creates with outlet.
Qed.

Lemma C4_closed_outlet_order_witness :
  OutletRepository.findById (ExchangeService.outletDb Sample.state)
    (req_outletId Sample.request) = Some Sample.south
  ∧ outlet_isOpen Sample.south = false
  ∧ req_donutTypeId Sample.request ∈ ExchangeService.donutTypeDb Sample.state
  ∧ ∃ order st1,
      ExchangeService.orderRepo_create "order-1" 7 Sample.request Sample.state
        = (ExchangeService.Returns order, st1)
      ∧ order_orderId order = "order-1"
      ∧ order_outletId order = req_outletId Sample.request
      ∧ order_status order = ACTIVE
      ∧ (∃ row, row ∈ ExchangeService.orderDb st1
                ∧ OrderRepository.row_orderId row = "order-1"
                ∧ OrderRepository.row_outletId row = req_outletId Sample.request
                ∧ OrderRepository.row_status row = ACTIVE)
      ∧ ExchangeService.createOrder Sample.restingEngine "order-1" 7
          Sample.request Sample.state
        = ExchangeService.bind (Sample.restingEngine order)
            (λ _, ExchangeService.bind
                    (ExchangeService.orderRepo_findById "order-1")
                    (λ found, ExchangeService.ret (Js.definedOr found order)))
            st1.
Proof.
  split; [reflexivity|]. split; [reflexivity|].
  split; [constructor|].
  apply (C4_closed_outlet_order Sample.restingEngine "order-1" 7 Sample.request
           Sample.state Sample.south); [reflexivity|reflexivity|].
  constructor.
Defined.

(** ** Margins read from the store *)

Section MarginFacts.
Import OutletRepository Ledger.

Lemma orElse_zero (m d : Q) : m == 0 → Js.orElse (Some m) d = d.
Proof. intros H%Qeq_bool_iff. unfold Js.orElse. by rewrite H. Qed.

Lemma findById_margin docs outletId outlet :
  findById docs outletId = Some outlet → ¬ outlet_marginPercent outlet == 0.
Proof.
  intros (doc & _ & _ & _ & ->)%findById_elem. apply orElse_nonzero.
Qed.

Lemma findAll_margin docs :
  Forall (λ o, ¬ outlet_marginPercent o == 0) (findAll docs).
Proof.
  unfold findAll. apply Forall_fmap, Forall_forall. intros doc _. simpl.
  apply orElse_nonzero.
Qed.

Lemma findById_firstDoc docs outletId :
  findById docs outletId = readOutlet outletId <$> firstDoc docs outletId.
Proof.
  unfold findById, firstDoc. by destruct (List.filter _ docs).
Qed.

Lemma firstDoc_id docs outletId doc :
  firstDoc docs outletId = Some doc → doc_outlet_id doc = outletId ∧ doc ∈ docs.
Proof.
  unfold firstDoc. intros H.
  assert (In doc (List.filter
                    (λ d, bool_decide (doc_outlet_id d = outletId)) docs))
    as [Hin Hid%bool_decide_eq_true]%filter_In.
  { destruct (List.filter _ docs); simplify_eq/=. by left. }
  by rewrite list_elem_of_In.
Qed.

Lemma firstDoc_fmap (f : OutletDoc → OutletDoc) docs outletId :
  (∀ d, doc_outlet_id (f d) = doc_outlet_id d) →
  firstDoc (f <$> docs) outletId = f <$> firstDoc docs outletId.
Proof.
  intros Hf. unfold firstDoc.
  induction docs as [|d docs IH]; simpl; [done|].
  rewrite Hf. by destruct (bool_decide (doc_outlet_id d = outletId)).
Qed.

Lemma firstDoc_app docs docs' outletId :
  firstDoc (docs ++ docs') outletId
  = match firstDoc docs outletId with
    | Some d => Some d
    | None => firstDoc docs' outletId
    end.
Proof.
  unfold firstDoc. rewrite List.filter_app.
  by destruct (List.filter _ docs).
Qed.
End MarginFacts.

(** C10, as it is worded, fails on the outlet [create] returns: handed
    an outlet with margin 0, [create] stores the margin 25, and
    [findById] then reads 25, but the outlet [create] hands back still
    has margin 0. *)
Lemma C10_create_returns_zero_margin :
  ∃ docs outlet,
    OutletRepository.create 0 [] 5 6 Sample.flat = (docs, outlet)
    ∧ outlet_marginPercent outlet == 0
    ∧ OutletRepository.doc_margin_percent <$> docs = [Some 25]
    ∧ outlet_marginPercent <$> OutletRepository.findById docs "east" = Some 25.
Proof.
  eexists _, _. split; [reflexivity|]. by vm_compute.
Qed.

(** C10 (amended): [create] stores a margin that is never 0, and 25 when
    it is handed 0; [findById] and [findAll] read a stored margin of 0
    as 25, whatever else the store holds; so every outlet returned by
    [findById] or [findAll] has a margin other than 0. *)
Theorem C10_margin_never_read_as_zero :
  (∀ offset docs now createdAt outlet,
      ∃ doc m,
        (OutletRepository.create offset docs now createdAt outlet).1
          = docs ++ [doc]
        ∧ OutletRepository.doc_margin_percent doc = Some m
        ∧ ¬ m == 0
        ∧ (OutletRepository.new_marginPercent outlet == 0 → m = 25))
  ∧ (∀ before doc after m,
      Forall (λ d, OutletRepository.doc_outlet_id d
                   ≠ OutletRepository.doc_outlet_id doc) before →
      OutletRepository.doc_margin_percent doc = Some m → m == 0 →
      outlet_marginPercent
        <$> OutletRepository.findById (before ++ doc :: after)
              (OutletRepository.doc_outlet_id doc)
        = Some 25)
  ∧ (∀ docs i doc m,
      docs !! i = Some doc →
      OutletRepository.doc_margin_percent doc = Some m → m == 0 →
      outlet_marginPercent <$> OutletRepository.findAll docs !! i = Some 25)
  ∧ (∀ docs outletId outlet,
      OutletRepository.findById docs outletId = Some outlet →
      ¬ outlet_marginPercent outlet == 0)
  ∧ (∀ docs,
      Forall (λ o, ¬ outlet_marginPercent o == 0) (OutletRepository.findAll docs)).
Proof.
  split; [|split; [|split; [|split]]].
  - intros offset docs now createdAt outlet. eexists _, _.
    split; [reflexivity|]. simpl. split; [reflexivity|].
    split; [apply (orElse_nonzero (Some _))|apply orElse_zero].
  - intros before doc after m Hbefore Hm H0.
    rewrite findById_firstDoc, firstDoc_app.
    assert (Ledger.firstDoc before (OutletRepository.doc_outlet_id doc) = None)
      as ->.
    { destruct (Ledger.firstDoc before _) as [d|] eqn:E; [|done].
      apply firstDoc_id in E as [Hid Hin].
      by apply (proj1 (Forall_forall _ _) Hbefore) in Hin. }
    unfold Ledger.firstDoc. cbn [List.filter].
    rewrite bool_decide_eq_true_2 by done. simpl.
    by rewrite Hm, (orElse_zero m 25 H0).
  - intros docs i doc m Hi Hm H0. unfold OutletRepository.findAll.
    rewrite list_lookup_fmap, Hi. simpl.
    by rewrite Hm, (orElse_zero m 25 H0).
  - apply findById_margin.
  - apply findAll_margin.
Qed.

(** * Further properties of the code *)

(** ** Inventory: add, remove, load *)

Section InventoryMoreFacts.
Import ExchangeService Ledger.

Lemma addInventory_run o d q st :
  addInventory o d q st
  = (Returns tt,
     (setInventory o d (getInventoryFromCache st o d + q)
        (updateCache o d (getInventoryFromCache st o d + q) st).2).2).
Proof. reflexivity. Qed.

Lemma removeInventory_run o d q st :
  getInventoryFromCache st o d >= q →
  removeInventory o d q st
  = (Returns true,
     (setInventory o d (getInventoryFromCache st o d - q)
        (updateCache o d (getInventoryFromCache st o d - q) st).2).2).
Proof.
  intros H%lt_false. unfold removeInventory, bind, gets. by rewrite H.
Qed.

Lemma write_cell st o d q o' d' :
  inventoryCell (setInventory o d q (updateCache o d q st).2).2 o' d'
  = if decide (o' = o ∧ d' = d) then Some q else inventoryCell st o' d'.
Proof. apply (updateCache_cell st o d q o' d'). Qed.

Lemma write_db st o d q o' d' :
  inventoryDb (setInventory o d q (updateCache o d q st).2).2 !! (o', d')
  = if decide (o' = o ∧ d' = d) then Some q else inventoryDb st !! (o', d').
Proof.
  unfold setInventory, modify. simpl. case_decide as H.
  - destruct H as [-> ->]. by rewrite lookup_insert_eq.
  - rewrite lookup_insert_ne; [done|]. intros [= <- <-]. tauto.
Qed.

Lemma write_persisted st o d q :
  persisted st → persisted (setInventory o d q (updateCache o d q st).2).2.
Proof.
  intros H o' d'. rewrite write_cell, write_db. case_decide; [done|apply H].
Qed.
End InventoryMoreFacts.

(** X1: [addInventory] never throws; it adds the quantity to the one
    cell it is asked (a cell that does not exist counts for 0), writes
    the new quantity of that cell to the store, and leaves every other
    cell, the outlets and the sales stats as they were. *)
Theorem X1_addInventory_adds
    (st : ExchangeService.State) (outletId donutTypeId : string) (quantity : Q) :
  ∃ st',
    ExchangeService.addInventory outletId donutTypeId quantity st
      = (ExchangeService.Returns tt, st')
    ∧ (∀ o d,
         Ledger.inventoryCell st' o d
         = if decide (o = outletId ∧ d = donutTypeId)
           then Some (ExchangeService.getInventoryFromCache st outletId donutTypeId
                      + quantity)
           else Ledger.inventoryCell st o d)
    ∧ ExchangeService.inventoryDb st' !! (outletId, donutTypeId)
      = Some (ExchangeService.getInventoryFromCache st outletId donutTypeId
              + quantity)
    ∧ ExchangeService.outletDb st' = ExchangeService.outletDb st
    ∧ ExchangeService.salesStatsCache st' = ExchangeService.salesStatsCache st.
Proof.
  eexists. split; [apply addInventory_run|].
  split; [intros o d; apply write_cell|].
  split; [|done]. rewrite write_db. by rewrite decide_True.
Qed.

(** X2: when the cell holds less than the quantity asked,
    [removeInventory] answers [false], throws nothing and changes
    nothing. *)
Theorem X2_removeInventory_refuses
    (st : ExchangeService.State) (outletId donutTypeId : string) (quantity : Q) :
  ExchangeService.getInventoryFromCache st outletId donutTypeId < quantity →
  ExchangeService.removeInventory outletId donutTypeId quantity st
  = (ExchangeService.Returns false, st).
Proof.
  intros H%lt_true.
  unfold ExchangeService.removeInventory, ExchangeService.bind,
    ExchangeService.gets.
  by rewrite H.
Qed.

Lemma X2_removeInventory_refuses_witness :
  ExchangeService.getInventoryFromCache Sample.state "north" "glazed" < 11
  ∧ ExchangeService.removeInventory "north" "glazed" 11 Sample.state
    = (ExchangeService.Returns false, Sample.state).
Proof.
  split; [reflexivity|].
  apply (X2_removeInventory_refuses Sample.state "north" "glazed" 11).
  reflexivity.
Defined.

(** X3: when the cell holds at least the quantity asked,
    [removeInventory] answers [true], lowers that one cell by the
    quantity, writes the new quantity to the store and leaves every
    other cell, the outlets and the sales stats as they were. *)
Theorem X3_removeInventory_removes
    (st : ExchangeService.State) (outletId donutTypeId : string) (quantity : Q) :
  quantity <= ExchangeService.getInventoryFromCache st outletId donutTypeId →
  ∃ st',
    ExchangeService.removeInventory outletId donutTypeId quantity st
      = (ExchangeService.Returns true, st')
    ∧ (∀ o d,
         Ledger.inventoryCell st' o d
         = if decide (o = outletId ∧ d = donutTypeId)
           then Some (ExchangeService.getInventoryFromCache st outletId donutTypeId
                      - quantity)
           else Ledger.inventoryCell st o d)
    ∧ ExchangeService.inventoryDb st' !! (outletId, donutTypeId)
      = Some (ExchangeService.getInventoryFromCache st outletId donutTypeId
              - quantity)
    ∧ ExchangeService.outletDb st' = ExchangeService.outletDb st
    ∧ ExchangeService.salesStatsCache st' = ExchangeService.salesStatsCache st.
Proof.
  intros H. eexists. split; [by apply removeInventory_run|].
  split; [intros o d; apply write_cell|].
  split; [|done]. rewrite write_db. by rewrite decide_True.
Qed.

Lemma X3_removeInventory_removes_witness :
  4 <= ExchangeService.getInventoryFromCache Sample.state "north" "glazed"
  ∧ ∃ st',
      ExchangeService.removeInventory "north" "glazed" 4 Sample.state
        = (ExchangeService.Returns true, st')
      ∧ (∀ o d,
           Ledger.inventoryCell st' o d
           = if decide (o = "north" ∧ d = "glazed")
             then Some (ExchangeService.getInventoryFromCache Sample.state
                          "north" "glazed" - 4)
             else Ledger.inventoryCell Sample.state o d)
      ∧ ExchangeService.inventoryDb st' !! ("north", "glazed")
        = Some (ExchangeService.getInventoryFromCache Sample.state
                  "north" "glazed" - 4)
      ∧ ExchangeService.outletDb st' = ExchangeService.outletDb Sample.state
      ∧ ExchangeService.salesStatsCache st'
        = ExchangeService.salesStatsCache Sample.state.
Proof.
  split; [vm_compute; discriminate|].
  apply (X3_removeInventory_removes Sample.state "north" "glazed" 4).
  vm_compute; discriminate.
Defined.

(** X4: on a cell that is not negative, adding a quantity and removing
    it again succeeds and gives back the quantity the outlet had. *)
Theorem X4_add_then_remove
    (st : ExchangeService.State) (outletId donutTypeId : string) (quantity : Q) :
  0 <= ExchangeService.getInventoryFromCache st outletId donutTypeId →
  ∃ st1 st2,
    ExchangeService.addInventory outletId donutTypeId quantity st
      = (ExchangeService.Returns tt, st1)
    ∧ ExchangeService.removeInventory outletId donutTypeId quantity st1
      = (ExchangeService.Returns true, st2)
    ∧ ExchangeService.getInventoryFromCache st2 outletId donutTypeId
      == ExchangeService.getInventoryFromCache st outletId donutTypeId.
Proof.
  intros H0. eexists _, _. split; [apply addInventory_run|].
  set (st1 := (ExchangeService.setInventory _ _ _ _).2).
  assert (ExchangeService.getInventoryFromCache st1 outletId donutTypeId
          == ExchangeService.getInventoryFromCache st outletId donutTypeId
             + quantity) as Hst1.
  { rewrite (getInventoryFromCache_cell st1). unfold st1.
    rewrite write_cell, decide_True by done. apply orElse_some. }
  split.
  - apply removeInventory_run. lra.
  - rewrite getInventoryFromCache_cell, write_cell, decide_True by done.
    fold st1.
    pose proof (orElse_some
                  (ExchangeService.getInventoryFromCache st1 outletId donutTypeId
                   - quantity)).
    lra.
Qed.

Lemma X4_add_then_remove_witness :
  0 <= ExchangeService.getInventoryFromCache Sample.state "north" "glazed"
  ∧ ∃ st1 st2,
      ExchangeService.addInventory "north" "glazed" 3 Sample.state
        = (ExchangeService.Returns tt, st1)
      ∧ ExchangeService.removeInventory "north" "glazed" 3 st1
        = (ExchangeService.Returns true, st2)
      ∧ ExchangeService.getInventoryFromCache st2 "north" "glazed"
        == ExchangeService.getInventoryFromCache Sample.state "north" "glazed".
Proof.
  split; [vm_compute; discriminate|].
  apply (X4_add_then_remove Sample.state "north" "glazed" 3).
  vm_compute; discriminate.
Defined.

Section LoadFacts.
Import ExchangeService Ledger.

Lemma forEach_snoc {A} (f : A → Exchange unit) (l : list A) (x : A) st :
  (∀ y s, (f y s).1 = Returns tt) →
  forEach f (l ++ [x]) st = (Returns tt, (f x (forEach f l st).2).2).
Proof.
  intros Hf. revert st. induction l as [|y l IH]; intros st; simpl.
  - unfold bind. specialize (Hf x st). by destruct (f x st) as [[[]|] s'].
  - unfold bind. specialize (Hf y st).
    destruct (f y st) as [[[]|] s']; [apply IH|done].
Qed.

Lemma loadInventoryFromDB_snoc records record st :
  loadInventoryFromDB (Fulfilled (records ++ [record])) st
  = (Returns tt,
     (updateCache (record_outletId record) (record_donutTypeId record)
        (record_quantity record)
        (loadInventoryFromDB (Fulfilled records) st).2).2).
Proof. unfold loadInventoryFromDB. by rewrite forEach_snoc. Qed.

Lemma loaded_snoc records record :
  loaded (records ++ [record])
  = <[(record_outletId record, record_donutTypeId record)
      := record_quantity record]> (loaded records).
Proof. unfold loaded. by rewrite reverse_snoc. Qed.

Lemma step_persisted st op : persisted st → persisted (step st op).
Proof.
  intros H. destruct op as [event|o d q|saleId now o d q]; simpl.
  - unfold onTradeExecuted, bind, getOrCreateStats.
    destruct (salesStatsCache st !! event_sellerOutletId event);
      apply (write_persisted _ _ _ _ H).
  - unfold removeInventory, bind, gets.
    destruct (Js.lt _ q); [done|]. apply (write_persisted _ _ _ _ H).
  - unfold sellToCustomer, bind, outletRepo_findById, gets.
    destruct (OutletRepository.findById (outletDb st) o); [|done].
    destruct (Js.lt _ q) eqn:E; [done|].
    unfold removeInventory, bind, gets. rewrite E, updateCache_run.
    unfold getOrCreateStats. simpl.
    destruct (salesStatsCache st !! o); apply (write_persisted st o d _ H).
Qed.
End LoadFacts.

(** X5: when the read of the inventory table is rejected,
    [loadInventoryFromDB] throws the rejection to its caller and leaves
    the cache as it was; when the read answers, the load returns, and
    afterwards a cell named by a record holds the quantity of the last
    record naming it, and a cell no record names is as it was. *)
Theorem X5_loadInventoryFromDB_cells (st : ExchangeService.State) :
  (∀ reason,
      ExchangeService.loadInventoryFromDB (ExchangeService.Rejected reason) st
      = (ExchangeService.Throws (ExchangeService.StoreFailure reason), st))
  ∧ (∀ records,
      (ExchangeService.loadInventoryFromDB
         (ExchangeService.Fulfilled records) st).1
      = ExchangeService.Returns tt
      ∧ ∀ outletId donutTypeId,
          Ledger.inventoryCell
            (ExchangeService.loadInventoryFromDB
               (ExchangeService.Fulfilled records) st).2
            outletId donutTypeId
          = match Ledger.loaded records !! (outletId, donutTypeId) with
            | Some q => Some q
            | None => Ledger.inventoryCell st outletId donutTypeId
            end).
Proof.
  split; [done|]. intros records.
  induction records as [|record records [_ IH]] using rev_ind.
  - split; [done|]. intros o d. unfold Ledger.loaded. simpl.
    by rewrite lookup_empty.
  - rewrite loadInventoryFromDB_snoc. split; [done|]. intros o d. cbn [snd].
    rewrite updateCache_cell, loaded_snoc, IH.
    case_decide as Hk.
    + destruct Hk as [-> ->]. by rewrite lookup_insert_eq.
    + rewrite lookup_insert_ne; [done|]. intros [= <- <-]. tauto.
Qed.

(** X6: if the cache and the store agree on every inventory cell, they
    still do after any run of trade events, removals and customer
    sales, whatever the quantities and whether the calls throw. *)
Theorem X6_cache_agrees_with_store
    (ops : list ExchangeService.Op) (st : ExchangeService.State) :
  Ledger.persisted st → Ledger.persisted (ExchangeService.run ops st).
Proof.
  revert st. induction ops as [|op ops IH]; intros st H; [done|].
  apply IH. by apply step_persisted.
Qed.

Lemma sample_persisted : Ledger.persisted Sample.state.
Proof.
  intros o d. unfold Ledger.inventoryCell. simpl.
  destruct (decide (o = "north")) as [->|Ho].
  - rewrite lookup_singleton_eq. simpl.
    destruct (decide (d = "glazed")) as [->|Hd].
    + by rewrite !lookup_singleton_eq.
    + rewrite !lookup_singleton_ne; [done| |done]. intros [= <-]. done.
  - rewrite !lookup_singleton_ne; [done| |done]. intros [= <- _]. done.
Qed.

Lemma X6_cache_agrees_with_store_witness :
  Ledger.persisted Sample.state
  ∧ Ledger.persisted (ExchangeService.run Sample.ops Sample.state).
Proof.
  split; [exact sample_persisted|].
  apply (X6_cache_agrees_with_store Sample.ops Sample.state).
  exact sample_persisted.
Defined.

(** ** Trades, sales and stats *)

Section TradeFacts.
Import ExchangeService Ledger.

Lemma sellToCustomer_log saleId now st o d q outlet :
  OutletRepository.findById (outletDb st) o = Some outlet →
  q <= getInventoryFromCache st o d →
  ∃ sale st',
    sellToCustomer saleId now o d q st = (Returns sale, st')
    ∧ customerSaleDb st' = customerSaleDb st ++ [sale]
    ∧ orderDb st' = orderDb st
    ∧ donutTypeDb st' = donutTypeDb st.
Proof.
  intros H Hle%lt_false.
  unfold sellToCustomer, bind, outletRepo_findById, gets.
  rewrite H, Hle.
  unfold removeInventory, bind, gets. rewrite Hle, updateCache_run.
  unfold getOrCreateStats. simpl.
  destruct (salesStatsCache st !! o); by eexists _, _.
Qed.

Lemma leaderboard_run st :
  ∃ st',
    getLeaderboard st
    = (Returns (Js.sort byProfit (leaderboardRow st <$> retailOutlets st)), st')
    ∧ (∀ o, statsOf st' o = statsOf st o)
    ∧ outletDb st' = outletDb st.
Proof.
  unfold getLeaderboard, bind, outletRepo_findAll, gets.
  fold (retailOutlets st).
  destruct (mapM_leaderboardEntry (retailOutlets st) st)
    as (st' & -> & Hstats & Hdb).
  by exists st'.
Qed.
End TradeFacts.

(** X7: the handler of a trade never throws. It adds the traded
    quantity to the cell of the buyer and leaves every other cell as it
    was (the cell of the seller is not lowered); it adds the amount to
    the exchange revenue of the seller and one to its count of exchange
    sales, leaving the other stats as they were; it does not touch the
    outlets, so it moves no cash. *)
Theorem X7_onTradeExecuted_effect
    (event : ExchangeService.TradeEvent) (st : ExchangeService.State) :
  ∃ st',
    ExchangeService.onTradeExecuted event st = (ExchangeService.Returns tt, st')
    ∧ (∀ o d,
         Ledger.inventoryCell st' o d
         = if decide (o = ExchangeService.event_buyerOutletId event
                      ∧ d = ExchangeService.event_donutTypeId event)
           then Some (ExchangeService.getInventoryFromCache st
                        (ExchangeService.event_buyerOutletId event)
                        (ExchangeService.event_donutTypeId event)
                      + ExchangeService.event_quantity event)
           else Ledger.inventoryCell st o d)
    ∧ Ledger.statsOf st' (ExchangeService.event_sellerOutletId event)
      = ExchangeService.mkOutletSalesStats
          (ExchangeService.customerSalesRevenue
             (Ledger.statsOf st (ExchangeService.event_sellerOutletId event)))
          (ExchangeService.customerSalesCount
             (Ledger.statsOf st (ExchangeService.event_sellerOutletId event)))
          (ExchangeService.exchangeSalesRevenue
             (Ledger.statsOf st (ExchangeService.event_sellerOutletId event))
           + ExchangeService.event_totalAmount event)
          (ExchangeService.exchangeSalesCount
             (Ledger.statsOf st (ExchangeService.event_sellerOutletId event))
           + 1)
    ∧ (∀ o, o ≠ ExchangeService.event_sellerOutletId event →
            Ledger.statsOf st' o = Ledger.statsOf st o)
    ∧ ExchangeService.outletDb st' = ExchangeService.outletDb st.
Proof.
  unfold ExchangeService.onTradeExecuted, ExchangeService.bind.
  destruct (getOrCreateStats_run (ExchangeService.event_sellerOutletId event) st)
    as (st1 & -> & Hstats & Hdb & Hinv).
  unfold ExchangeService.setStats, ExchangeService.modify.
  rewrite addInventory_run. eexists. split; [reflexivity|].
  split; [|split; [|split]].
  - intros o d. rewrite write_cell.
    unfold ExchangeService.getInventoryFromCache, Ledger.inventoryCell. simpl.
    by rewrite Hinv.
  - unfold Ledger.statsOf at 1. simpl. by rewrite lookup_insert_eq.
  - intros o Ho. unfold Ledger.statsOf at 1. simpl.
    rewrite lookup_insert_ne by done. apply (Hstats o).
  - simpl. exact Hdb.
Qed.

(** X8: a customer sale that goes through touches the selling outlet
    and the sold cell only: the balance of any other outlet, any other
    inventory cell and the stats of any other outlet are as before, the
    exchange stats of the seller too; one record, the sale returned, is
    appended to the sales of the store. *)
Theorem X8_sellToCustomer_frame
    (saleId : string) (now : Z) (st : ExchangeService.State)
    (outletId donutTypeId : string) (quantity : Q) (outlet : Outlet) :
  OutletRepository.findById (ExchangeService.outletDb st) outletId = Some outlet →
  quantity <= ExchangeService.getInventoryFromCache st outletId donutTypeId →
  ∃ sale st',
    ExchangeService.sellToCustomer saleId now outletId donutTypeId quantity st
      = (ExchangeService.Returns sale, st')
    ∧ (∀ o, o ≠ outletId →
            OutletRepository.findById (ExchangeService.outletDb st') o
            = OutletRepository.findById (ExchangeService.outletDb st) o)
    ∧ OutletRepository.findById (ExchangeService.outletDb st') outletId
      = Some (Ledger.setBalance (outlet_balance outlet + sale_revenue sale) outlet)
    ∧ (∀ o d, ¬ (o = outletId ∧ d = donutTypeId) →
              Ledger.inventoryCell st' o d = Ledger.inventoryCell st o d)
    ∧ (∀ o, o ≠ outletId → Ledger.statsOf st' o = Ledger.statsOf st o)
    ∧ ExchangeService.exchangeSalesRevenue (Ledger.statsOf st' outletId)
      = ExchangeService.exchangeSalesRevenue (Ledger.statsOf st outletId)
    ∧ ExchangeService.exchangeSalesCount (Ledger.statsOf st' outletId)
      = ExchangeService.exchangeSalesCount (Ledger.statsOf st outletId)
    ∧ ExchangeService.customerSaleDb st'
      = ExchangeService.customerSaleDb st ++ [sale]
    ∧ ExchangeService.orderDb st' = ExchangeService.orderDb st.
Proof.
  intros Hfind Hle.
  destruct (sellToCustomer_sale saleId now st outletId donutTypeId quantity
              outlet Hfind Hle) as (st' & Hrun & Hcell & Hdb & Hstats & Hother).
  destruct (sellToCustomer_log saleId now st outletId donutTypeId quantity
              outlet Hfind Hle) as (sale & st'' & Hrun' & Hlog & Horders & _).
  rewrite Hrun in Hrun'. injection Hrun' as <- <-.
  eexists _, st'. split; [exact Hrun|]. simpl.
  split; [|split; [|split; [|split; [|split; [|split; [|split]]]]]].
  - intros o Ho. rewrite Hdb, findById_updateBalance. by rewrite decide_False.
  - rewrite Hdb, findById_updateBalance, decide_True by done. by rewrite Hfind.
  - intros o d Hne. rewrite Hcell. by rewrite decide_False.
  - exact Hother.
  - by rewrite Hstats.
  - by rewrite Hstats.
  - exact Hlog.
  - exact Horders.
Qed.

Lemma X8_sellToCustomer_frame_witness :
  OutletRepository.findById (ExchangeService.outletDb Sample.state) "north"
    = Some Sample.north
  ∧ 4 <= ExchangeService.getInventoryFromCache Sample.state "north" "glazed"
  ∧ ∃ sale st',
      ExchangeService.sellToCustomer "sale-1" 7 "north" "glazed" 4 Sample.state
        = (ExchangeService.Returns sale, st')
      ∧ (∀ o, o ≠ "north" →
              OutletRepository.findById (ExchangeService.outletDb st') o
              = OutletRepository.findById (ExchangeService.outletDb Sample.state) o)
      ∧ OutletRepository.findById (ExchangeService.outletDb st') "north"
        = Some (Ledger.setBalance
                  (outlet_balance Sample.north + sale_revenue sale) Sample.north)
      ∧ (∀ o d, ¬ (o = "north" ∧ d = "glazed") →
                Ledger.inventoryCell st' o d
                = Ledger.inventoryCell Sample.state o d)
      ∧ (∀ o, o ≠ "north" → Ledger.statsOf st' o = Ledger.statsOf Sample.state o)
      ∧ ExchangeService.exchangeSalesRevenue (Ledger.statsOf st' "north")
        = ExchangeService.exchangeSalesRevenue (Ledger.statsOf Sample.state "north")
      ∧ ExchangeService.exchangeSalesCount (Ledger.statsOf st' "north")
        = ExchangeService.exchangeSalesCount (Ledger.statsOf Sample.state "north")
      ∧ ExchangeService.customerSaleDb st'
        = ExchangeService.customerSaleDb Sample.state ++ [sale]
      ∧ ExchangeService.orderDb st' = ExchangeService.orderDb Sample.state.
Proof.
  split; [reflexivity|]. split; [vm_compute; discriminate|].
  apply (X8_sellToCustomer_frame "sale-1" 7 Sample.state "north" "glazed" 4
           Sample.north).
  - reflexivity.
  - vm_compute; discriminate.
Defined.

(** X9: [getOutletStats] throws on an outlet the store does not hold,
    changing nothing; on an outlet it holds it returns the row the
    leaderboard computes for that outlet (netProfit = balance - 10000,
    averageMargin = the margin of the outlet) and leaves the outlets
    and the stats of every outlet as they were. *)
Theorem X9_getOutletStats (st : ExchangeService.State) (outletId : string) :
  match OutletRepository.findById (ExchangeService.outletDb st) outletId with
  | None =>
      ExchangeService.getOutletStats outletId st
      = (ExchangeService.Throws (ExchangeService.OutletNotFound None), st)
  | Some outlet =>
      ∃ st',
        ExchangeService.getOutletStats outletId st
        = (ExchangeService.Returns (Ledger.leaderboardRow st outlet), st')
        ∧ stats_netProfit (Ledger.leaderboardRow st outlet)
          = outlet_balance outlet - 10000
        ∧ ExchangeService.outletDb st' = ExchangeService.outletDb st
        ∧ ∀ o, Ledger.statsOf st' o = Ledger.statsOf st o
  end.
Proof.
  unfold ExchangeService.getOutletStats, ExchangeService.bind,
    ExchangeService.outletRepo_findById, ExchangeService.gets.
  destruct (OutletRepository.findById _ outletId) as [outlet|] eqn:Hfind;
    [|done].
  destruct (getOrCreateStats_run outletId st) as (st' & -> & Hstats & Hdb & _).
  exists st'. split; [|done].
  unfold Ledger.leaderboardRow, ExchangeService.ret.
  assert (outlet_outletId outlet = outletId) as ->; [|done].
  unfold OutletRepository.findById in Hfind.
  destruct (List.filter _ _); by simplify_eq.
Qed.

(** X10: [getLeaderboard] only reads: it leaves the outlets and the
    stats of every outlet as they were (it may create empty stats for
    an outlet that had none), and a second call returns the same
    leaderboard. *)
Theorem X10_getLeaderboard_reads (st : ExchangeService.State) :
  ∃ leaderboard st' st'',
    ExchangeService.getLeaderboard st = (ExchangeService.Returns leaderboard, st')
    ∧ ExchangeService.outletDb st' = ExchangeService.outletDb st
    ∧ (∀ o, Ledger.statsOf st' o = Ledger.statsOf st o)
    ∧ ExchangeService.getLeaderboard st'
      = (ExchangeService.Returns leaderboard, st'').
Proof.
  destruct (leaderboard_run st) as (st' & Hrun & Hstats & Hdb).
  destruct (leaderboard_run st') as (st'' & Hrun' & _ & _).
  eexists _, st', st''. split; [exact Hrun|]. split; [done|]. split; [done|].
  rewrite Hrun'. do 3 f_equal.
  unfold Ledger.retailOutlets. rewrite Hdb.
  apply list_fmap_ext. intros _ o _. by apply leaderboardRow_ext.
Qed.

(** ** The outlet table: writes read back *)

Section OutletMoreFacts.
Import OutletRepository Ledger.

Lemma updateMargin_id outletId m d :
  doc_outlet_id
    (if bool_decide (doc_outlet_id d = outletId)
     then mkOutletDoc (doc_outlet_id d) (doc_outlet_name d) (doc_location d)
            (doc_balance d) (Some m) (doc_outlet_open d) (doc_created_at d)
     else d) = doc_outlet_id d.
Proof. by case_bool_decide. Qed.

Lemma toggleOpen_id outletId b d :
  doc_outlet_id
    (if bool_decide (doc_outlet_id d = outletId)
     then mkOutletDoc (doc_outlet_id d) (doc_outlet_name d) (doc_location d)
            (doc_balance d) (doc_margin_percent d) (Some b) (doc_created_at d)
     else d) = doc_outlet_id d.
Proof. by case_bool_decide. Qed.
End OutletMoreFacts.

(** X11: after [updateMargin] of an outlet the store holds, [findById]
    reads the new margin, unless the new margin is 0: then it reads 25.
    Name, location, balance and the open flag of the outlet are as
    before, and every other outlet reads as before. *)
Theorem X11_updateMargin_read_back
    (docs : list OutletRepository.OutletDoc) (outletId : string)
    (newMarginPercent : Q) (outlet : Outlet) :
  OutletRepository.findById docs outletId = Some outlet →
  OutletRepository.findById
    (OutletRepository.updateMargin docs outletId newMarginPercent) outletId
  = Some (mkOutlet (outlet_outletId outlet) (outlet_outletName outlet)
            (outlet_location outlet) (outlet_balance outlet)
            (if Qeq_bool newMarginPercent 0 then 25 else newMarginPercent)
            (outlet_isOpen outlet) (outlet_createdAt outlet))
  ∧ ∀ o, o ≠ outletId →
         OutletRepository.findById
           (OutletRepository.updateMargin docs outletId newMarginPercent) o
         = OutletRepository.findById docs o.
Proof.
  intros Hfind. unfold OutletRepository.updateMargin.
  split; [|intros o Ho];
    rewrite !findById_firstDoc, firstDoc_fmap by apply updateMargin_id.
  - rewrite findById_firstDoc in Hfind.
    destruct (Ledger.firstDoc docs outletId) as [doc|] eqn:E; [|done].
    apply firstDoc_id in E as [Hid _]. simplify_eq/=.
    by rewrite bool_decide_eq_true_2.
  - destruct (Ledger.firstDoc docs o) as [doc|] eqn:E; [|done].
    apply firstDoc_id in E as [Hid _]. simpl.
    rewrite bool_decide_eq_false_2; [done|congruence].
Qed.

Lemma X11_updateMargin_read_back_witness :
  OutletRepository.findById Sample.docs "north" = Some Sample.north
  ∧ OutletRepository.findById
      (OutletRepository.updateMargin Sample.docs "north" 0) "north"
    = Some (mkOutlet (outlet_outletId Sample.north)
              (outlet_outletName Sample.north) (outlet_location Sample.north)
              (outlet_balance Sample.north)
              (if Qeq_bool 0 0 then 25 else 0)
              (outlet_isOpen Sample.north) (outlet_createdAt Sample.north)).
Proof.
  split; [reflexivity|].
  apply (proj1 (X11_updateMargin_read_back Sample.docs "north" 0 Sample.north
                  eq_refl)).
Defined.

(** X12: after [toggleOpen] of an outlet the store holds, [findById]
    reads the flag that was written, everything else of the outlet as
    before, and every other outlet as before. *)
Theorem X12_toggleOpen_read_back
    (docs : list OutletRepository.OutletDoc) (outletId : string)
    (isOpen : bool) (outlet : Outlet) :
  OutletRepository.findById docs outletId = Some outlet →
  OutletRepository.findById
    (OutletRepository.toggleOpen docs outletId isOpen) outletId
  = Some (mkOutlet (outlet_outletId outlet) (outlet_outletName outlet)
            (outlet_location outlet) (outlet_balance outlet)
            (outlet_marginPercent outlet) isOpen (outlet_createdAt outlet))
  ∧ ∀ o, o ≠ outletId →
         OutletRepository.findById
           (OutletRepository.toggleOpen docs outletId isOpen) o
         = OutletRepository.findById docs o.
Proof.
  intros Hfind. unfold OutletRepository.toggleOpen.
  split; [|intros o Ho];
    rewrite !findById_firstDoc, firstDoc_fmap by apply toggleOpen_id.
  - rewrite findById_firstDoc in Hfind.
    destruct (Ledger.firstDoc docs outletId) as [doc|] eqn:E; [|done].
    apply firstDoc_id in E as [Hid _]. simplify_eq/=.
    by rewrite bool_decide_eq_true_2.
  - destruct (Ledger.firstDoc docs o) as [doc|] eqn:E; [|done].
    apply firstDoc_id in E as [Hid _]. simpl.
    rewrite bool_decide_eq_false_2; [done|congruence].
Qed.

Lemma X12_toggleOpen_read_back_witness :
  OutletRepository.findById Sample.docs "north" = Some Sample.north
  ∧ OutletRepository.findById
      (OutletRepository.toggleOpen Sample.docs "north" false) "north"
    = Some (mkOutlet (outlet_outletId Sample.north)
              (outlet_outletName Sample.north) (outlet_location Sample.north)
              (outlet_balance Sample.north) (outlet_marginPercent Sample.north)
              false (outlet_createdAt Sample.north)).
Proof.
  split; [reflexivity|].
  apply (proj1 (X12_toggleOpen_read_back Sample.docs "north" false Sample.north
                  eq_refl)).
Defined.

(** X13: [toggleAllOpen] writes the flag on every outlet of the store,
    the factory included: afterwards [findAll] lists the same outlets,
    with the same balances and margins, all with the flag written, and
    [findById] reads the flag on any outlet it finds. *)
Theorem X13_toggleAllOpen_all
    (docs : list OutletRepository.OutletDoc) (isOpen : bool) :
  OutletRepository.findAll (OutletRepository.toggleAllOpen docs isOpen)
  = (λ o, mkOutlet (outlet_outletId o) (outlet_outletName o) (outlet_location o)
            (outlet_balance o) (outlet_marginPercent o) isOpen
            (outlet_createdAt o))
      <$> OutletRepository.findAll docs
  ∧ ∀ outletId,
      OutletRepository.findById (OutletRepository.toggleAllOpen docs isOpen)
                                outletId
      = (λ o, mkOutlet (outlet_outletId o) (outlet_outletName o)
                (outlet_location o) (outlet_balance o) (outlet_marginPercent o)
                isOpen (outlet_createdAt o))
          <$> OutletRepository.findById docs outletId.
Proof.
  unfold OutletRepository.toggleAllOpen. split.
  - unfold OutletRepository.findAll. rewrite <- !list_fmap_compose.
    by apply list_fmap_ext.
  - intros outletId. rewrite !findById_firstDoc, firstDoc_fmap by done.
    by destruct (Ledger.firstDoc docs outletId).
Qed.

(** X14: [create] on an id the store does not hold yet makes the outlet
    readable: [findById] then returns it with the fields handed to
    [create], except that a margin of 0 reads as 25 and that
    [createdAt] is the clock of the insertion moved back by the offset
    of the host's clock from UTC (the text of the insertion, written
    in UTC without a zone, is read as local time), so it is the time
    of the insertion only on a host on UTC; every outlet [findById]
    found before is found unchanged after. *)
Theorem X14_create_read_back
    (offset : Z) (docs : list OutletRepository.OutletDoc) (now createdAt : Z)
    (outlet : OutletRepository.NewOutlet) :
  OutletRepository.findById docs (OutletRepository.new_outletId outlet) = None →
  OutletRepository.findById
    (OutletRepository.create offset docs now createdAt outlet).1
    (OutletRepository.new_outletId outlet)
  = Some (mkOutlet (OutletRepository.new_outletId outlet)
            (OutletRepository.new_outletName outlet)
            (OutletRepository.new_location outlet)
            (OutletRepository.new_balance outlet)
            (if Qeq_bool (OutletRepository.new_marginPercent outlet) 0
             then 25 else OutletRepository.new_marginPercent outlet)
            (OutletRepository.new_isOpen outlet) (now - offset)%Z)
  ∧ ((now - offset)%Z = now ↔ offset = 0%Z)
  ∧ ∀ o found,
      OutletRepository.findById docs o = Some found →
      OutletRepository.findById
        (OutletRepository.create offset docs now createdAt outlet).1 o
      = Some found.
Proof.
  unfold OutletRepository.create. simpl. intros Hnone.
  split; [|split; [lia|]].
  - rewrite !findById_firstDoc, firstDoc_app in *.
    destruct (Ledger.firstDoc docs _); [done|].
    unfold Ledger.firstDoc. simpl. rewrite bool_decide_eq_true_2 by done.
    simpl. unfold Ledger.readOutlet, Js.readAsLocal. simpl. f_equal. f_equal.
    by destruct (Qeq_bool (OutletRepository.new_marginPercent outlet) 0) eqn:E;
      rewrite ?E.
  - intros o found. rewrite !findById_firstDoc, firstDoc_app.
    by destruct (Ledger.firstDoc docs o).
Qed.

Lemma X14_create_read_back_witness :
  OutletRepository.findById Sample.docs (OutletRepository.new_outletId Sample.flat)
    = None
  ∧ OutletRepository.findById
      (OutletRepository.create 3 Sample.docs 5 6 Sample.flat).1
      (OutletRepository.new_outletId Sample.flat)
    = Some (mkOutlet (OutletRepository.new_outletId Sample.flat)
              (OutletRepository.new_outletName Sample.flat)
              (OutletRepository.new_location Sample.flat)
              (OutletRepository.new_balance Sample.flat)
              (if Qeq_bool (OutletRepository.new_marginPercent Sample.flat) 0
               then 25 else OutletRepository.new_marginPercent Sample.flat)
              (OutletRepository.new_isOpen Sample.flat) (5 - 3)%Z).
Proof.
  split; [reflexivity|].
  apply (proj1 (X14_create_read_back 3 Sample.docs 5 6 Sample.flat eq_refl)).
Defined.

(** ** Sorting commutes with maps and filters *)

Section SortMoreFacts.
Context {A : Type} (cmp : A -> A -> Q).

Lemma sort_cons (x : A) (l : list A) :
  Js.sort cmp (x :: l) = Js.sortInsert cmp x (Js.sort cmp l).
Proof. reflexivity. Qed.

Lemma sortInsert_fmap (f : A → A) (x : A) (m : list A) :
  (∀ x y, cmp (f x) (f y) = cmp x y) →
  Js.sortInsert cmp (f x) (f <$> m) = f <$> Js.sortInsert cmp x m.
Proof.
  intros Hf. induction m as [|y m IHm]; [done|].
  rewrite fmap_cons. cbn [Js.sortInsert]. rewrite Hf.
  destruct (Qle_bool (cmp x y) 0); rewrite !fmap_cons; [done|].
  by rewrite IHm.
Qed.

Lemma sort_fmap (f : A → A) (l : list A) :
  (∀ x y, cmp (f x) (f y) = cmp x y) →
  Js.sort cmp (f <$> l) = f <$> Js.sort cmp l.
Proof.
  intros Hf. induction l as [|x l IH]; [done|].
  rewrite fmap_cons, !sort_cons, IH. by apply sortInsert_fmap.
Qed.

Variable R : A -> A -> Prop.
Hypothesis R_trans : ∀ x y z, R x y → R y z → R x z.
Hypothesis R_total : ∀ x y, R x y ∨ R y x.
Hypothesis cmp_R : ∀ x y, Qle_bool (cmp x y) 0 = true ↔ R x y.

Lemma sortInsert_front (x : A) (l : list A) :
  Forall (R x) l → Js.sortInsert cmp x l = x :: l.
Proof using cmp_R.
  destruct 1 as [|y l Hy _]; simpl; [done|].
  apply cmp_R in Hy. by rewrite Hy.
Qed.

Lemma sortInsert_filter (p : A → bool) (x : A) (l : list A) :
  StronglySorted R l →
  List.filter p (Js.sortInsert cmp x l)
  = if p x then Js.sortInsert cmp x (List.filter p l) else List.filter p l.
Proof using R_trans cmp_R.
  induction 1 as [|y l Hl IH Hy]; simpl.
  - by destruct (p x).
  - destruct (Qle_bool (cmp x y) 0) eqn:E; simpl.
    + destruct (p x); [|done].
      rewrite sortInsert_front; [done|].
      apply cmp_R in E.
      assert (Forall (R x) (y :: l)) as Hall.
      { constructor; [done|]. eapply Forall_impl; [exact Hy|].
        intros z Hz. by eapply R_trans. }
      rewrite Forall_forall in Hall. apply Forall_forall.
      intros z Hz. apply Hall.
      change (z ∈ List.filter p (y :: l)) in Hz.
      by apply list_elem_of_In, filter_In, proj1, list_elem_of_In in Hz.
    + rewrite IH. destruct (p x), (p y); simpl; by rewrite ?E.
Qed.

Lemma sort_filter (p : A → bool) (l : list A) :
  Js.sort cmp (List.filter p l) = List.filter p (Js.sort cmp l).
Proof using R_trans R_total cmp_R.
  induction l as [|x l IH]; [done|].
  rewrite sort_cons, sortInsert_filter by by eapply sort_sorted.
  simpl. destruct (p x); by rewrite ?sort_cons, IH.
Qed.
End SortMoreFacts.

(** X15: the book of the resident orders is the full book without its
    FILLED and CANCELLED orders, in the same order: the snapshot taken
    with [includeAll = false] is, side by side, the snapshot taken with
    [includeAll = true] filtered by [isMatchable]. *)
Theorem X15_live_book_is_filtered_full_book
    (sellOutcome buyOutcome : ReadOutcome OrderRepository.OrderDoc)
    (donutTypeId : string) :
  ∃ live full,
    OrderRepository.getOrderBook sellOutcome buyOutcome donutTypeId false
      = inr live
    ∧ OrderRepository.getOrderBook sellOutcome buyOutcome donutTypeId true
      = inr full
    ∧ buyOrders live
      = List.filter (λ o, OrderRepository.isMatchable (entry_status o))
                    (buyOrders full)
    ∧ sellOrders live
      = List.filter (λ o, OrderRepository.isMatchable (entry_status o))
                    (sellOrders full).
Proof.
  assert (∀ l,
    Js.sort OrderRepository.newestFirst
      (List.filter (λ o, OrderRepository.isMatchable (entry_status o)) l)
    = List.filter (λ o, OrderRepository.isMatchable (entry_status o))
        (Js.sort OrderRepository.newestFirst l)) as Hsort.
  { intros l. apply (sort_filter _ BookOrder.newerBefore).
    - unfold BookOrder.newerBefore. intros x y z. lia.
    - unfold BookOrder.newerBefore. intros x y. lia.
    - apply newestFirst_before. }
  unfold OrderRepository.getOrderBook, OrderRepository.getOrderBookTry.
  destruct sellOutcome, buyOutcome; eexists _, _;
    (split; [reflexivity|]); (split; [reflexivity|]); simpl;
    by rewrite ?Hsort.
Qed.

(** ** The order table: writes read back *)

Section OrderMoreFacts.
Import OrderRepository BookOrder.

Lemma findById_firstRow rows orderId :
  findById rows orderId = orderOf (sideOf rows orderId) <$> firstRow rows orderId.
Proof.
  unfold findById, firstRow, sideOf. by destruct (List.filter _ rows).
Qed.

Lemma firstRow_id rows orderId row :
  firstRow rows orderId = Some row → row_orderId row = orderId ∧ row ∈ rows.
Proof.
  unfold firstRow. intros H.
  assert (In row (List.filter (λ r, bool_decide (row_orderId r = orderId)) rows))
    as [Hin Hid%bool_decide_eq_true]%filter_In.
  { destruct (List.filter _ rows); simplify_eq/=. by left. }
  by rewrite list_elem_of_In.
Qed.

Lemma firstRow_fresh rows orderId :
  (∀ r, r ∈ rows → row_orderId r ≠ orderId) → firstRow rows orderId = None.
Proof.
  intros H. destruct (firstRow rows orderId) as [row|] eqn:E; [|done].
  apply firstRow_id in E as [Hid Hin]. by destruct (H row Hin).
Qed.

Lemma firstRow_app rows rows' orderId :
  firstRow (rows ++ rows') orderId
  = match firstRow rows orderId with
    | Some r => Some r
    | None => firstRow rows' orderId
    end.
Proof.
  unfold firstRow. rewrite List.filter_app. by destruct (List.filter _ rows).
Qed.

Lemma firstRow_fmap (f : OrderRow → OrderRow) rows orderId :
  (∀ r, row_orderId (f r) = row_orderId r) →
  firstRow (f <$> rows) orderId = f <$> firstRow rows orderId.
Proof.
  intros Hf. unfold firstRow.
  induction rows as [|r rows IH]; simpl; [done|].
  rewrite Hf. by destruct (bool_decide (row_orderId r = orderId)).
Qed.

Lemma sideOf_fmap (f : OrderRow → OrderRow) rows orderId :
  (∀ r, row_orderId (f r) = row_orderId r) →
  (∀ r, row_side (f r) = row_side r) →
  sideOf (f <$> rows) orderId = sideOf rows orderId.
Proof.
  intros Hid Hside. unfold sideOf.
  assert (∀ p : OrderRow → bool,
            (∀ r, p (f r) = p r) → existsb p (f <$> rows) = existsb p rows)
    as ->; [|done|].
  - intros p Hp. induction rows as [|r rows IH]; [done|].
    rewrite fmap_cons. simpl. by rewrite Hp, IH.
  - intros r. simpl. by rewrite Hid, Hside.
Qed.

Lemma sideOf_app rows rows' orderId :
  sideOf (rows ++ rows') orderId
  = match sideOf rows orderId with
    | SELL => SELL
    | BUY => sideOf rows' orderId
    end.
Proof.
  unfold sideOf. rewrite existsb_app. by destruct (existsb _ rows).
Qed.

Lemma sideOf_fresh rows orderId :
  (∀ r, r ∈ rows → row_orderId r ≠ orderId) → sideOf rows orderId = BUY.
Proof.
  intros H. unfold sideOf.
  destruct (existsb _ rows) eqn:E; [|done].
  apply existsb_exists in E as (r & Hin%list_elem_of_In & Hr).
  apply andb_true_iff in Hr as [Hid%bool_decide_eq_true _].
  by destruct (H r Hin).
Qed.

Lemma firstRow_copies (l : list string) row orderId :
  firstRow ((λ _, row) <$> l) orderId
  = if bool_decide (row_orderId row = orderId)
    then (match l with [] => None | _ => Some row end)
    else None.
Proof.
  unfold firstRow. destruct (bool_decide (row_orderId row = orderId)) eqn:E.
  - destruct l; simpl; [done|]. by rewrite E.
  - induction l as [|x l IH]; simpl; [done|]. by rewrite E.
Qed.

Lemma existsb_copies (p : OrderRow → bool) (l : list string) row :
  existsb p ((λ _, row) <$> l) = match l with [] => false | _ => p row end.
Proof.
  induction l as [|x l IH]; [done|].
  rewrite fmap_cons. cbn [existsb]. rewrite IH. by destruct l, (p row).
Qed.

Lemma sideOf_copies (l : list string) row orderId :
  sideOf ((λ _, row) <$> l) orderId
  = if bool_decide (row_orderId row = orderId)
    then (match l with [] => BUY | _ => row_side row end)
    else BUY.
Proof.
  unfold sideOf. rewrite existsb_copies.
  destruct (bool_decide (row_orderId row = orderId)), l, (row_side row); done.
Qed.

Lemma sideQuery_copies side (l : list string) row donutTypeId :
  row_donutTypeId row ≠ donutTypeId →
  sideQuery side ((λ _, row) <$> l) donutTypeId = [].
Proof.
  intros H. unfold sideQuery.
  induction l as [|x l IH]; [done|].
  rewrite fmap_cons, filter_cons_False; [done|]. intros [_ ?]. done.
Qed.

Lemma sideQuery_app side rows rows' donutTypeId :
  sideQuery side (rows ++ rows') donutTypeId
  = sideQuery side rows donutTypeId ++ sideQuery side rows' donutTypeId.
Proof. unfold sideQuery. by rewrite filter_app, fmap_app. Qed.

Lemma resident_elem_of side rows donutTypeId e :
  e ∈ resident side rows donutTypeId
  ↔ ∃ r, r ∈ rows ∧ row_side r = side ∧ row_donutTypeId r = donutTypeId
         ∧ e = entryOfDoc (docOfRow r).
Proof.
  unfold resident, sideQuery. rewrite list_elem_of_fmap. split.
  - intros (doc & -> & (r & -> & Hr)%list_elem_of_fmap).
    apply list_elem_of_filter in Hr as [[? ?] ?]. by exists r.
  - intros (r & Hin & Hs & Hd & ->). eexists. split; [done|].
    apply list_elem_of_fmap. exists r. split; [done|].
    by apply list_elem_of_filter.
Qed.
End OrderMoreFacts.

(** X16: [create] with an order id no order carries yet, for an outlet
    the store holds, returns an order that [findById] then reads back
    field by field (side included); the orders with other ids read as
    before. *)
Theorem X16_order_create_read_back
    (outletIds : list string) (rows : list OrderRepository.OrderRow)
    (orderId : string) (now : Z) (order : CreateOrderRequest) :
  (∀ r, r ∈ rows → OrderRepository.row_orderId r ≠ orderId) →
  req_outletId order ∈ outletIds →
  OrderRepository.findById
    (OrderRepository.create outletIds rows orderId now order).1 orderId
  = Some (OrderRepository.create outletIds rows orderId now order).2
  ∧ ∀ id, id ≠ orderId →
          OrderRepository.findById
            (OrderRepository.create outletIds rows orderId now order).1 id
          = OrderRepository.findById rows id.
Proof.
  intros Hfresh Hout. unfold OrderRepository.create. cbn [fst snd].
  destruct (List.filter (λ i, bool_decide (i = req_outletId order)) outletIds)
    as [|i l] eqn:E.
  { exfalso. apply list_elem_of_In in Hout.
    assert (In (req_outletId order)
              (List.filter (λ i, bool_decide (i = req_outletId order)) outletIds))
      as Hin by (apply filter_In; split; [done|by apply bool_decide_eq_true]).
    by rewrite E in Hin. }
  split; [|intros id Hid];
    rewrite !findById_firstRow, firstRow_app, sideOf_app, firstRow_copies,
      sideOf_copies; cbn [OrderRepository.row_orderId OrderRepository.row_side].
  - rewrite firstRow_fresh, sideOf_fresh by done.
    rewrite bool_decide_eq_true_2 by done. reflexivity.
  - rewrite bool_decide_eq_false_2 by done.
    by destruct (BookOrder.firstRow rows id), (BookOrder.sideOf rows id).
Qed.

Lemma X16_order_create_read_back_witness :
  (∀ r, r ∈ Sample.rows → OrderRepository.row_orderId r ≠ "order-1")
  ∧ req_outletId Sample.request ∈ ["north"; "south"]
  ∧ OrderRepository.findById
      (OrderRepository.create ["north"; "south"] Sample.rows "order-1" 7
         Sample.request).1 "order-1"
    = Some (OrderRepository.create ["north"; "south"] Sample.rows "order-1" 7
              Sample.request).2.
Proof.
  assert (∀ r, r ∈ Sample.rows → OrderRepository.row_orderId r ≠ "order-1")
    as Hfresh.
  { intros r Hr. unfold Sample.rows in Hr.
    repeat (apply elem_of_cons in Hr as [->|Hr]; [discriminate|]).
    by apply elem_of_nil in Hr. }
  assert (req_outletId Sample.request ∈ ["north"; "south"]) as Hout
    by (right; left).
  split; [exact Hfresh|]. split; [exact Hout|].
  apply (proj1 (X16_order_create_read_back ["north"; "south"] Sample.rows
                  "order-1" 7 Sample.request Hfresh Hout)).
Defined.

(** X17: an order created for an outlet the store holds shows in the
    snapshot of its product, on its side, as an ACTIVE entry with the
    quantity and the price asked; the snapshot of every other product
    is what it was. *)
Theorem X17_order_create_in_book
    (outletIds : list string) (rows : list OrderRepository.OrderRow)
    (orderId : string) (now : Z) (order : CreateOrderRequest) :
  req_outletId order ∈ outletIds →
  (∃ book,
      OrderRepository.snapshot
        (OrderRepository.create outletIds rows orderId now order).1
        (req_donutTypeId order) false = inr book
      ∧ BookOrder.entryOfRequest orderId now order
        ∈ BookOrder.sideOrders (req_side order) book)
  ∧ ∀ donutTypeId includeAll,
      donutTypeId ≠ req_donutTypeId order →
      OrderRepository.snapshot
        (OrderRepository.create outletIds rows orderId now order).1
        donutTypeId includeAll
      = OrderRepository.snapshot rows donutTypeId includeAll.
Proof.
  intros Hout.
  change (OrderRepository.create outletIds rows orderId now order).1
    with (rows ++ ((λ _, BookOrder.rowOfRequest orderId now order) <$>
                     List.filter (λ i, bool_decide (i = req_outletId order))
                                 outletIds)).
  split.
  - eexists. split; [reflexivity|].
    assert (∀ side,
      side = req_side order →
      BookOrder.entryOfRequest orderId now order
      ∈ Js.sort OrderRepository.newestFirst
          (List.filter (λ o, OrderRepository.isMatchable (entry_status o))
             (OrderRepository.pushAll
                (mkQueryResponse conceptDocuments
                   (OrderRepository.sideQuery side
                      (rows ++ ((λ _, BookOrder.rowOfRequest orderId now order) <$>
                         List.filter (λ i, bool_decide (i = req_outletId order))
                                     outletIds))
                      (req_donutTypeId order)))))) as Hin.
    { intros side ->. rewrite sort_elem_of.
      apply filter_live_elem_of. split; [|by left].
      apply (resident_elem_of (req_side order)).
      exists (BookOrder.rowOfRequest orderId now order). split; [|done].
      apply elem_of_app. right. apply list_elem_of_fmap.
      exists (req_outletId order). split; [done|].
      apply list_elem_of_In, filter_In. split; [by apply list_elem_of_In|].
      by apply bool_decide_eq_true. }
    destruct (req_side order) eqn:Hside; simpl; by apply Hin.
  - intros donutTypeId includeAll Hne. unfold OrderRepository.snapshot,
      OrderRepository.sellQuery, OrderRepository.buyQuery.
    rewrite !sideQuery_app, !sideQuery_copies, !app_nil_r; done.
Qed.

Lemma X17_order_create_in_book_witness :
  req_outletId Sample.request ∈ ["north"; "south"]
  ∧ ∃ book,
      OrderRepository.snapshot
        (OrderRepository.create ["north"; "south"] Sample.rows "order-1" 7
           Sample.request).1
        (req_donutTypeId Sample.request) false = inr book
      ∧ BookOrder.entryOfRequest "order-1" 7 Sample.request
        ∈ BookOrder.sideOrders (req_side Sample.request) book.
Proof.
  assert (req_outletId Sample.request ∈ ["north"; "south"]) as Hout
    by (right; left).
  split; [exact Hout|].
  apply (proj1 (X17_order_create_in_book ["north"; "south"] Sample.rows
                  "order-1" 7 Sample.request Hout)).
Defined.

Section StatusFacts.
Import OrderRepository BookOrder.

Lemma sideQuery_fmap (f : OrderRow → OrderRow) side rows donutTypeId :
  (∀ r, row_side (f r) = row_side r) →
  (∀ r, row_donutTypeId (f r) = row_donutTypeId r) →
  sideQuery side (f <$> rows) donutTypeId
  = (λ r, docOfRow (f r))
      <$> filter (λ r, row_side r = side ∧ row_donutTypeId r = donutTypeId) rows.
Proof.
  intros Hs Hd. unfold sideQuery.
  induction rows as [|r rows IH]; [done|].
  rewrite fmap_cons, !filter_cons.
  destruct (decide (row_side (f r) = side ∧ row_donutTypeId (f r) = donutTypeId))
    as [H1|H1];
    destruct (decide (row_side r = side ∧ row_donutTypeId r = donutTypeId))
    as [H2|H2]; rewrite ?fmap_cons, ?IH; try done;
    exfalso; rewrite Hs, Hd in H1; tauto.
Qed.

Lemma resident_updateStatus side rows orderId status now donutTypeId :
  resident side (updateStatus rows orderId status now) donutTypeId
  = withStatus orderId status <$> resident side rows donutTypeId.
Proof.
  unfold resident, updateStatus.
  rewrite sideQuery_fmap by (intros r; by case_bool_decide).
  unfold sideQuery. rewrite <- !list_fmap_compose.
  apply list_fmap_ext. intros _ r _. simpl.
  unfold withStatus. simpl. by case_bool_decide.
Qed.

Lemma newestFirst_withStatus orderId status a b :
  newestFirst (withStatus orderId status a) (withStatus orderId status b)
  = newestFirst a b.
Proof.
  unfold newestFirst, withStatus. by repeat case_bool_decide.
Qed.

Lemma snapshot_full rows donutTypeId :
  snapshot rows donutTypeId true
  = inr {| book_donutTypeId := donutTypeId;
           buyOrders := Js.sort newestFirst (resident BUY rows donutTypeId);
           sellOrders := Js.sort newestFirst (resident SELL rows donutTypeId) |}.
Proof. reflexivity. Qed.

Lemma sort_newestFirst_filter (p : OrderBookEntry → bool) l :
  Js.sort newestFirst (List.filter p l) = List.filter p (Js.sort newestFirst l).
Proof.
  apply (sort_filter _ newerBefore).
  - unfold newerBefore. intros x y z. lia.
  - unfold newerBefore. intros x y. lia.
  - apply newestFirst_before.
Qed.

Lemma snapshot_live rows donutTypeId :
  snapshot rows donutTypeId false
  = inr {| book_donutTypeId := donutTypeId;
           buyOrders :=
             List.filter (λ o, isMatchable (entry_status o))
               (Js.sort newestFirst (resident BUY rows donutTypeId));
           sellOrders :=
             List.filter (λ o, isMatchable (entry_status o))
               (Js.sort newestFirst (resident SELL rows donutTypeId)) |}.
Proof. rewrite <- !sort_newestFirst_filter. reflexivity. Qed.

Lemma filter_withStatus_terminal orderId status l :
  isMatchable status = false →
  List.filter (λ o, isMatchable (entry_status o)) (withStatus orderId status <$> l)
  = List.filter (λ o, negb (bool_decide (entry_orderId o = orderId)))
      (List.filter (λ o, isMatchable (entry_status o)) l).
Proof.
  intros Hs. induction l as [|e l IH]; [done|].
  rewrite fmap_cons. cbn [List.filter]. rewrite IH.
  unfold withStatus at 1 2.
  destruct (bool_decide (entry_orderId e = orderId)) eqn:E; cbn [entry_status].
  - rewrite Hs. destruct (isMatchable (entry_status e)); [|done].
    cbn [List.filter]. by rewrite E.
  - destruct (isMatchable (entry_status e)); [|done].
    cbn [List.filter]. by rewrite E.
Qed.
End StatusFacts.

(** X18: marking an order FILLED or CANCELLED takes it out of the book
    of the resident orders and changes nothing else there: each side
    of the snapshot taken with [includeAll = false] is what it was,
    in the same order, without the entries of that order id. *)
Theorem X18_terminal_status_leaves_book
    (rows : list OrderRepository.OrderRow) (orderId : string)
    (status : OrderStatus) (now : Z) (donutTypeId : string) :
  status = FILLED ∨ status = CANCELLED →
  ∃ before after,
    OrderRepository.snapshot rows donutTypeId false = inr before
    ∧ OrderRepository.snapshot
        (OrderRepository.updateStatus rows orderId status now) donutTypeId false
      = inr after
    ∧ buyOrders after
      = List.filter (λ o, negb (bool_decide (entry_orderId o = orderId)))
                    (buyOrders before)
    ∧ sellOrders after
      = List.filter (λ o, negb (bool_decide (entry_orderId o = orderId)))
                    (sellOrders before).
Proof.
  intros Hs. eexists _, _. rewrite !snapshot_live.
  split; [reflexivity|]. split; [reflexivity|]. cbn [buyOrders sellOrders].
  rewrite !resident_updateStatus.
  rewrite !sort_fmap by (intros; apply newestFirst_withStatus).
  rewrite !filter_withStatus_terminal; [done| |]; by destruct Hs as [-> | ->].
Qed.

Lemma X18_terminal_status_leaves_book_witness :
  (FILLED = FILLED ∨ FILLED = CANCELLED)
  ∧ ∃ before after,
      OrderRepository.snapshot Sample.rows "glazed" false = inr before
      ∧ OrderRepository.snapshot
          (OrderRepository.updateStatus Sample.rows "b1" FILLED 9) "glazed" false
        = inr after
      ∧ buyOrders after
        = List.filter (λ o, negb (bool_decide (entry_orderId o = "b1")))
                      (buyOrders before)
      ∧ sellOrders after
        = List.filter (λ o, negb (bool_decide (entry_orderId o = "b1")))
                      (sellOrders before).
Proof.
  split; [by left|].
  apply (X18_terminal_status_leaves_book Sample.rows "b1" FILLED 9 "glazed").
  by left.
Defined.

(** X19: a change of status does not reorder the book: after
    [updateStatus] each side of the snapshot taken with
    [includeAll = true] lists the same orders in the same order, the
    entries of the order id with the new status and every other entry
    as it was. *)
Theorem X19_updateStatus_keeps_order
    (rows : list OrderRepository.OrderRow) (orderId : string)
    (status : OrderStatus) (now : Z) (donutTypeId : string) :
  ∃ before after,
    OrderRepository.snapshot rows donutTypeId true = inr before
    ∧ OrderRepository.snapshot
        (OrderRepository.updateStatus rows orderId status now) donutTypeId true
      = inr after
    ∧ buyOrders after = BookOrder.withStatus orderId status <$> buyOrders before
    ∧ sellOrders after = BookOrder.withStatus orderId status <$> sellOrders before.
Proof.
  eexists _, _. rewrite !snapshot_full.
  split; [reflexivity|]. split; [reflexivity|]. cbn [buyOrders sellOrders].
  rewrite !resident_updateStatus.
  by rewrite !sort_fmap by (intros; apply newestFirst_withStatus).
Qed.

(** X20: after [updateQuantity] of an order the store holds,
    [findById] reads the new quantity, and after [updateStatus] the new
    status, each with the new [updatedAt] and with the other fields of
    the order (side included) as before; the orders with other ids
    read as before. *)
Theorem X20_order_update_read_back
    (rows : list OrderRepository.OrderRow) (orderId : string)
    (newQuantity : Q) (status : OrderStatus) (now : Z) (order : Order) :
  OrderRepository.findById rows orderId = Some order →
  OrderRepository.findById
    (OrderRepository.updateQuantity rows orderId newQuantity now) orderId
  = Some (mkOrder (order_orderId order) (order_side order)
            (order_donutTypeId order) newQuantity (order_pricePerUnit order)
            (order_status order) (order_outletId order)
            (order_createdAt order) now)
  ∧ OrderRepository.findById
      (OrderRepository.updateStatus rows orderId status now) orderId
    = Some (mkOrder (order_orderId order) (order_side order)
              (order_donutTypeId order) (order_quantity order)
              (order_pricePerUnit order) status (order_outletId order)
              (order_createdAt order) now)
  ∧ ∀ id, id ≠ orderId →
          OrderRepository.findById
            (OrderRepository.updateQuantity rows orderId newQuantity now) id
          = OrderRepository.findById rows id
          ∧ OrderRepository.findById
              (OrderRepository.updateStatus rows orderId status now) id
            = OrderRepository.findById rows id.
Proof.
  intros Hfind.
  unfold OrderRepository.updateQuantity, OrderRepository.updateStatus.
  split; [|split; [|intros id Hid; split]];
    rewrite !findById_firstRow, firstRow_fmap, sideOf_fmap
      by (intros r; by case_bool_decide).
  - rewrite findById_firstRow in Hfind.
    destruct (BookOrder.firstRow rows orderId) as [row|] eqn:E; [|done].
    apply firstRow_id in E as [Hid _]. simplify_eq/=.
    by rewrite bool_decide_eq_true_2.
  - rewrite findById_firstRow in Hfind.
    destruct (BookOrder.firstRow rows orderId) as [row|] eqn:E; [|done].
    apply firstRow_id in E as [Hid _]. simplify_eq/=.
    by rewrite bool_decide_eq_true_2.
  - destruct (BookOrder.firstRow rows id) as [row|] eqn:E; [|done].
    apply firstRow_id in E as [Hrow _]. simpl.
    rewrite bool_decide_eq_false_2; [done|congruence].
  - destruct (BookOrder.firstRow rows id) as [row|] eqn:E; [|done].
    apply firstRow_id in E as [Hrow _]. simpl.
    rewrite bool_decide_eq_false_2; [done|congruence].
Qed.

Lemma X20_order_update_read_back_witness :
  OrderRepository.findById Sample.rows "a1"
    = Some (mkOrder "a1" SELL "glazed" 5 4 ACTIVE "supplier-factory" 1500 1500)
  ∧ OrderRepository.findById
      (OrderRepository.updateQuantity Sample.rows "a1" 2 9) "a1"
    = Some (mkOrder "a1" SELL "glazed" 2 4 ACTIVE "supplier-factory" 1500 9)
  ∧ OrderRepository.findById
      (OrderRepository.updateStatus Sample.rows "a1" PARTIALLY_FILLED 9) "a1"
    = Some (mkOrder "a1" SELL "glazed" 5 4 PARTIALLY_FILLED "supplier-factory"
              1500 9).
Proof.
  split; [reflexivity|].
  pose proof (X20_order_update_read_back Sample.rows "a1" 2 PARTIALLY_FILLED 9
                (mkOrder "a1" SELL "glazed" 5 4 ACTIVE "supplier-factory"
                         1500 1500) eq_refl) as (H1 & H2 & _).
  split; [exact H1|exact H2].
Defined.

Lemma getOrderBook_sorted
    (sellOutcome buyOutcome : ReadOutcome OrderRepository.OrderDoc)
    (donutTypeId : string) (includeAll : bool) :
  ∃ book,
    OrderRepository.getOrderBook sellOutcome buyOutcome donutTypeId includeAll
      = inr book
    ∧ StronglySorted BookOrder.newerBefore (buyOrders book)
    ∧ StronglySorted BookOrder.newerBefore (sellOrders book).
Proof.
  unfold OrderRepository.getOrderBook, OrderRepository.getOrderBookTry.
  destruct sellOutcome, buyOutcome; eexists; (split; [reflexivity|]); simpl;
    split; try constructor; apply sort_newestFirst_sorted.
Qed.

(** X21: what the front end shows as best bid and best ask are the
    newest bid and the newest ask of the book [getOrderBook] returned,
    whatever their prices: [bestBid] is the first bid, and no bid of
    the book is newer; it is absent exactly when the book has no bid.
    Likewise for [bestAsk]; [spread] is absent exactly when a side is
    empty. *)
Theorem X21_best_bid_is_newest
    (sellOutcome buyOutcome : ReadOutcome OrderRepository.OrderDoc)
    (donutTypeId : string) (includeAll : bool) :
  ∃ book,
    OrderRepository.getOrderBook sellOutcome buyOutcome donutTypeId includeAll
      = inr book
    ∧ match Stores.bestBid (Some book) with
      | None => buyOrders book = []
      | Some bid =>
          bid ∈ buyOrders book
          ∧ Forall (λ e, (entry_createdAt e ≤ entry_createdAt bid)%Z)
                   (buyOrders book)
      end
    ∧ match Stores.bestAsk (Some book) with
      | None => sellOrders book = []
      | Some ask =>
          ask ∈ sellOrders book
          ∧ Forall (λ e, (entry_createdAt e ≤ entry_createdAt ask)%Z)
                   (sellOrders book)
      end
    ∧ (Stores.spread (Some book) = None
       ↔ buyOrders book = [] ∨ sellOrders book = []).
Proof.
  assert (∀ l, StronglySorted BookOrder.newerBefore l →
               match head l with
               | None => l = []
               | Some x =>
                   x ∈ l ∧ Forall (λ e, (entry_createdAt e ≤ entry_createdAt x)%Z) l
               end) as Hhead.
  { intros l Hl. destruct l as [|x l]; [done|]. simpl.
    apply StronglySorted_inv in Hl as [_ Hall].
    split; [by left|]. constructor; [lia|exact Hall]. }
  destruct (getOrderBook_sorted sellOutcome buyOutcome donutTypeId includeAll)
    as (book & Hbook & Hbuy & Hsell).
  exists book. split; [exact Hbook|].
  split; [by apply Hhead|]. split; [by apply Hhead|].
  unfold Stores.spread, Stores.bestBid, Stores.bestAsk.
  destruct (buyOrders book), (sellOrders book); simpl; split; intros H;
    try done; try (by left); try (by right); by destruct H.
Qed.

Example sample_best_bid :
  Stores.bestBid (Some Sample.book)
    = Some (mkOrderBookEntry "b2" "south" 5 2 ACTIVE 2000)
  ∧ mkOrderBookEntry "b1" "north" 5 3 ACTIVE 1000 ∈ buyOrders Sample.book.
Proof. split; [reflexivity|]. right. by left. Qed.

(** ** Order creation: validation *)

(** X22: whatever the matching engine does, [createOrder] for an outlet
    the store does not hold, or for a donut type that is not in the
    catalogue, throws before anything is written: the state is left as
    it was and the engine is not run. The outlet is looked up first: an
    unknown outlet is reported whatever the donut type is. *)
Theorem X22_createOrder_validation
    (processOrder : Order -> ExchangeService.Exchange unit)
    (orderId : string) (now : Z) (request : CreateOrderRequest)
    (st : ExchangeService.State) :
  OutletRepository.findById (ExchangeService.outletDb st) (req_outletId request)
    = None
  ∨ req_donutTypeId request ∉ ExchangeService.donutTypeDb st →
  ∃ e,
    ExchangeService.createOrder processOrder orderId now request st
      = (ExchangeService.Throws e, st)
    ∧ (OutletRepository.findById (ExchangeService.outletDb st)
         (req_outletId request) = None →
       e = ExchangeService.OutletNotFound (Some (req_outletId request)))
    ∧ (is_Some (OutletRepository.findById (ExchangeService.outletDb st)
                  (req_outletId request)) →
       e = ExchangeService.DonutTypeNotFound (req_donutTypeId request)).
Proof.
  intros H.
  destruct (OutletRepository.findById (ExchangeService.outletDb st)
              (req_outletId request)) as [outlet|] eqn:Hfind.
  - destruct H as [?|Hd]; [done|]. eexists. split.
    + by apply createOrder_unknown_donutType with outlet.
    + split; [done|]. done.
  - eexists. split; [by apply createOrder_unknown_outlet|].
    split; [done|]. by intros [? ?].
Qed.

Lemma X22_createOrder_validation_witness :
  (OutletRepository.findById (ExchangeService.outletDb Sample.state)
     (req_outletId (mkCreateOrderRequest "south" "cruller" BUY 3 2)) = None
   ∨ req_donutTypeId (mkCreateOrderRequest "south" "cruller" BUY 3 2)
     ∉ ExchangeService.donutTypeDb Sample.state)
  ∧ ∃ e,
      ExchangeService.createOrder Sample.restingEngine "order-1" 7
        (mkCreateOrderRequest "south" "cruller" BUY 3 2) Sample.state
      = (ExchangeService.Throws e, Sample.state)
      ∧ (OutletRepository.findById (ExchangeService.outletDb Sample.state)
           (req_outletId (mkCreateOrderRequest "south" "cruller" BUY 3 2)) = None →
         e = ExchangeService.OutletNotFound
               (Some (req_outletId (mkCreateOrderRequest "south" "cruller" BUY 3 2))))
      ∧ (is_Some (OutletRepository.findById (ExchangeService.outletDb Sample.state)
                    (req_outletId (mkCreateOrderRequest "south" "cruller" BUY 3 2))) →
         e = ExchangeService.DonutTypeNotFound
               (req_donutTypeId (mkCreateOrderRequest "south" "cruller" BUY 3 2))).
Proof.
  assert (req_donutTypeId (mkCreateOrderRequest "south" "cruller" BUY 3 2)
          ∉ ExchangeService.donutTypeDb Sample.state) as Hd.
  { simpl. intros H. repeat (apply elem_of_cons in H as [H|H]; [discriminate|]).
    by apply elem_of_nil in H. }
  split; [by right|].
  apply (X22_createOrder_validation Sample.restingEngine "order-1" 7
           (mkCreateOrderRequest "south" "cruller" BUY 3 2) Sample.state).
  by right.
Defined.

(** ** Customers *)

Section CustomerFacts.
Import ExchangeService Ledger CustomerSimulator.

Lemma scanOutlets_snoc st d outlets outlet :
  scanOutlets st d (outlets ++ [outlet])
  = scanStep st d (scanOutlets st d outlets) outlet.
Proof. unfold scanOutlets. by rewrite foldl_app. Qed.

Lemma belowCheapest_some price c :
  belowCheapest price (Some c) = true ↔ price < c.
Proof. apply lt_true. Qed.

Lemma belowCheapest_not price c :
  belowCheapest price (Some c) = false ↔ c <= price.
Proof. apply lt_false. Qed.

Lemma stock_zero st o d :
  Qeq_bool (getOutletInventory st o d) 0 = true ↔ getOutletInventory st o d == 0.
Proof. apply Qeq_bool_iff. Qed.

Lemma stock_nonzero st o d :
  Qeq_bool (getOutletInventory st o d) 0 = false
  ↔ ¬ getOutletInventory st o d == 0.
Proof. rewrite <- stock_zero. by destruct (Qeq_bool _ 0). Qed.
End CustomerFacts.

(** X23: the unit price the price hunter compares is the price the
    customer pays: the revenue of a sale that goes through is the
    quantity times [calculatePrice] of the outlet. *)
Theorem X23_price_is_charged
    (saleId : string) (now : Z) (st : ExchangeService.State)
    (outletId donutTypeId : string) (quantity : Q) (outlet : Outlet) :
  OutletRepository.findById (ExchangeService.outletDb st) outletId = Some outlet →
  quantity <= ExchangeService.getInventoryFromCache st outletId donutTypeId →
  ∃ sale st',
    ExchangeService.sellToCustomer saleId now outletId donutTypeId quantity st
      = (ExchangeService.Returns sale, st')
    ∧ sale_revenue sale == quantity * CustomerSimulator.calculatePrice outlet.
Proof.
  intros Hfind Hle.
  destruct (sellToCustomer_sale saleId now st outletId donutTypeId quantity
              outlet Hfind Hle) as (st' & Hrun & _).
  eexists _, st'. split; [exact Hrun|]. simpl.
  unfold CustomerSimulator.calculatePrice. ring.
Qed.

Lemma X23_price_is_charged_witness :
  OutletRepository.findById (ExchangeService.outletDb Sample.state) "north"
    = Some Sample.north
  ∧ 4 <= ExchangeService.getInventoryFromCache Sample.state "north" "glazed"
  ∧ ∃ sale st',
      ExchangeService.sellToCustomer "sale-1" 7 "north" "glazed" 4 Sample.state
        = (ExchangeService.Returns sale, st')
      ∧ sale_revenue sale == 4 * CustomerSimulator.calculatePrice Sample.north.
Proof.
  split; [reflexivity|]. split; [vm_compute; discriminate|].
  apply (X23_price_is_charged "sale-1" 7 Sample.state "north" "glazed" 4
           Sample.north).
  - reflexivity.
  - vm_compute; discriminate.
Defined.

Lemma scan_cheapest
    (st : ExchangeService.State) (donutTypeId : string) (outlets : list Outlet) :
  CustomerSimulator.scanned (CustomerSimulator.scanOutlets st donutTypeId outlets)
  = outlet_outletId
      <$> List.filter (λ o, negb (Shopping.soldOut st donutTypeId o)) outlets
  ∧ match CustomerSimulator.cheapestOutlet
            (CustomerSimulator.scanOutlets st donutTypeId outlets) with
    | None =>
        CustomerSimulator.cheapestPrice
          (CustomerSimulator.scanOutlets st donutTypeId outlets) = None
        ∧ ∀ o, o ∈ outlets → Shopping.soldOut st donutTypeId o = true
    | Some c =>
        ∃ before after,
          outlets = before ++ c :: after
          ∧ Shopping.soldOut st donutTypeId c = false
          ∧ CustomerSimulator.availableStock
              (CustomerSimulator.scanOutlets st donutTypeId outlets)
            = Shopping.stockOf st donutTypeId c
          ∧ CustomerSimulator.cheapestPrice
              (CustomerSimulator.scanOutlets st donutTypeId outlets)
            = Some (CustomerSimulator.calculatePrice c)
          ∧ (∀ o, o ∈ before → Shopping.soldOut st donutTypeId o = false →
                  CustomerSimulator.calculatePrice c
                  < CustomerSimulator.calculatePrice o)
          ∧ (∀ o, o ∈ after → Shopping.soldOut st donutTypeId o = false →
                  CustomerSimulator.calculatePrice c
                  <= CustomerSimulator.calculatePrice o)
    end.
Proof.
  induction outlets as [|o outlets [IHs IH]] using rev_ind.
  - split; [done|]. split; [done|]. intros o Ho. by apply elem_of_nil in Ho.
  - rewrite scanOutlets_snoc, List.filter_app, fmap_app.
    unfold CustomerSimulator.scanStep.
    fold (Shopping.stockOf st donutTypeId o).
    fold (Shopping.soldOut st donutTypeId o).
    cbn [List.filter].
    destruct (Shopping.soldOut st donutTypeId o) eqn:Hsold; cbn [negb].
    + split; [by rewrite IHs, app_nil_r|].
      destruct (CustomerSimulator.cheapestOutlet _) as [c|].
      * destruct IH as (before & after & -> & Hc & Hstock & Hprice & Hb & Ha).
        exists before, (after ++ [o]).
        split; [by rewrite <- app_assoc|]. split; [done|]. split; [done|].
        split; [done|]. split; [done|].
        intros o' [Ho'|Ho']%elem_of_app; [by apply Ha|].
        apply list_elem_of_singleton in Ho' as ->. congruence.
      * destruct IH as [Hnone IH]. split; [done|].
        intros o' [Ho'|Ho']%elem_of_app; [by apply IH|].
        by apply list_elem_of_singleton in Ho' as ->.
    + destruct (CustomerSimulator.cheapestOutlet _) as [c|].
      * destruct IH as (before & after & -> & Hc & Hstock & Hprice & Hb & Ha).
        rewrite Hprice.
        destruct (CustomerSimulator.belowCheapest _ _) eqn:Hbelow;
          cbn [CustomerSimulator.scanned CustomerSimulator.cheapestOutlet
               CustomerSimulator.availableStock CustomerSimulator.cheapestPrice].
        -- apply belowCheapest_some in Hbelow.
           split; [by rewrite IHs|].
           exists (before ++ c :: after), [].
           split; [done|]. split; [done|]. split; [done|]. split; [done|].
           split; [|intros o' Ho'; by apply elem_of_nil in Ho'].
           intros o' [Ho'|Ho']%elem_of_app Hs.
           ++ specialize (Hb o' Ho' Hs). lra.
           ++ apply elem_of_cons in Ho' as [->|Ho']; [done|].
              specialize (Ha o' Ho' Hs). lra.
        -- apply belowCheapest_not in Hbelow.
           split; [by rewrite IHs|].
           exists before, (after ++ [o]).
           split; [by rewrite <- app_assoc|]. split; [done|]. split; [done|].
           split; [done|]. split; [done|].
           intros o' [Ho'|Ho']%elem_of_app Hs; [by apply Ha|].
           by apply list_elem_of_singleton in Ho' as ->.
      * destruct IH as [Hnone IH]. rewrite Hnone.
        cbn [CustomerSimulator.belowCheapest CustomerSimulator.scanned
             CustomerSimulator.cheapestOutlet CustomerSimulator.availableStock
             CustomerSimulator.cheapestPrice].
        split; [by rewrite IHs|].
        exists outlets, []. split; [done|]. split; [done|]. split; [done|].
        split; [done|].
        split; [|intros o' Ho'; by apply elem_of_nil in Ho'].
        intros o' Ho' Hs. specialize (IH o' Ho'). congruence.
Qed.

(** X24: the scan of the price hunter ends on the first of the cheapest
    outlets that show stock: the outlet it keeps shows stock, every
    outlet with stock before it in the list is strictly dearer, every
    outlet with stock after it is at least as dear, and the stock and
    the price kept are those of that outlet. It keeps no outlet exactly
    when every outlet is sold out; it visits the outlets with stock, in
    the order of the list. *)
Theorem X24_scan_finds_cheapest
    (st : ExchangeService.State) (donutTypeId : string) (outlets : list Outlet) :
  CustomerSimulator.scanned (CustomerSimulator.scanOutlets st donutTypeId outlets)
  = outlet_outletId
      <$> List.filter (λ o, negb (Shopping.soldOut st donutTypeId o)) outlets
  ∧ match CustomerSimulator.cheapestOutlet
            (CustomerSimulator.scanOutlets st donutTypeId outlets) with
    | None =>
        CustomerSimulator.cheapestPrice
          (CustomerSimulator.scanOutlets st donutTypeId outlets) = None
        ∧ ∀ o, o ∈ outlets → Shopping.soldOut st donutTypeId o = true
    | Some c =>
        ∃ before after,
          outlets = before ++ c :: after
          ∧ Shopping.soldOut st donutTypeId c = false
          ∧ CustomerSimulator.availableStock
              (CustomerSimulator.scanOutlets st donutTypeId outlets)
            = Shopping.stockOf st donutTypeId c
          ∧ CustomerSimulator.cheapestPrice
              (CustomerSimulator.scanOutlets st donutTypeId outlets)
            = Some (CustomerSimulator.calculatePrice c)
          ∧ (∀ o, o ∈ before → Shopping.soldOut st donutTypeId o = false →
                  CustomerSimulator.calculatePrice c
                  < CustomerSimulator.calculatePrice o)
          ∧ (∀ o, o ∈ after → Shopping.soldOut st donutTypeId o = false →
                  CustomerSimulator.calculatePrice c
                  <= CustomerSimulator.calculatePrice o)
    end.
Proof. apply scan_cheapest. Qed.

Section HunterFacts.
Import ExchangeService Ledger CustomerSimulator Shopping.

Lemma quantityFor_bounds draw stock :
  quantityFor draw stock <= stock ∧ quantityFor draw stock <= draw_rand draw.
Proof.
  unfold quantityFor. split; [apply Q.le_min_r|apply Q.le_min_l].
Qed.

Lemma quantityFor_nonneg draw stock :
  0 <= draw_rand draw → 0 <= stock → 0 <= quantityFor draw stock.
Proof. intros. unfold quantityFor. by apply Q.min_glb. Qed.

Lemma quantityFor_pos draw stock :
  0 < draw_rand draw → 0 < stock → 0 < quantityFor draw stock.
Proof. intros. unfold quantityFor. by apply Q.min_glb_lt. Qed.

Lemma stockOf_pos st d o :
  wellFormed st → soldOut st d o = false → 0 < stockOf st d o.
Proof.
  intros Hwf Hs. unfold soldOut in Hs.
  pose proof (available_nonneg st (outlet_outletId o) d Hwf) as H0.
  fold (getOutletInventory st (outlet_outletId o) d) in H0.
  fold (stockOf st d o) in H0.
  destruct (Qlt_le_dec 0 (stockOf st d o)) as [?|Hle]; [done|].
  assert (stockOf st d o == 0) as Hz%Qeq_bool_iff by lra. congruence.
Qed.

Lemma getAllOutlets_run st :
  getAllOutlets st = (Returns (retailOutlets st), st).
Proof. reflexivity. Qed.
End HunterFacts.

(** X25: when some open outlet the store holds shows stock, the price
    hunter buys, and from the outlet its scan kept: with a draw above 0
    and no negative cell in the ledger the sale goes through, for a
    quantity above 0 that is at most the draw and at most the stock of
    that outlet, and the sale is added to the purchases of the
    customer. *)
Theorem X25_hunter_buys_from_cheapest
    (draw : CustomerSimulator.Draw) (donutTypeId : string)
    (openOutlets : list Outlet) (customer : CustomerSimulator.SimulatedCustomer)
    (st : ExchangeService.State) (c : Outlet) :
  Ledger.wellFormed st →
  Shopping.known st openOutlets →
  0 < CustomerSimulator.draw_rand draw →
  CustomerSimulator.cheapestOutlet
    (CustomerSimulator.scanOutlets st donutTypeId openOutlets) = Some c →
  ∃ sale st',
    ExchangeService.sellToCustomer
      (CustomerSimulator.draw_saleId draw) (CustomerSimulator.draw_now draw)
      (outlet_outletId c) donutTypeId
      (CustomerSimulator.quantityFor draw (Shopping.stockOf st donutTypeId c)) st
    = (ExchangeService.Returns sale, st')
    ∧ CustomerSimulator.priceHunterItem draw donutTypeId openOutlets customer st
      = (ExchangeService.Returns
           (CustomerSimulator.purchase
              (CustomerSimulator.visitAll customer
                 (CustomerSimulator.scanned
                    (CustomerSimulator.scanOutlets st donutTypeId openOutlets)))
              sale), st')
    ∧ sale_outletId sale = outlet_outletId c
    ∧ 0 < sale_quantity sale
    ∧ sale_quantity sale <= Shopping.stockOf st donutTypeId c
    ∧ sale_quantity sale <= CustomerSimulator.draw_rand draw.
Proof.
  intros Hwf Hknown Hrand Hc.
  pose proof (scan_cheapest st donutTypeId openOutlets) as [_ Hscan].
  rewrite Hc in Hscan.
  destruct Hscan as (before & after & Hl & Hsold & Havail & _).
  assert (c ∈ openOutlets) as Hin
    by (rewrite Hl; apply elem_of_app; right; by left).
  destruct (Hknown c Hin) as [outlet Hfind].
  pose proof (quantityFor_bounds draw (Shopping.stockOf st donutTypeId c))
    as [Hq1 Hq2].
  pose proof (quantityFor_pos draw _ Hrand (stockOf_pos st _ _ Hwf Hsold)) as Hq0.
  destruct (sellToCustomer_sale (CustomerSimulator.draw_saleId draw)
              (CustomerSimulator.draw_now draw) st (outlet_outletId c)
              donutTypeId _ outlet Hfind Hq1) as (st' & Hrun & _).
  eexists _, st'. split; [exact Hrun|].
  split; [|by simpl].
  unfold CustomerSimulator.priceHunterItem, ExchangeService.bind at 1,
    ExchangeService.gets.
  rewrite Hc, Havail.
  unfold CustomerSimulator.tryCatch, ExchangeService.bind.
  by rewrite Hrun.
Qed.

Lemma sample_known : Shopping.known Sample.state [Sample.north].
Proof.
  intros o Ho. apply list_elem_of_singleton in Ho as ->. by eexists.
Qed.

Lemma X25_hunter_buys_from_cheapest_witness :
  Ledger.wellFormed Sample.state
  ∧ Shopping.known Sample.state [Sample.north]
  ∧ 0 < CustomerSimulator.draw_rand (CustomerSimulator.mkDraw 2 "sale-1" 7)
  ∧ CustomerSimulator.cheapestOutlet
      (CustomerSimulator.scanOutlets Sample.state "glazed" [Sample.north])
    = Some Sample.north
  ∧ ∃ sale st',
      ExchangeService.sellToCustomer "sale-1" 7 "north" "glazed"
        (CustomerSimulator.quantityFor (CustomerSimulator.mkDraw 2 "sale-1" 7)
           (Shopping.stockOf Sample.state "glazed" Sample.north)) Sample.state
      = (ExchangeService.Returns sale, st')
      ∧ CustomerSimulator.priceHunterItem (CustomerSimulator.mkDraw 2 "sale-1" 7)
          "glazed" [Sample.north]
          (CustomerSimulator.mkSimulatedCustomer "customer-1"
             CustomerSimulator.PRICE_HUNTER ["glazed"] [] []) Sample.state
        = (ExchangeService.Returns
             (CustomerSimulator.purchase
                (CustomerSimulator.visitAll
                   (CustomerSimulator.mkSimulatedCustomer "customer-1"
                      CustomerSimulator.PRICE_HUNTER ["glazed"] [] [])
                   (CustomerSimulator.scanned
                      (CustomerSimulator.scanOutlets Sample.state "glazed"
                         [Sample.north])))
                sale), st')
      ∧ sale_outletId sale = "north"
      ∧ 0 < sale_quantity sale
      ∧ sale_quantity sale <= Shopping.stockOf Sample.state "glazed" Sample.north
      ∧ sale_quantity sale <= 2.
Proof.
  split; [exact sample_wellFormed|]. split; [exact sample_known|].
  split; [reflexivity|]. split; [reflexivity|].
  apply (X25_hunter_buys_from_cheapest (CustomerSimulator.mkDraw 2 "sale-1" 7)
           "glazed" [Sample.north]
           (CustomerSimulator.mkSimulatedCustomer "customer-1"
              CustomerSimulator.PRICE_HUNTER ["glazed"] [] [])
           Sample.state Sample.north).
  - exact sample_wellFormed.
  - exact sample_known.
  - reflexivity.
  - reflexivity.
Defined.

Section CustomerRunFacts.
Import ExchangeService Ledger CustomerSimulator Shopping.

Lemma sale_attempt_wellFormed draw stock o d st :
  wellFormed st → 0 <= draw_rand draw → 0 <= stock →
  wellFormed
    (sellToCustomer (draw_saleId draw) (draw_now draw) o d
       (quantityFor draw stock) st).2.
Proof.
  intros Hwf Hr Hs. apply sellToCustomer_wellFormed; [done|].
  by apply quantityFor_nonneg.
Qed.

Lemma priceHunterItem_wellFormed draw d openOutlets customer st :
  wellFormed st → 0 <= draw_rand draw →
  ∃ customer' st',
    priceHunterItem draw d openOutlets customer st = (Returns customer', st')
    ∧ wellFormed st'.
Proof.
  intros Hwf Hr. unfold priceHunterItem, bind at 1, gets.
  pose proof (scan_cheapest st d openOutlets) as [_ Hscan].
  destruct (cheapestOutlet (scanOutlets st d openOutlets)) as [c|];
    [|by eexists _, _].
  destruct Hscan as (_ & _ & _ & _ & Havail & _).
  assert (0 <= availableStock (scanOutlets st d openOutlets)) as H0.
  { rewrite Havail. apply (available_nonneg st _ _ Hwf). }
  pose proof (sale_attempt_wellFormed draw _ (outlet_outletId c) d st Hwf Hr H0)
    as Hwf'.
  unfold tryCatch, bind.
  destruct (sellToCustomer _ _ _ _ _ st) as [[sale|e] st']; by eexists _, _.
Qed.

Lemma priceHunterItems_wellFormed draws k items openOutlets customer st :
  wellFormed st → (∀ k i, 0 <= draw_rand (draws k i)) →
  ∃ customer' st',
    priceHunterItems draws k items openOutlets customer st
    = (Returns customer', st')
    ∧ wellFormed st'.
Proof.
  intros Hwf Hr. revert k customer st Hwf.
  induction items as [|d items IH]; intros k customer st Hwf; simpl.
  - by eexists _, _.
  - unfold bind.
    destruct (priceHunterItem_wellFormed (draws k 0%nat) d openOutlets customer
                st Hwf (Hr _ _)) as (customer1 & st1 & -> & Hwf1).
    by apply IH.
Qed.

Lemma firstFindItem_wellFormed draws i d outlets customer st :
  wellFormed st → (∀ i, 0 <= draw_rand (draws i)) →
  ∃ customer' st',
    firstFindItem draws i d outlets customer st = (Returns customer', st')
    ∧ wellFormed st'.
Proof.
  intros Hwf Hr. revert i customer st Hwf.
  induction outlets as [|o outlets IH]; intros i customer st Hwf; simpl.
  - by eexists _, _.
  - destruct (outlet_isOpen o); simpl; [|by apply IH].
    unfold bind at 1, gets.
    destruct (Qeq_bool _ 0); [by apply IH|].
    pose proof (sale_attempt_wellFormed (draws i)
                  (getOutletInventory st (outlet_outletId o) d)
                  (outlet_outletId o) d st Hwf (Hr i)
                  (available_nonneg st _ _ Hwf)) as Hwf'.
    unfold tryCatch, bind.
    destruct (sellToCustomer _ _ _ _ _ st) as [[sale|e] st'];
      [by eexists _, _|by apply IH].
Qed.

Lemma firstFindItems_wellFormed draws k items outlets customer st :
  wellFormed st → (∀ k i, 0 <= draw_rand (draws k i)) →
  ∃ customer' st',
    firstFindItems draws k items outlets customer st = (Returns customer', st')
    ∧ wellFormed st'.
Proof.
  intros Hwf Hr. revert k customer st Hwf.
  induction items as [|d items IH]; intros k customer st Hwf; simpl.
  - by eexists _, _.
  - unfold bind.
    destruct (firstFindItem_wellFormed (draws k) 0 d outlets customer st Hwf
                (Hr k)) as (customer1 & st1 & -> & Hwf1).
    by apply IH.
Qed.
End CustomerRunFacts.

(** X26: a customer never leaves a negative cell or a negative balance
    behind: from a ledger without one (and with the margins of the data
    model), whatever the type of the customer, its shopping list and
    the shuffles, as long as no draw is negative, the ledger after
    [spawnCustomer] has none either; a sale that fails is caught, so
    the customer always leaves. *)
Theorem X26_customer_keeps_ledger_sound
    (dice : CustomerSimulator.Dice) (sim : CustomerSimulator.Simulator)
    (st : ExchangeService.State) :
  Ledger.wellFormed st →
  Shopping.fair dice →
  Ledger.wellFormed (CustomerSimulator.spawnCustomer dice sim st).2
  ∧ Ledger.nonNegative (CustomerSimulator.spawnCustomer dice sim st).2.
Proof.
  intros Hwf Hfair.
  assert (Ledger.wellFormed (CustomerSimulator.spawnCustomer dice sim st).2)
    as H; [|split; [done|apply H]].
  unfold CustomerSimulator.spawnCustomer.
  rewrite getAllOutlets_run.
  unfold CustomerSimulator.getAllDonutTypes, ExchangeService.gets.
  destruct (_ || _); [done|].
  destruct (CustomerSimulator.createCustomer dice sim _) as [sim' customer].
  destruct (CustomerSimulator.customerType customer).
  - unfold CustomerSimulator.processFirstFindCustomer.
    destruct (firstFindItems_wellFormed (CustomerSimulator.dice_draw dice) 0
                (CustomerSimulator.shoppingList customer)
                (CustomerSimulator.dice_shuffleOutlets dice
                   (List.filter outlet_isOpen (Ledger.retailOutlets st)))
                customer st Hwf Hfair) as (c' & st' & -> & Hwf').
    done.
  - unfold CustomerSimulator.processPriceHunterCustomer.
    destruct (priceHunterItems_wellFormed (CustomerSimulator.dice_draw dice) 0
                (CustomerSimulator.shoppingList customer)
                (List.filter outlet_isOpen
                   (List.filter outlet_isOpen (Ledger.retailOutlets st)))
                customer st Hwf Hfair) as (c' & st' & -> & Hwf').
    done.
Qed.

Lemma sample_fair : Shopping.fair SampleShop.dice.
Proof. intros k i. simpl. by vm_compute. Qed.

Lemma X26_customer_keeps_ledger_sound_witness :
  Ledger.wellFormed Sample.state
  ∧ Shopping.fair SampleShop.dice
  ∧ Ledger.wellFormed
      (CustomerSimulator.spawnCustomer SampleShop.dice
         CustomerSimulator.newSimulator Sample.state).2
  ∧ Ledger.nonNegative
      (CustomerSimulator.spawnCustomer SampleShop.dice
         CustomerSimulator.newSimulator Sample.state).2.
Proof.
  split; [exact sample_wellFormed|]. split; [exact sample_fair|].
  apply (X26_customer_keeps_ledger_sound SampleShop.dice
           CustomerSimulator.newSimulator Sample.state).
  - exact sample_wellFormed.
  - exact sample_fair.
Defined.

(** The sample customer comes, buys 2 glazed at "north", finds no jelly
    and leaves. *)
Example sample_customer :
  ∃ sim customer st',
    CustomerSimulator.spawnCustomer SampleShop.dice
      CustomerSimulator.newSimulator Sample.state
    = ((sim, Some customer), st')
    ∧ CustomerSimulator.customerId customer = "customer-1"
    ∧ CustomerSimulator.shoppingList customer = ["glazed"; "jelly"]
    ∧ CustomerSimulator.visitedOutlets customer = ["north"]
    ∧ sale_outletId <$> CustomerSimulator.purchases customer = ["north"]
    ∧ ExchangeService.getInventoryFromCache st' "north" "glazed" == 8.
Proof.
  eexists _, _, _. split; [vm_compute; reflexivity|].
  repeat split; vm_compute; reflexivity.
Qed.

Section FirstFindFacts.
Import ExchangeService Ledger CustomerSimulator Shopping.

Lemma firstFindItem_skips draws i d o outlets customer st :
  outlet_isOpen o = false ∨ soldOut st d o = true →
  firstFindItem draws i d (o :: outlets) customer st
  = firstFindItem draws (S i) d outlets customer st.
Proof.
  intros H. simpl. destruct (outlet_isOpen o); simpl; [|done].
  destruct H as [?|H]; [done|].
  unfold bind, gets. unfold soldOut, stockOf in H. by rewrite H.
Qed.
End FirstFindFacts.

(** X27: the first-find customer buys an item at the first outlet of
    its round that is open and shows stock: when every outlet before it
    is closed or sold out, that outlet is held by the store and the
    draw there is above 0 (on a ledger without negative cell), the sale
    goes through there, the customer records this one visit and this
    one purchase, and the outlets after it are not visited. *)
Theorem X27_firstFind_buys_at_first_stocked
    (draws : nat -> CustomerSimulator.Draw) (i : nat) (donutTypeId : string)
    (before after : list Outlet) (o : Outlet)
    (customer : CustomerSimulator.SimulatedCustomer)
    (st : ExchangeService.State) :
  Ledger.wellFormed st →
  (∀ o', o' ∈ before →
         outlet_isOpen o' = false ∨ Shopping.soldOut st donutTypeId o' = true) →
  outlet_isOpen o = true →
  Shopping.soldOut st donutTypeId o = false →
  is_Some (OutletRepository.findById (ExchangeService.outletDb st)
             (outlet_outletId o)) →
  0 < CustomerSimulator.draw_rand (draws (i + length before)%nat) →
  ∃ sale st',
    ExchangeService.sellToCustomer
      (CustomerSimulator.draw_saleId (draws (i + length before)%nat))
      (CustomerSimulator.draw_now (draws (i + length before)%nat))
      (outlet_outletId o) donutTypeId
      (CustomerSimulator.quantityFor (draws (i + length before)%nat)
         (Shopping.stockOf st donutTypeId o)) st
    = (ExchangeService.Returns sale, st')
    ∧ CustomerSimulator.firstFindItem draws i donutTypeId
        (before ++ o :: after) customer st
      = (ExchangeService.Returns
           (CustomerSimulator.purchase
              (CustomerSimulator.visit customer (outlet_outletId o)) sale), st')
    ∧ 0 < sale_quantity sale
    ∧ sale_quantity sale <= Shopping.stockOf st donutTypeId o.
Proof.
  intros Hwf Hbefore Hopen Hsold [outlet Hfind]. revert i.
  induction before as [|o' before IH]; intros i Hrand.
  - rewrite Nat.add_0_r in *.
    pose proof (quantityFor_bounds (draws i) (Shopping.stockOf st donutTypeId o))
      as [Hq1 _].
    pose proof (quantityFor_pos (draws i) _ Hrand
                  (stockOf_pos st _ _ Hwf Hsold)) as Hq0.
    destruct (sellToCustomer_sale (CustomerSimulator.draw_saleId (draws i))
                (CustomerSimulator.draw_now (draws i)) st (outlet_outletId o)
                donutTypeId _ outlet Hfind Hq1) as (st' & Hrun & _).
    eexists _, st'. split; [exact Hrun|]. split; [|by simpl].
    simpl. rewrite Hopen. simpl.
    unfold ExchangeService.bind at 1, ExchangeService.gets.
    unfold Shopping.soldOut, Shopping.stockOf in Hsold. rewrite Hsold.
    unfold CustomerSimulator.tryCatch, ExchangeService.bind.
    unfold Shopping.stockOf in Hrun. by rewrite Hrun.
  - simpl length in *. rewrite <- Nat.add_succ_comm in *.
    assert (∀ x, x ∈ before →
                 outlet_isOpen x = false
                 ∨ Shopping.soldOut st donutTypeId x = true) as Hrest
      by (intros x Hx; apply Hbefore; by right).
    destruct (IH Hrest (S i) Hrand) as (sale & st' & Hrun & Hitem & Hq).
    exists sale, st'. split; [exact Hrun|]. split; [|exact Hq].
    rewrite <- app_comm_cons, firstFindItem_skips; [exact Hitem|].
    apply Hbefore. by left.
Qed.

Lemma X27_firstFind_buys_at_first_stocked_witness :
  Ledger.wellFormed Sample.state
  ∧ (∀ o', o' ∈ [Sample.south] →
           outlet_isOpen o' = false
           ∨ Shopping.soldOut Sample.state "glazed" o' = true)
  ∧ outlet_isOpen Sample.north = true
  ∧ Shopping.soldOut Sample.state "glazed" Sample.north = false
  ∧ is_Some (OutletRepository.findById (ExchangeService.outletDb Sample.state)
               (outlet_outletId Sample.north))
  ∧ 0 < CustomerSimulator.draw_rand
          (SampleShop.draws (0 + length [Sample.south])%nat)
  ∧ ∃ sale st',
      ExchangeService.sellToCustomer
        (CustomerSimulator.draw_saleId
           (SampleShop.draws (0 + length [Sample.south])%nat))
        (CustomerSimulator.draw_now
           (SampleShop.draws (0 + length [Sample.south])%nat))
        (outlet_outletId Sample.north) "glazed"
        (CustomerSimulator.quantityFor
           (SampleShop.draws (0 + length [Sample.south])%nat)
           (Shopping.stockOf Sample.state "glazed" Sample.north)) Sample.state
      = (ExchangeService.Returns sale, st')
      ∧ CustomerSimulator.firstFindItem SampleShop.draws 0 "glazed"
          ([Sample.south] ++ Sample.north :: []) SampleShop.customer Sample.state
        = (ExchangeService.Returns
             (CustomerSimulator.purchase
                (CustomerSimulator.visit SampleShop.customer
                   (outlet_outletId Sample.north)) sale), st')
      ∧ 0 < sale_quantity sale
      ∧ sale_quantity sale <= Shopping.stockOf Sample.state "glazed" Sample.north.
Proof.
  assert (∀ o', o' ∈ [Sample.south] →
                outlet_isOpen o' = false
                ∨ Shopping.soldOut Sample.state "glazed" o' = true) as Hbefore.
  { intros o' Ho'. apply list_elem_of_singleton in Ho' as ->. by left. }
  split; [exact sample_wellFormed|]. split; [exact Hbefore|].
  split; [reflexivity|]. split; [reflexivity|]. split; [by eexists|].
  split; [reflexivity|].
  apply (X27_firstFind_buys_at_first_stocked SampleShop.draws 0 "glazed"
           [Sample.south] [] Sample.north SampleShop.customer Sample.state).
  - exact sample_wellFormed.
  - exact Hbefore.
  - reflexivity.
  - reflexivity.
  - by eexists.
  - reflexivity.
Defined.

Section ClosingFacts.
Import ExchangeService Ledger CustomerSimulator.

Lemma closed_outlets docs :
  List.filter outlet_isOpen
    (List.filter
       (λ o, negb (bool_decide (outlet_outletId o = "supplier-factory")))
       (OutletRepository.findAll (OutletRepository.toggleAllOpen docs false)))
  = [].
Proof.
  unfold OutletRepository.findAll, OutletRepository.toggleAllOpen.
  induction docs as [|doc docs IH]; [done|].
  rewrite !fmap_cons. cbn [List.filter outlet_outletId
    OutletRepository.doc_outlet_id].
  destruct (negb _); [|exact IH].
  cbn [List.filter]. exact IH.
Qed.
End ClosingFacts.

(** X28: [toggleAllOutletsOpen(false)] closes every outlet of the
    store, the factory with them, and stops retail: as long as the
    outlets stay closed a tick of the simulator creates no customer,
    counts none and changes nothing. *)
Theorem X28_closing_all_stops_customers
    (dice : CustomerSimulator.Dice) (sim : CustomerSimulator.Simulator)
    (st : ExchangeService.State) :
  ∃ closed,
    ExchangeService.toggleAllOutletsOpen false st
      = (ExchangeService.Returns tt, closed)
    ∧ Forall (λ o, outlet_isOpen o = false)
             (OutletRepository.findAll (ExchangeService.outletDb closed))
    ∧ (∀ factory,
         ExchangeService.getFactory closed
         = (ExchangeService.Returns (Some factory), closed) →
         outlet_isOpen factory = false)
    ∧ CustomerSimulator.spawnCustomer dice sim closed = ((sim, None), closed)
    ∧ CustomerSimulator.tick dice sim closed = ((sim, None), closed).
Proof.
  eexists. split; [reflexivity|]. simpl.
  split; [|split; [|split]].
  - unfold OutletRepository.findAll, OutletRepository.toggleAllOpen.
    rewrite <- list_fmap_compose. apply Forall_fmap, Forall_forall. by intros.
  - unfold ExchangeService.getFactory, ExchangeService.outletRepo_findById,
      ExchangeService.gets. simpl.
    intros factory [= Hf].
    destruct (findById_elem _ _ _ Hf) as (doc & Hin & _).
    unfold OutletRepository.findById in Hf.
    destruct (List.filter _ _) as [|d l] eqn:E; [done|].
    assert (In d (List.filter
                    (λ d, bool_decide
                            (OutletRepository.doc_outlet_id d = "supplier-factory"))
                    (OutletRepository.toggleAllOpen
                       (ExchangeService.outletDb st) false)))
      as [Hd _]%filter_In by (rewrite E; by left).
    unfold OutletRepository.toggleAllOpen in Hd.
    apply list_elem_of_In, list_elem_of_fmap in Hd as (d0 & -> & _).
    by injection Hf as <-.
  - unfold CustomerSimulator.spawnCustomer. rewrite getAllOutlets_run.
    unfold Ledger.retailOutlets. simpl. by rewrite closed_outlets.
  - unfold CustomerSimulator.tick. destruct (CustomerSimulator.isRunning sim);
      [|done].
    unfold CustomerSimulator.spawnCustomer. rewrite getAllOutlets_run.
    unfold Ledger.retailOutlets. simpl. by rewrite closed_outlets.
Qed.

Section TimerFacts.
Import CustomerSimulator Shopping.

Lemma start_oneTimer sim : oneTimer sim → oneTimer (start sim).
Proof.
  unfold oneTimer, start. destruct (intervalId sim) as [t|] eqn:E.
  - intros (Hr & Ht & Hlt). by rewrite Hr, E.
  - intros (Hr & Ht). rewrite Hr. simpl. rewrite Ht. split; [done|].
    split; [apply (right_id_L ∅ (∪))|lia].
Qed.

Lemma stop_oneTimer sim : oneTimer sim → oneTimer (stop sim).
Proof.
  unfold oneTimer, stop. destruct (intervalId sim) as [t|] eqn:E; simpl.
  - intros (_ & -> & _). split; [done|apply difference_diag_L].
  - by intros (_ & ->).
Qed.

Lemma command_oneTimer sim c : oneTimer sim → oneTimer (command sim c).
Proof. destruct c; [apply start_oneTimer|apply stop_oneTimer]. Qed.

Lemma commands_oneTimer cs sim : oneTimer sim → oneTimer (foldl command sim cs).
Proof.
  revert sim. induction cs as [|c cs IH]; intros sim H; [done|].
  apply IH. by apply command_oneTimer.
Qed.
End TimerFacts.

(** X29: however [start] and [stop] are called on a new simulator, at
    most one interval is set, and one is set exactly when the simulator
    runs; a second [start] changes nothing (no second interval), and
    after [stop] no interval is left. *)
Theorem X29_simulator_one_interval (commands : list CustomerSimulator.Command) :
  Shopping.oneTimer (foldl CustomerSimulator.command
                       CustomerSimulator.newSimulator commands)
  ∧ size (CustomerSimulator.timers
            (foldl CustomerSimulator.command
               CustomerSimulator.newSimulator commands)) ≤ 1
  ∧ CustomerSimulator.start
      (CustomerSimulator.start
         (foldl CustomerSimulator.command
            CustomerSimulator.newSimulator commands))
    = CustomerSimulator.start
        (foldl CustomerSimulator.command
           CustomerSimulator.newSimulator commands)
  ∧ CustomerSimulator.timers
      (CustomerSimulator.stop
         (foldl CustomerSimulator.command
            CustomerSimulator.newSimulator commands)) = ∅.
Proof.
  assert (Shopping.oneTimer
            (foldl CustomerSimulator.command
               CustomerSimulator.newSimulator commands)) as H
    by by apply commands_oneTimer.
  split; [exact H|].
  pose proof (stop_oneTimer _ H) as Hstop.
  generalize dependent (foldl CustomerSimulator.command
                          CustomerSimulator.newSimulator commands).
  intros sim H Hstop. split; [|split].
  - unfold Shopping.oneTimer in H.
    destruct (CustomerSimulator.intervalId sim) as [t|].
    + destruct H as (_ & -> & _). rewrite size_singleton. lia.
    + destruct H as (_ & ->). rewrite size_empty. lia.
  - unfold CustomerSimulator.start.
    destruct (CustomerSimulator.isRunning sim) eqn:E; simpl; by rewrite ?E.
  - unfold Shopping.oneTimer in Hstop.
    assert (CustomerSimulator.intervalId (CustomerSimulator.stop sim) = None)
      as Hid by (unfold CustomerSimulator.stop;
                 by destruct (CustomerSimulator.intervalId sim)).
    rewrite Hid in Hstop. by destruct Hstop.
Qed.

(** X30: a customer created from a catalogue that is not empty, with a
    number of items between 1 and 3 and a shuffle that permutes the
    catalogue, has a shopping list of at least 1 and at most 3 donut
    types, never more than the catalogue holds, all of the catalogue
    and distinct when the catalogue has no repeated id; it has visited
    nothing and bought nothing, and the counter of customers has grown
    by one. *)
Theorem X30_createCustomer_list
    (dice : CustomerSimulator.Dice) (sim : CustomerSimulator.Simulator)
    (donutTypes : list string) :
  donutTypes ≠ [] →
  (1 ≤ CustomerSimulator.dice_numItems dice ≤ 3)%nat →
  CustomerSimulator.dice_shuffleTypes dice donutTypes ≡ₚ donutTypes →
  ∃ sim' customer,
    CustomerSimulator.createCustomer dice sim donutTypes = (sim', customer)
    ∧ (1 ≤ length (CustomerSimulator.shoppingList customer) ≤ 3)%nat
    ∧ (length (CustomerSimulator.shoppingList customer) ≤ length donutTypes)%nat
    ∧ CustomerSimulator.shoppingList customer ⊆ donutTypes
    ∧ (NoDup donutTypes → NoDup (CustomerSimulator.shoppingList customer))
    ∧ CustomerSimulator.visitedOutlets customer = []
    ∧ CustomerSimulator.purchases customer = []
    ∧ CustomerSimulator.customerCounter sim'
      = S (CustomerSimulator.customerCounter sim)
    ∧ CustomerSimulator.isRunning sim' = CustomerSimulator.isRunning sim.
Proof.
  intros Hne Hn Hperm. eexists _, _. split; [reflexivity|]. simpl.
  pose proof (Permutation_length Hperm) as Hlen.
  assert (length donutTypes ≠ 0)%nat as Hpos by by destruct donutTypes.
  rewrite length_take.
  split; [lia|]. split; [lia|]. split; [|split; [|done]].
  - intros x Hx%elem_of_take. destruct Hx as (i & Hx & _).
    rewrite <- Hperm. by eapply list_elem_of_lookup_2.
  - intros Hnd.
    apply (sublist_NoDup _ (CustomerSimulator.dice_shuffleTypes dice donutTypes));
      [by rewrite Hperm|apply sublist_take].
Qed.

Lemma X30_createCustomer_list_witness :
  ["glazed"; "jelly"] ≠ []
  ∧ (1 ≤ CustomerSimulator.dice_numItems SampleShop.dice ≤ 3)%nat
  ∧ CustomerSimulator.dice_shuffleTypes SampleShop.dice ["glazed"; "jelly"]
    ≡ₚ ["glazed"; "jelly"]
  ∧ ∃ sim' customer,
      CustomerSimulator.createCustomer SampleShop.dice
        CustomerSimulator.newSimulator ["glazed"; "jelly"] = (sim', customer)
      ∧ (1 ≤ length (CustomerSimulator.shoppingList customer) ≤ 3)%nat
      ∧ (length (CustomerSimulator.shoppingList customer)
         ≤ length ["glazed"; "jelly"])%nat
      ∧ CustomerSimulator.shoppingList customer ⊆ ["glazed"; "jelly"]
      ∧ (NoDup ["glazed"; "jelly"] →
         NoDup (CustomerSimulator.shoppingList customer))
      ∧ CustomerSimulator.visitedOutlets customer = []
      ∧ CustomerSimulator.purchases customer = []
      ∧ CustomerSimulator.customerCounter sim'
        = S (CustomerSimulator.customerCounter CustomerSimulator.newSimulator)
      ∧ CustomerSimulator.isRunning sim'
        = CustomerSimulator.isRunning CustomerSimulator.newSimulator.
Proof.
  split; [discriminate|]. split; [simpl; lia|]. split; [reflexivity|].
  apply (X30_createCustomer_list SampleShop.dice CustomerSimulator.newSimulator
           ["glazed"; "jelly"]).
  - discriminate.
  - simpl; lia.
  - reflexivity.
Defined.
